(** * The shared connection registry and the auth-state dispatch of the
      M365 adapters

    A shallow embedding of [microsoft-master/server.py] (the [mm] adapter) and
    of [pwsh-manager/mcp_server.py] (the [pwsh-manager] adapter), with the
    properties of the registry tools, of the connection filter, of the two
    pool clients and of the rendering of the session pool's replies.

    The definitions come first: Python strings, dictionaries and the two
    regular expressions ([Py]); the types the adapters share ([Shared]); the
    two programs ([MM], [PwshManager]); a runtime and sample inputs
    ([Samples]); the notions the statements use ([Notions]); then the entry
    points of the two servers, which are the tool lists, the wrappers that
    log a tool call and the loop of [pwsh-manager] ([PyText], [Entry],
    [MMServer], [PwshServer]), with more notions and sample inputs ([Terms],
    [Scenarios]). The lemmas follow: on the Python operations ([PyFacts],
    [ReFacts]), on each program ([MMFacts], [PwshFacts], [PoolClientFacts],
    [RegistryFacts], [RunFacts], [PwshToolFacts], [EntryFacts]), on the
    registry as the two programs share it ([SharedRegistryFacts]), and the
    programs run on the sample inputs ([Checks], [ScenarioChecks]).

    The tools are typed as their interfaces say. The arguments of a tool
    call follow the tool's input schema, the registry follows its format
    (every entry of a connection a string, [mcps] a list of strings), and the
    pool's replies follow the pool's API. The loop of [pwsh-manager] reads
    any line: one that holds no JSON, one that decodes to any value of JSON,
    one on which the decoding raises; of a tool call that does not follow
    the input schemas it is only said that it is one. Functions of the
    Python runtime are parameters: [json.dumps], [str.lower], [str] on a
    value that is no string, and the clock. *)

From Stdlib Require Import String Ascii NArith ZArith DecimalString Bool Arith Lia
  List.
Import ListNotations.
Open Scope N_scope.
Open Scope list_scope.

Set Implicit Arguments.

(* ===================================================================== *)
(** * Python values *)
(* ===================================================================== *)

Module Py.

(** A Python [str] is a sequence of Unicode code points. *)
Definition pystr := list N.

(** The value of a string literal of the source (ASCII text). *)
Definition py (s : string) : pystr := map N_of_ascii (list_ascii_of_string s).

Definition nl : pystr := [10].
Definition ESC : N := 27.

Fixpoint str_eqb (a b : pystr) : bool :=
  match a, b with
  | [], [] => true
  | x :: a', y :: b' => (x =? y) && str_eqb a' b'
  | _, _ => false
  end.

(** Truth value of a string or of a list: non-empty. *)
Definition truthy {A} (l : list A) : bool :=
  match l with [] => false | _ :: _ => true end.

(** Truth value of [d.get(k)]: the key is there and its value is non-empty. *)
Definition truthy_opt {A} (o : option (list A)) : bool :=
  match o with Some l => truthy l | None => false end.

(** [x in l] for a list [l] of strings. *)
Definition str_in (x : pystr) (l : list pystr) : bool := existsb (str_eqb x) l.

(** [sep.join(parts)]. *)
Fixpoint join (sep : pystr) (parts : list pystr) : pystr :=
  match parts with
  | [] => []
  | [p] => p
  | p :: rest => p ++ sep ++ join sep rest
  end.

(** [s * n]. *)
Fixpoint repeat_str (s : pystr) (n : nat) : pystr :=
  match n with O => [] | S k => s ++ repeat_str s k end.

(** ** [str.strip()]

    With no argument [strip] removes the characters for which
    [str.isspace] holds: the ASCII white space, the separators
    U+001C..U+001F, and the Unicode white space above U+007F. *)
Definition is_space (c : N) : bool :=
  ((9 <=? c) && (c <=? 13)) || ((28 <=? c) && (c <=? 32))
  || (c =? 0x85) || (c =? 0xA0) || (c =? 0x1680)
  || ((0x2000 <=? c) && (c <=? 0x200A))
  || (c =? 0x2028) || (c =? 0x2029) || (c =? 0x202F) || (c =? 0x205F)
  || (c =? 0x3000).

Fixpoint lstrip (s : pystr) : pystr :=
  match s with
  | c :: r => if is_space c then lstrip r else s
  | [] => []
  end.

Definition rstrip (s : pystr) : pystr := rev (lstrip (rev s)).

Definition strip (s : pystr) : pystr := rstrip (lstrip s).

(** ** Dictionaries with string keys

    A Python [dict] keeps its keys in insertion order, and the programs list
    them in that order, so a dictionary is an association list. Its keys are
    pairwise different ([dict_wf]). *)
Definition dict (V : Type) := list (pystr * V).

Definition keys {V} (d : dict V) : list pystr := map fst d.

Definition dict_wf {V} (d : dict V) : Prop := NoDup (keys d).

(** [d.get(k)]. *)
Fixpoint dict_get {V} (d : dict V) (k : pystr) : option V :=
  match d with
  | [] => None
  | (k', v) :: r => if str_eqb k k' then Some v else dict_get r k
  end.

(** [d.get(k, default)]. *)
Definition get_or {V} (d : dict V) (k : pystr) (default : V) : V :=
  match dict_get d k with Some v => v | None => default end.

(** [k in d]. *)
Definition dict_mem {V} (k : pystr) (d : dict V) : bool :=
  match dict_get d k with Some _ => true | None => false end.

(** [d[k] = v]: a key already there keeps its place, a new key goes last. *)
Fixpoint dict_set {V} (d : dict V) (k : pystr) (v : V) : dict V :=
  match d with
  | [] => [(k, v)]
  | (k', v') :: r =>
      if str_eqb k k' then (k', v) :: r else (k', v') :: dict_set r k v
  end.

(** The dictionary left by [d.pop(k)]. *)
Definition dict_pop {V} (d : dict V) (k : pystr) : dict V :=
  filter (fun e => negb (str_eqb k (fst e))) d.

(** [d.update(extra)]. *)
Definition dict_update {V} (d extra : dict V) : dict V :=
  fold_left (fun acc e => dict_set acc (fst e) (snd e)) extra d.

(** ** [re.sub(pattern, '', s)]

    [re.sub] scans [s] from the left. Where the pattern matches at the
    current position the match is dropped and the scan resumes behind it,
    otherwise the character is kept and the scan moves on by one. A pattern
    is given by [match_len], the length of its match at the head of a string;
    [skip] counts the characters of the current match still to drop. *)
Fixpoint sub_from (match_len : pystr -> option nat) (skip : nat) (s : pystr)
  : pystr :=
  match s with
  | [] => []
  | c :: r =>
      match skip with
      | S k => sub_from match_len k r
      | O =>
          match match_len (c :: r) with
          | Some (S k) => sub_from match_len k r
          | _ => c :: sub_from match_len 0 r
          end
      end
  end.

Definition re_sub_del (match_len : pystr -> option nat) (s : pystr) : pystr :=
  sub_from match_len 0 s.

Definition is_digit (c : N) : bool := (48 <=? c) && (c <=? 57).

(** [[0-9;]]. *)
Definition is_sgr_param (c : N) : bool := is_digit c || (c =? 59).

(** [[0-9;]*m] at the head of [s]. The star is greedy, and since no
    parameter character is an [m] giving characters back never helps: the
    pattern matches exactly when the longest run of parameters is followed by
    [m]. *)
Fixpoint sgr_tail (s : pystr) : option nat :=
  match s with
  | [] => None
  | c :: r =>
      if is_sgr_param c then option_map S (sgr_tail r)
      else if c =? 109 then Some 1%nat
      else None
  end.

(** [\x1b\[[0-9;]*m]: select graphic rendition. *)
Definition match_sgr (s : pystr) : option nat :=
  match s with
  | e :: b :: r =>
      if (e =? ESC) && (b =? 91) then option_map (fun n => S (S n)) (sgr_tail r)
      else None
  | _ => None
  end.

(** [[0-9]*[hl]] at the head of [s]. *)
Fixpoint mode_tail (s : pystr) : option nat :=
  match s with
  | [] => None
  | c :: r =>
      if is_digit c then option_map S (mode_tail r)
      else if (c =? 104) || (c =? 108) then Some 1%nat
      else None
  end.

(** [\x1b\[\?[0-9]+[hl]]: set or reset a private mode, such as the cursor's
    visibility. *)
Definition match_mode (s : pystr) : option nat :=
  match s with
  | e :: b :: q :: d :: r =>
      if (e =? ESC) && (b =? 91) && (q =? 63) && is_digit d
      then option_map (fun n => S (S (S (S n)))) (mode_tail r)
      else None
  | _ => None
  end.

(** ** Pieces of the pattern of a GUID *)
Definition is_hex (c : N) : bool :=
  is_digit c || ((97 <=? c) && (c <=? 102)) || ((65 <=? c) && (c <=? 70)).

(** [[0-9a-fA-F]{n}] at the head of [s]: what follows the match. *)
Fixpoint take_hex (n : nat) (s : pystr) : option pystr :=
  match n with
  | O => Some s
  | S k =>
      match s with
      | c :: r => if is_hex c then take_hex k r else None
      | [] => None
      end
  end.

Definition take_dash (s : pystr) : option pystr :=
  match s with
  | c :: r => if c =? 45 then Some r else None
  | [] => None
  end.

Definition and_then {A B} (o : option A) (f : A -> option B) : option B :=
  match o with Some a => f a | None => None end.

(** [$] without [re.MULTILINE]: the end of the string, or the position in
    front of a line feed that ends the string. *)
Definition at_end (s : pystr) : bool :=
  match s with
  | [] => true
  | [c] => c =? 10
  | _ => false
  end.

(** ** JSON documents, as handed to [json.dumps] and as [json.loads]
       returns them

    These are the values of Python that JSON has: [None], a [bool], an
    [int], a [float] (carried by the text Python prints for it), a [str], a
    [list] and a [dict]. *)
#[local] Set Warnings "-register-all".
Inductive json :=
| JNull
| JBool (b : bool)
| JNum (n : Z)
| JFloat (printed : pystr)
| JStr (s : pystr)
| JArr (items : list json)
| JObj (members : list (pystr * json)).
#[local] Set Warnings "register-all".

(** ** Objects of the registry and of the tool calls

    The arguments of a tool call, a connection of the registry and a
    connection listed by the pool are JSON objects. By the tools' input
    schemas and by the registry's format every entry holds a string, except
    [mcps], which holds a list of strings. [strs] has the string entries, in
    their order, and [mcps] the entry of that name. *)
Record obj := mkObj {
  strs : dict pystr;
  mcps : option (list pystr)
}.

(** Truth value of an object: it has an entry. *)
Definition obj_truthy (o : obj) : bool :=
  truthy (strs o) || match mcps o with Some _ => true | None => false end.

(** The keys of an object. *)
Definition obj_keys (o : obj) : list pystr :=
  keys (strs o) ++ match mcps o with Some _ => [py "mcps"] | None => [] end.

Definition json_of_obj (o : obj) : json :=
  JObj (map (fun e => (fst e, JStr (snd e))) (strs o)
        ++ match mcps o with
           | Some l => [(py "mcps", JArr (map JStr l))]
           | None => []
           end).

End Py.

Import Py.

(* ===================================================================== *)
(** * What the two adapters share: the pool's replies, the registry's
      document, the text of a result *)
(* ===================================================================== *)

Module Shared.

(** A session listed by [/sessions]. *)
Record session := mkSession {
  s_connected : bool;
  s_auth_pending : bool;
  s_tenant : pystr;
  s_module : pystr;
  s_last_used : pystr
}.

(** The JSON object a pool endpoint replies with: the object as
    [resp.json()] returns it ([r_received]), which is what [json.dumps] is
    given when a reply is shown whole, and its entries as the programs read
    them with [get], by their type: the strings ([status], [output], [error],
    [device_code], [authenticated_as], [result], [auth_url]; the numbers of
    [/metrics] as the text Python prints for them), the booleans ([success],
    [connected], [auth_pending]), the [connections] of [/connections] and the
    [sessions] of [/sessions]. *)
Record response := mkResponse {
  r_received : json;
  r_strs : dict pystr;
  r_flags : dict bool;
  r_connections : option (dict obj);
  r_sessions : list session
}.

(** [result.get(flag)] as a condition. *)
Definition flag (r : response) (k : pystr) : bool := get_or (r_flags r) k false.

(** The HTTP request a client issues; the endpoint stands for the URL, whose
    base is fixed when the process starts. *)
Inductive request :=
| Get (endpoint : pystr)
| Post (endpoint : pystr) (body : option (dict pystr)).

(** What can go wrong in the HTTP exchange or in reading the reply as JSON.
    [httpx] raises a [TimeoutException] for the first two; [requests] raises
    a [ConnectionError] for a connect timeout and a refused or unreachable
    peer, and a [ReadTimeout] that is no [ConnectionError]. *)
Inductive failure_kind :=
| ConnectTimeout
| ReadTimeout
| ConnectFailed
| OtherFailure.

(** An exception: its kind and [str(e)]. *)
Record failure := mkFailure {
  kind : failure_kind;
  message : pystr
}.

Inductive reply :=
| Replied (r : response)
| Raised (e : failure).

Definition httpx_timeout (e : failure) : bool :=
  match kind e with ConnectTimeout | ReadTimeout => true | _ => false end.

Definition requests_connection_error (e : failure) : bool :=
  match kind e with ConnectTimeout | ConnectFailed => true | _ => false end.

(** The registry file's document: the [connections] mapping and the other
    top-level keys, which the programs carry along unread. *)
Record document := mkDocument {
  connections : option (dict obj);
  extras : list (pystr * json)
}.

(** [registry.get("connections", {})]. *)
Definition connections_of (d : document) : dict obj :=
  match connections d with Some c => c | None => [] end.

(** [{"connections": {}}]. *)
Definition empty_document : document :=
  {| connections := Some []; extras := [] |}.

(** [TextContent(type="text", text=...)]. *)
Record TextContent := mkText {
  type : pystr;
  text : pystr
}.

End Shared.

Import Shared.

(* ===================================================================== *)
(** * [microsoft-master/server.py]: the [mm] adapter *)
(* ===================================================================== *)

Module MM.

(** What a write of the registry file does: it succeeds; [open] fails and
    the file stays as it is; or the file is opened, hence truncated, and the
    write fails, which leaves no JSON document in it. *)
Inductive io_outcome :=
| IoOk
| IoOpenFails
| IoWriteFails.

(** The world the adapter runs in: the registry file ([None] when it is
    missing or holds no JSON document), what a write of it does, the session
    pool, and the trace of the requests sent to the pool and of the documents
    handed to [save_registry]. *)
Record world := mkWorld {
  file : option document;
  disk : io_outcome;
  pool : request -> reply;
  calls : list request;
  writes : list document
}.

Definition VALID_MCPS : list pystr :=
  [py "pnp-m365"; py "microsoft-graph"; py "mm"; py "exo"; py "onenote"].

Definition load_registry (w : world) : document :=
  match file w with
  | Some d => d
  | None => empty_document
  end.

Definition save_registry (data : document) (w : world) : bool * world :=
  let log := writes w ++ [data] in
  match disk w with
  | IoOk =>
      (true, {| file := Some data; disk := disk w; pool := pool w;
                calls := calls w; writes := log |})
  | IoOpenFails =>
      (false, {| file := file w; disk := disk w; pool := pool w;
                 calls := calls w; writes := log |})
  | IoWriteFails =>
      (false, {| file := None; disk := disk w; pool := pool w;
                 calls := calls w; writes := log |})
  end.

(** [bool(re.match(r'^[0-9a-fA-F]{8}-[0-9a-fA-F]{4}-[0-9a-fA-F]{4}-[0-9a-fA-F]{4}-[0-9a-fA-F]{12}$', s))] *)
Definition is_valid_guid (s : pystr) : bool :=
  match
    and_then (and_then (and_then (and_then (and_then (and_then (and_then
      (and_then (take_hex 8 s) take_dash) (take_hex 4)) take_dash)
      (take_hex 4)) take_dash) (take_hex 4)) take_dash) (take_hex 12)
  with
  | Some rest => at_end rest
  | None => false
  end.

(** The reply [call_pool] makes up for an exception. *)
Definition pool_error (msg : pystr) : response :=
  {| r_received := JObj [(py "status", JStr (py "error")); (py "error", JStr msg)];
     r_strs := [(py "status", py "error"); (py "error", msg)];
     r_flags := []; r_connections := None; r_sessions := [] |}.

(** The world once [req] has gone out. *)
Definition sent (w : world) (req : request) : world :=
  {| file := file w; disk := disk w; pool := pool w;
     calls := calls w ++ [req]; writes := writes w |}.

Definition call_pool (endpoint method : pystr) (data : option (dict pystr))
  (w : world) : response * world :=
  let req := if str_eqb method (py "GET") then Get endpoint
             else Post endpoint data in
  let w' := sent w req in
  match pool w req with
  | Replied r => (r, w')
  | Raised e =>
      if httpx_timeout e then (pool_error (py "Request timed out"), w')
      else (pool_error (message e), w')
  end.

Definition text_content (t : pystr) : list TextContent :=
  [{| type := py "text"; text := t |}].

(** [result.get("status") == s]. *)
Definition status_is (r : response) (s : pystr) : bool :=
  match dict_get (r_strs r) (py "status") with
  | Some v => str_eqb v s
  | None => false
  end.

(** [args.get(f)] as a condition. *)
Definition arg_truthy (args : obj) (f : pystr) : bool :=
  if str_eqb f (py "mcps") then truthy_opt (mcps args)
  else truthy_opt (dict_get (strs args) f).

(** [conn[field] = v] for a string [v]. *)
Definition set_str (conn : obj) (field v : pystr) : obj :=
  {| strs := dict_set (strs conn) field v; mcps := mcps conn |}.

(** The document with [connections] set to [c]. *)
Definition with_connections (d : document) (c : dict obj) : document :=
  {| connections := Some c; extras := extras d |}.

Section Runtime.

(** [json.dumps(., indent=2)] and [str.lower], of the Python runtime. *)
Variable json_dumps : json -> pystr.
Variable py_lower : pystr -> pystr.

Definition error_doc (msg : pystr) : json := JObj [(py "error", JStr msg)].

Definition REQUIRED : list pystr :=
  [py "name"; py "tenant"; py "appId"; py "description"; py "mcps"].

(** [[f for f in [...] if not args.get(f)]]. *)
Definition missing_fields (args : obj) : list pystr :=
  filter (fun f => negb (arg_truthy args f)) REQUIRED.

Definition _connection_add (args : obj) (w : world) : list TextContent * world :=
  let name := strip (get_or (strs args) (py "name") []) in
  let tenant := strip (get_or (strs args) (py "tenant") []) in
  let app_id := strip (get_or (strs args) (py "appId") []) in
  let desc := strip (get_or (strs args) (py "description") []) in
  let mcps := match mcps args with Some l => l | None => [] end in
  let missing := missing_fields args in
  if truthy missing then
    (text_content (json_dumps (error_doc
       (py "Missing: " ++ join (py ", ") missing))), w)
  else if negb (is_valid_guid app_id) then
    (text_content (json_dumps (error_doc
       (py "Invalid appId format: " ++ app_id))), w)
  else
    let registry := load_registry w in
    if dict_mem name (connections_of registry) then
      (text_content (json_dumps (error_doc
         (py "'" ++ name ++ py "' already exists. Use connection_update."))), w)
    else
      let record :=
        {| strs := [(py "appId", app_id); (py "tenant", tenant);
                    (py "description", desc)];
           mcps := Some mcps |} in
      let registry' :=
        with_connections registry
          (dict_set (connections_of registry) name record) in
      let '(ok, w') := save_registry registry' w in
      if ok then
        (text_content (json_dumps (JObj
           [(py "success", JBool true);
            (py "message", JStr (py "Connection '" ++ name ++ py "' added"))])),
         w')
      else (text_content (json_dumps (error_doc (py "Failed to save"))), w').

Definition _connection_remove (args : obj) (w : world)
  : list TextContent * world :=
  let name := strip (get_or (strs args) (py "name") []) in
  if negb (truthy name) then
    (text_content (json_dumps (error_doc (py "name is required"))), w)
  else
    let registry := load_registry w in
    match dict_get (connections_of registry) name with
    | None =>
        (text_content (json_dumps (JObj
           [(py "error", JStr (py "'" ++ name ++ py "' not found"));
            (py "available",
             JArr (map JStr (keys (connections_of registry))))])), w)
    | Some removed =>
        let registry' :=
          with_connections registry (dict_pop (connections_of registry) name) in
        let '(ok, w') := save_registry registry' w in
        if ok then
          (text_content (json_dumps (JObj
             [(py "success", JBool true);
              (py "message", JStr (py "'" ++ name ++ py "' removed"));
              (py "removed", json_of_obj removed)])), w')
        else (text_content (json_dumps (error_doc (py "Failed to save"))), w')
    end.

(** The loop of [_connection_update] over the string fields: the connection
    and the list [updated] after it, or the [appId] it rejects. *)
Fixpoint update_fields (fields : list pystr) (args conn : obj)
  (updated : list pystr) : pystr + obj * list pystr :=
  match fields with
  | [] => inr (conn, updated)
  | field :: rest =>
      if truthy_opt (dict_get (strs args) field) then
        let v := get_or (strs args) field [] in
        if str_eqb field (py "appId") && negb (is_valid_guid v) then inl v
        else update_fields rest args (set_str conn field (strip v))
               (updated ++ [field])
      else update_fields rest args conn updated
  end.

Definition _connection_update (args : obj) (w : world)
  : list TextContent * world :=
  let name := strip (get_or (strs args) (py "name") []) in
  if negb (truthy name) then
    (text_content (json_dumps (error_doc (py "name is required"))), w)
  else
    let registry := load_registry w in
    match dict_get (connections_of registry) name with
    | None =>
        (text_content (json_dumps (error_doc
           (py "'" ++ name ++ py "' not found"))), w)
    | Some conn =>
        match update_fields [py "appId"; py "tenant"; py "description"]
                args conn [] with
        | inl bad =>
            (text_content (json_dumps (error_doc
               (py "Invalid appId: " ++ bad))), w)
        | inr (conn1, updated1) =>
            let '(conn2, updated) :=
              if truthy_opt (mcps args)
              then ({| strs := strs conn1; mcps := mcps args |},
                    updated1 ++ [py "mcps"])
              else (conn1, updated1) in
            if negb (truthy updated) then
              (text_content (json_dumps (JObj
                 [(py "message", JStr (py "No changes"))])), w)
            else
              let registry' :=
                with_connections registry
                  (dict_set (connections_of registry) name conn2) in
              let '(ok, w') := save_registry registry' w in
              if ok then
                (text_content (json_dumps (JObj
                   [(py "success", JBool true);
                    (py "updated", JArr (map JStr updated));
                    (py "connection", json_of_obj conn2)])), w')
              else
                (text_content (json_dumps (error_doc (py "Failed to save"))), w')
        end
    end.

(** One line of the connection listing. *)
Definition listing_line (entry : pystr * obj) : pystr :=
  py "- " ++ fst entry ++ py ": "
  ++ get_or (strs (snd entry)) (py "tenant") (py "unknown")
  ++ py " (" ++ get_or (strs (snd entry)) (py "description") [] ++ py ")" ++ nl.

(** [f"\n>>> SIGN IN AS: {expected_email} <<<"], or the reminder made from
    the tenant, or nothing. *)
Definition sign_in_hint (conn_config : obj) : pystr :=
  let expected_email := get_or (strs conn_config) (py "expectedEmail") [] in
  if truthy expected_email then
    nl ++ py ">>> SIGN IN AS: " ++ expected_email ++ py " <<<"
  else
    let tenant := get_or (strs conn_config) (py "tenant") [] in
    if truthy tenant then
      nl ++ py ">>> Sign in with your @" ++ tenant ++ py " account <<<"
    else [].

(** [registry.get("connections", {}).get(connection, {})]. *)
Definition conn_config_of (w : world) (connection : pystr) : obj :=
  get_or (connections_of (load_registry w)) connection
    {| strs := []; mcps := None |}.

Definition wrong_account_warning (expected_email authenticated_as : pystr)
  : pystr :=
  py "WARNING: Wrong account! Expected " ++ expected_email ++ py ", got "
  ++ authenticated_as ++ nl ++ nl.

(** The two [re.sub] of the [success] branch. *)
Definition strip_ansi (output : pystr) : pystr :=
  re_sub_del match_mode (re_sub_del match_sgr output).

(** The [auth_required] branch of the dispatch on [status]. *)
Definition on_auth_required (connection module : pystr) (result : response)
  (w : world) : pystr :=
  let device_code := get_or (r_strs result) (py "device_code") [] in
  let conn_config := conn_config_of w connection in
  py "**DEVICE CODE: " ++ device_code ++ py "**" ++ nl
  ++ py "Go to: https://microsoft.com/devicelogin" ++ nl
  ++ sign_in_hint conn_config ++ nl ++ nl
  ++ py "Connection: " ++ connection ++ nl
  ++ py "Module: " ++ module ++ nl ++ nl
  ++ py "After authenticating, retry the command.".

(** The [success] branch of the dispatch on [status]. *)
Definition on_success (connection : pystr) (result : response) (w : world)
  : pystr :=
  let output := strip_ansi (get_or (r_strs result) (py "output") []) in
  let authenticated_as := dict_get (r_strs result) (py "authenticated_as") in
  let output :=
    if truthy_opt authenticated_as then
      let authenticated_as :=
        get_or (r_strs result) (py "authenticated_as") [] in
      let conn_config := conn_config_of w connection in
      let expected_email :=
        get_or (strs conn_config) (py "expectedEmail") [] in
      if truthy expected_email
         && negb (str_eqb (py_lower expected_email)
                          (py_lower authenticated_as))
      then wrong_account_warning expected_email authenticated_as ++ output
      else output
    else output in
  if truthy (strip output) then strip output else py "(no output)".

(** The branch of [run] without parameters: the connections and the state
    of the pool. *)
Definition list_connections (w : world) : list TextContent * world :=
  let '(result, w1) := call_pool (py "/connections") (py "GET") None w in
  let connections :=
    match r_connections result with Some c => c | None => [] end in
  let '(metrics, w2) := call_pool (py "/metrics") (py "GET") None w1 in
  let output :=
    py "**Available Connections:**" ++ nl
    ++ concat (map listing_line connections)
    ++ nl ++ py "**Session Pool Status:**" ++ nl
    ++ py "- Uptime: "
    ++ get_or (r_strs metrics) (py "uptime_human") (py "unknown") ++ nl
    ++ py "- Requests: "
    ++ get_or (r_strs metrics) (py "total_requests") (py "0") ++ py " ("
    ++ get_or (r_strs metrics) (py "error_rate") (py "0")
    ++ py "% errors)" ++ nl
    ++ py "- Active sessions: "
    ++ get_or (r_strs metrics) (py "active_sessions") (py "0") ++ nl
    ++ py "- Avg response: "
    ++ get_or (r_strs metrics) (py "avg_response_ms") (py "0")
    ++ py "ms" ++ nl in
  (text_content output, w2).

(** The body of the request to [/run]. *)
Definition run_body (connection module command : pystr) : dict pystr :=
  [(py "connection", connection); (py "module", module);
   (py "command", command); (py "caller_id", py "mm-mcp")].

Definition _call_tool_impl (name : pystr) (arguments : obj) (w : world)
  : list TextContent * world :=
  if str_eqb name (py "connection_add") then _connection_add arguments w
  else if str_eqb name (py "connection_remove") then
    _connection_remove arguments w
  else if str_eqb name (py "connection_update") then
    _connection_update arguments w
  else if negb (str_eqb name (py "run")) then
    (text_content (py "Unknown tool: " ++ name), w)
  else
    let connection := dict_get (strs arguments) (py "connection") in
    let module := dict_get (strs arguments) (py "module") in
    let command := dict_get (strs arguments) (py "command") in
    if negb (truthy_opt connection) && negb (truthy_opt module)
       && negb (truthy_opt command) then
      list_connections w
    else if negb (truthy_opt connection && truthy_opt module
                  && truthy_opt command) then
      (text_content
         (py "Error: connection, module, and command are all required"), w)
    else
      let connection := get_or (strs arguments) (py "connection") [] in
      let module := get_or (strs arguments) (py "module") [] in
      let command := get_or (strs arguments) (py "command") [] in
      let '(result, w1) :=
        call_pool (py "/run") (py "POST")
          (Some (run_body connection module command)) w in
      if status_is result (py "auth_required") then
        (text_content (on_auth_required connection module result w1), w1)
      else if status_is result (py "auth_in_progress") then
        (text_content
           (py "Auth in progress by another caller. Retry in a few seconds."),
         w1)
      else if status_is result (py "error") then
        (text_content
           (py "Error: "
            ++ get_or (r_strs result) (py "error") (py "Unknown error")), w1)
      else if status_is result (py "success") then
        (text_content (on_success connection result w1), w1)
      else (text_content (json_dumps (r_received result)), w1).

End Runtime.

End MM.

(* ===================================================================== *)
(** * [pwsh-manager/mcp_server.py]: the [pwsh-manager] adapter *)
(* ===================================================================== *)

Module PwshManager.

(** The world of this adapter: the registry file, which it only reads, the
    session manager, and the trace of the requests sent to it. *)
Record world := mkWorld {
  file : option document;
  pool : request -> reply;
  calls : list request
}.

(** The result of a tool call: [{"content": [...], "isError": True}]; without
    the [isError] key when [isError] is [false]. *)
Record tool_result := mkResult {
  content : list TextContent;
  isError : bool
}.

Definition text_result (t : pystr) : tool_result :=
  {| content := [{| type := py "text"; text := t |}]; isError := false |}.

Definition error_result (t : pystr) : tool_result :=
  {| content := [{| type := py "text"; text := t |}]; isError := true |}.

Definition SHAREPOINT_TENANTS : dict pystr := [(py "forit.io", py "foritllc")].

Definition load_connections (w : world) : dict obj :=
  match file w with
  | Some data => connections_of data
  | None => []
  end.

(** [s.split(".")[0]]. *)
Fixpoint before_dot (s : pystr) : pystr :=
  match s with
  | [] => []
  | c :: r => if c =? 46 then [] else c :: before_dot r
  end.

Definition get_sharepoint_tenant (tenant_domain : pystr) : pystr :=
  get_or SHAREPOINT_TENANTS tenant_domain (before_dot tenant_domain).

(** The reply [api_call] makes up for an exception. *)
Definition api_error (msg : pystr) : response :=
  {| r_received := JObj [(py "success", JBool false); (py "error", JStr msg)];
     r_strs := [(py "error", msg)]; r_flags := [(py "success", false)];
     r_connections := None; r_sessions := [] |}.

(** The world once [req] has gone out. *)
Definition sent (w : world) (req : request) : world :=
  {| file := file w; pool := pool w; calls := calls w ++ [req] |}.

Definition api_call (endpoint : pystr) (data : option (dict pystr)) (w : world)
  : response * world :=
  let req := if truthy_opt data then Post endpoint data else Get endpoint in
  let w' := sent w req in
  match pool w req with
  | Replied r => (r, w')
  | Raised e =>
      if requests_connection_error e then
        (api_error (py "Cannot connect to pwsh-manager. Is Docker running?"), w')
      else (api_error (message e), w')
  end.

(** [conn.get("mcps", [])]. *)
Definition mcps_of (conn : obj) : list pystr :=
  match mcps conn with Some l => l | None => [] end.

(** [build_request], with the [tenant] and [module] it closes over. *)
Definition build_request (tenant module : pystr) (extra : dict pystr)
  : dict pystr :=
  let data := [(py "tenant", tenant); (py "module", module)] in
  let data :=
    if str_eqb module (py "pnp")
    then dict_set data (py "sharepoint_tenant") (get_sharepoint_tenant tenant)
    else data in
  if truthy extra then dict_update data extra else data.

(** The mark and the line of a session in the listing of [pwsh_sessions]:
    U+2713, U+23F3, U+2717. *)
Definition session_line (s : session) : pystr :=
  (if s_connected s then [0x2713]
   else if s_auth_pending s then [0x23F3] else [0x2717])
  ++ py " " ++ s_tenant s ++ py " (" ++ s_module s ++ py ") - Last used: "
  ++ s_last_used s.

Section Adapter.

(** The adapter's identifier (the module's [MCP_NAME], a variable here so
    that the filter is stated for an adapter of any name) and
    [json.dumps(., indent=2)]. *)
Variable MCP_NAME : pystr.
Variable json_dumps : json -> pystr.

(** [MCP_NAME in conn.get("mcps", [])]. *)
Definition allowed (conn : obj) : bool := str_in MCP_NAME (mcps_of conn).

Definition get_connection (name : pystr) (w : world) : option obj :=
  match dict_get (load_connections w) name with
  | Some conn => if obj_truthy conn && allowed conn then Some conn else None
  | None => None
  end.

Definition list_available_connections (w : world) : list pystr :=
  map fst (filter (fun e => allowed (snd e)) (load_connections w)).

Definition _handle_call_tool_impl (name : pystr) (arguments : dict pystr)
  (w : world) : tool_result * world :=
  if str_eqb name (py "pwsh_list_connections") then
    let available :=
      filter (fun e => allowed (snd e)) (load_connections w) in
    if negb (truthy available) then
      (text_result (json_dumps (JObj
         [(py "error", JStr (py "No connections configured for pwsh-manager MCP"));
          (py "hint", JStr (py
             "Add connections to ~/.m365-connections.json with 'pwsh-manager' in mcps array"))])),
       w)
    else
      (text_result (json_dumps (JArr (map (fun e =>
         JObj [(py "name", JStr (fst e));
               (py "tenant", JStr (get_or (strs (snd e)) (py "tenant") []));
               (py "description",
                JStr (get_or (strs (snd e)) (py "description") []))])
         available))), w)
  else if str_eqb name (py "pwsh_sessions") then
    let '(result, w1) := api_call (py "/sessions") None w in
    if negb (truthy (r_sessions result)) then
      (text_result (py "No active sessions"), w1)
    else
      (text_result (join nl
         ([py "Sessions:"; repeat_str (py "-") 50]
          ++ map session_line (r_sessions result))), w1)
  else
    let conn_name := get_or arguments (py "connectionName") [] in
    let module := get_or arguments (py "module") (py "exo") in
    if negb (truthy conn_name) then
      (error_result (json_dumps (JObj
         [(py "error", JStr (py "connectionName is REQUIRED"));
          (py "available", JArr (map JStr (list_available_connections w)));
          (py "hint",
           JStr (py "Every command must specify which connection to use"))])),
       w)
    else
      match get_connection conn_name w with
      | None =>
          (error_result (json_dumps (JObj
             [(py "error",
               JStr (py "Connection '" ++ conn_name
                     ++ py "' not found or not configured for pwsh-manager MCP"));
              (py "available",
               JArr (map JStr (list_available_connections w)))])), w)
      | Some conn =>
          let tenant := get_or (strs conn) (py "tenant") [] in
          if str_eqb name (py "pwsh_login") then
            let account := get_or arguments (py "account") (py "1") in
            let '(result, w1) :=
              api_call (py "/login")
                (Some (build_request tenant module [(py "account", account)]))
                w in
            if truthy_opt (dict_get (r_strs result) (py "device_code")) then
              (text_result
                 (py "**DEVICE CODE: "
                  ++ get_or (r_strs result) (py "device_code") [] ++ py "**"
                  ++ nl ++ py "Go to: "
                  ++ get_or (r_strs result) (py "auth_url")
                       (py "https://microsoft.com/devicelogin") ++ nl ++ nl
                  ++ py "Connection: " ++ conn_name ++ nl
                  ++ py "Tenant: " ++ tenant ++ nl
                  ++ py "Module: " ++ module ++ nl ++ nl
                  ++ (if flag result (py "auth_pending") then
                        py "Authentication pending. Complete device code flow, then check status."
                      else py "Connected")), w1)
            else if flag result (py "success") then
              (text_result
                 (py "Connected to " ++ conn_name ++ py " (" ++ tenant
                  ++ py ") - " ++ module), w1)
            else
              (error_result
                 (py "Login failed: "
                  ++ get_or (r_strs result) (py "error")
                       (get_or (r_strs result) (py "result")
                          (py "Unknown error"))), w1)
          else if str_eqb name (py "pwsh_status") then
            let '(result, w1) :=
              api_call (py "/status") (Some (build_request tenant module [])) w in
            let label :=
              py " " ++ conn_name ++ py " (" ++ tenant ++ py ") - " ++ module in
            (text_result
               (if flag result (py "connected") then
                  [0x2713] ++ label ++ py ": Connected"
                else if flag result (py "auth_pending") then
                  [0x23F3] ++ label
                  ++ py ": Authentication pending (complete device code flow)"
                else [0x2717] ++ label ++ py ": Not connected"), w1)
          else if str_eqb name (py "pwsh_run") then
            let command := get_or arguments (py "command") [] in
            if negb (truthy command) then
              (error_result (py "Error: command is required"), w)
            else
              let '(result, w1) :=
                api_call (py "/run")
                  (Some (build_request tenant module [(py "command", command)]))
                  w in
              if flag result (py "success") then
                (text_result (get_or (r_strs result) (py "result") (py "OK")),
                 w1)
              else
                (error_result
                   (py "Error: "
                    ++ get_or (r_strs result) (py "error")
                         (get_or (r_strs result) (py "result")
                            (py "Command failed"))), w1)
          else if str_eqb name (py "pwsh_disconnect") then
            let confirmation := get_or arguments (py "confirmation") [] in
            if negb (str_eqb confirmation (py "DISCONNECT")) then
              (error_result (json_dumps (JObj
                 [(py "error",
                   JStr (py "Disconnect requires explicit user confirmation"));
                  (py "required",
                   JStr (py "Set confirmation='DISCONNECT' to proceed"));
                  (py "reason",
                   JStr (py
                     "This is a destructive action that terminates an authenticated session"))])),
               w)
            else
              let '(result, w1) :=
                api_call (py "/disconnect")
                  (Some (build_request tenant module [])) w in
              if flag result (py "success") then
                (text_result
                   (py "Disconnected " ++ conn_name ++ py " (" ++ tenant
                    ++ py ") - " ++ module), w1)
              else
                (error_result
                   (py "Error: "
                    ++ get_or (r_strs result) (py "error")
                         (py "Disconnect failed")), w1)
          else (error_result (py "Unknown tool: " ++ name), w)
      end.

End Adapter.

Definition MCP_NAME : pystr := py "pwsh-manager".

End PwshManager.

(* ===================================================================== *)
(** * A runtime and sample inputs, to run the programs on *)
(* ===================================================================== *)

Module Samples.

(** [str.lower] on ASCII text. *)
Definition ascii_lower (s : pystr) : pystr :=
  map (fun c => if (65 <=? c) && (c <=? 90) then c + 32 else c) s.

Definition quoted (s : pystr) : pystr := [34] ++ s ++ [34].

(** A rendering of JSON documents (on one line, strings as they are), for
    the sample runs; the theorems hold for every rendering. *)
Fixpoint dumps (j : json) : pystr :=
  match j with
  | JNull => py "null"
  | JBool true => py "true"
  | JBool false => py "false"
  | JNum n => py (DecimalString.NilZero.string_of_int (Z.to_int n))
  | JFloat printed => printed
  | JStr s => quoted s
  | JArr items => py "[" ++ join (py ", ") (map dumps items) ++ py "]"
  | JObj members =>
      py "{"
      ++ join (py ", ")
           (map (fun e => quoted (fst e) ++ py ": " ++ dumps (snd e)) members)
      ++ py "}"
  end.

Definition guid_1 : pystr := py "12345678-9abc-DEF0-1234-56789abcdef0".

(** A registry with two connections: [ForIT], for both adapters and with an
    expected sign-in address, and [ClientX], for [mm] only. *)
Definition conn_forit : obj :=
  {| strs := [(py "appId", guid_1); (py "tenant", py "forit.io");
              (py "description", py "ForIT tenant");
              (py "expectedEmail", py "a@b.com")];
     mcps := Some [py "mm"; py "pwsh-manager"] |}.

Definition conn_clientx : obj :=
  {| strs := [(py "appId", guid_1);
              (py "tenant", py "clientx.onmicrosoft.com");
              (py "description", py "Client X")];
     mcps := Some [py "mm"] |}.

Definition registry_1 : document :=
  {| connections := Some [(py "ForIT", conn_forit); (py "ClientX", conn_clientx)];
     extras := [(py "version", JNum 1)] |}.

(** A reply of [/run]. *)
Definition run_reply (entries : dict pystr) : response :=
  {| r_received := JObj (map (fun e => (fst e, JStr (snd e))) entries);
     r_strs := entries; r_flags := []; r_connections := None;
     r_sessions := [] |}.

(** A world of [mm] whose pool answers every request with [r]. *)
Definition mm_world (r : reply) : MM.world :=
  {| MM.file := Some registry_1; MM.disk := MM.IoOk; MM.pool := fun _ => r;
     MM.calls := []; MM.writes := [] |}.

(** A world of [pwsh-manager] whose session manager answers every request
    with [r]. *)
Definition pwsh_world (r : reply) : PwshManager.world :=
  {| PwshManager.file := Some registry_1; PwshManager.pool := fun _ => r;
     PwshManager.calls := [] |}.

(** The arguments of a [run] call on [ForIT]. *)
Definition run_args : obj :=
  {| strs := [(py "connection", py "ForIT"); (py "module", py "exo");
              (py "command", py "Get-Mailbox")];
     mcps := None |}.


(** Replies of [/run]: coloured output under another account; white space
    only, under another account; padded output; output that hides the cursor,
    under the expected account in other case; output that switches to the
    alternate screen; a device code. *)
Definition reply_coloured : response :=
  run_reply [(py "status", py "success");
             (py "output", ESC :: py "[32mOK" ++ ESC :: py "[0m");
             (py "authenticated_as", py "x@y.com")].

Definition reply_blank : response :=
  run_reply [(py "status", py "success"); (py "output", py "   ");
             (py "authenticated_as", py "x@y.com")].

Definition reply_padded : response :=
  run_reply [(py "status", py "success"); (py "output", py " OK" ++ nl)].


Definition reply_alt_screen : response :=
  run_reply [(py "status", py "success");
             (py "output", ESC :: py "[?1049h" ++ py "X")].


(** Arguments of the registry tools. *)
Definition str_args (entries : dict pystr) : obj :=
  {| strs := entries; mcps := None |}.

Definition add_incomplete : obj :=
  str_args [(py "name", py "A"); (py "appId", py "zz")].



Definition add_blank_name : obj :=
  {| strs := [(py "name", py " "); (py "tenant", py "a.example");
              (py "appId", guid_1); (py "description", py "A")];
     mcps := Some [py "mm"] |}.

Definition add_new : obj :=
  {| strs := [(py "name", py "New"); (py "tenant", py " new.example ");
              (py "appId", guid_1); (py "description", py "New tenant")];
     mcps := Some [py "mm"] |}.

Definition update_clientx : obj :=
  {| strs := [(py "name", py "ClientX"); (py "description", py " New text ")];
     mcps := Some [py "mm"; py "exo"] |}.

(** An exception of the HTTP exchange: the reply did not come in time. *)
Definition read_timeout : failure :=
  {| kind := ReadTimeout; message := py "Read timed out." |}.

(** A world without a pool that answers. *)
Definition registry_world : MM.world := mm_world (Raised read_timeout).

(** Arguments of [pwsh_disconnect]. *)
Definition disconnect_args (conn_name confirmation : pystr) : dict pystr :=
  [(py "connectionName", conn_name); (py "confirmation", confirmation)].

(** The session manager's reply to a successful call. *)
Definition reply_ok : response :=
  {| r_received := JObj [(py "success", JBool true)];
     r_strs := []; r_flags := [(py "success", true)]; r_connections := None;
     r_sessions := [] |}.

End Samples.

(* ===================================================================== *)
(** * Notions used in the statements *)
(* ===================================================================== *)

Module Notions.



(** Every character of [s] is white space (so is the empty string). *)
Definition blank (s : pystr) : bool := forallb is_space s.

(** A "select graphic rendition" sequence: ESC [[ parameters m]. *)
Definition is_sgr_seq (q : pystr) : Prop :=
  exists ps, Forall (fun c => is_sgr_param c = true) ps
             /\ q = ESC :: 91 :: ps ++ [109].

(** A sequence that sets or resets a private mode, as the one that shows or
    hides the cursor does (mode 25): ESC [[ ? digits h] or [l]. *)
Definition is_mode_seq (q : pystr) : Prop :=
  exists d ds f, is_digit d = true /\ Forall (fun c => is_digit c = true) ds
                 /\ (f = 104 \/ f = 108)
                 /\ q = ESC :: 91 :: 63 :: d :: ds ++ [f].

(** [erased P s t]: [t] is [s] with some occurrences of sequences of the
    kind [P] taken out, and every other character kept in its place. *)
Inductive erased (P : pystr -> Prop) : pystr -> pystr -> Prop :=
| erased_nil : erased P [] []
| erased_keep c s t : erased P s t -> erased P (c :: s) (c :: t)
| erased_drop q s t : P q -> erased P s t -> erased P (q ++ s) t.

(** A [run] call that names a connection, a module and a command. *)
Definition is_run_call (arguments : obj) : Prop :=
  truthy_opt (dict_get (strs arguments) (py "connection")) = true
  /\ truthy_opt (dict_get (strs arguments) (py "module")) = true
  /\ truthy_opt (dict_get (strs arguments) (py "command")) = true.

(** The request such a call sends to the pool. *)
Definition run_request (arguments : obj) : request :=
  Post (py "/run")
    (Some (MM.run_body (get_or (strs arguments) (py "connection") [])
             (get_or (strs arguments) (py "module") [])
             (get_or (strs arguments) (py "command") []))).

(** The [expectedEmail] of the connection [n] in a registry file. *)
Definition expected_email_in (f : option document) (n : pystr) : option pystr :=
  match f with
  | Some d =>
      match dict_get (connections_of d) n with
      | Some c => dict_get (strs c) (py "expectedEmail")
      | None => None
      end
  | None => None
  end.

(** The string fields [connection_update] looks at. *)
Definition STRING_FIELDS : list pystr :=
  [py "appId"; py "tenant"; py "description"].

(** [args.get(f)] as a condition, for a string field. *)
Definition supplied (args : obj) (f : pystr) : bool :=
  truthy_opt (dict_get (strs args) f).

(** The fields a call of [connection_update] sets: the string fields and
    [mcps] that it supplies with a non-empty value, in the order in which
    they are looked at. *)
Definition fields_set (args : obj) : list pystr :=
  filter (supplied args) STRING_FIELDS
  ++ (if truthy_opt (mcps args) then [py "mcps"] else []).

(** The world of [pwsh-manager] in which the registry has no connection
    called [name], and is otherwise the same. *)
Definition without_connection (w : PwshManager.world) (name : pystr)
  : PwshManager.world :=
  {| PwshManager.file :=
       option_map
         (fun d => {| connections :=
                        option_map (fun c => dict_pop c name) (connections d);
                      extras := extras d |})
         (PwshManager.file w);
     PwshManager.pool := PwshManager.pool w;
     PwshManager.calls := PwshManager.calls w |}.

(** The three errors of [pwsh-manager] in front of a tool that needs a
    connection: no name, a name that does not resolve, and a [disconnect]
    without its confirmation. *)
Definition name_required_doc (available : list pystr) : json :=
  JObj [(py "error", JStr (py "connectionName is REQUIRED"));
        (py "available", JArr (map JStr available));
        (py "hint",
         JStr (py "Every command must specify which connection to use"))].

Definition not_found_doc (conn_name : pystr) (available : list pystr) : json :=
  JObj [(py "error",
         JStr (py "Connection '" ++ conn_name
               ++ py "' not found or not configured for pwsh-manager MCP"));
        (py "available", JArr (map JStr available))].

Definition confirmation_required_doc : json :=
  JObj [(py "error",
         JStr (py "Disconnect requires explicit user confirmation"));
        (py "required", JStr (py "Set confirmation='DISCONNECT' to proceed"));
        (py "reason",
         JStr (py
           "This is a destructive action that terminates an authenticated session"))].

(** A GUID, written out: 8-4-4-4-12 hexadecimal digits. *)
Definition is_guid (s : pystr) : Prop :=
  exists a b c d e,
    Forall (fun x => is_hex x = true) (a ++ b ++ c ++ d ++ e)
    /\ length a = 8%nat /\ length b = 4%nat /\ length c = 4%nat
    /\ length d = 4%nat /\ length e = 12%nat
    /\ s = a ++ 45 :: b ++ 45 :: c ++ 45 :: d ++ 45 :: e.

End Notions.

Import Notions.


(* ===================================================================== *)
(** * More of Python's strings *)
(* ===================================================================== *)

Module PyText.

(** [s.startswith(x)]. *)
Fixpoint starts_with (x s : pystr) : bool :=
  match x, s with
  | [], _ => true
  | a :: x', b :: s' => (a =? b) && starts_with x' s'
  | _ :: _, [] => false
  end.

(** [x in s], for two strings. *)
Fixpoint str_contains (x s : pystr) : bool :=
  starts_with x s
  || match s with
     | [] => false
     | _ :: r => str_contains x r
     end.

(** [repr(l)], as an f-string prints a list of strings without quotes,
    backslashes or control characters. *)
Definition repr_strs (l : list pystr) : pystr :=
  py "[" ++ join (py ", ") (map (fun s => py "'" ++ s ++ py "'") l) ++ py "]".

End PyText.

Import PyText.

(* ===================================================================== *)
(** * The entry points of the two servers: the tool lists, the wrappers
      that log a tool call, the loop of [pwsh-manager] *)
(* ===================================================================== *)

Module Entry.

(** The keyword arguments of [log_tool_call]: the record a wrapper hands to
    the logger, which is not part of these programs. *)
Record log_entry (A : Type) := mkLog {
  mcp_name : pystr;
  tool_name : pystr;
  arguments : A;
  connection_name : option pystr;
  result : option pystr;
  error : option pystr;
  duration_ms : Z
}.

(** [Tool(name=..., description=..., inputSchema=...)]. *)
Record Tool := mkTool {
  t_name : pystr;
  t_description : pystr;
  inputSchema : json
}.

End Entry.

Import Entry.

Module MMServer.
Import MM.

(** [list_tools]. *)
Definition list_tools : list Tool :=
  [
   {| t_name := py "run";
      t_description := py "Execute a PowerShell command. Omit all params to list connections. Provide connection+module+command to execute.";
      inputSchema := JObj [
          (py "type", JStr (py "object"));
          (py "properties", JObj [
            (py "connection", JObj [
              (py "type", JStr (py "string"));
              (py "description", JStr (py "Connection name (e.g., 'ForIT-GA')"))]);
            (py "module", JObj [
              (py "type", JStr (py "string"));
              (py "description", JStr (py "exo=Exchange, pnp=SharePoint, azure, teams"));
              (py "enum", JArr [JStr (py "exo"); JStr (py "pnp"); JStr (py "azure"); JStr (py "teams")])]);
            (py "command", JObj [
              (py "type", JStr (py "string"));
              (py "description", JStr (py "PowerShell command"))])])] |};
   {| t_name := py "connection_add";
      t_description := py "Add a new M365 connection. Requires appId from an Azure AD app registration.";
      inputSchema := JObj [
          (py "type", JStr (py "object"));
          (py "properties", JObj [
            (py "name", JObj [
              (py "type", JStr (py "string"));
              (py "description", JStr (py "Connection name (e.g., 'ClientX')"))]);
            (py "tenant", JObj [
              (py "type", JStr (py "string"));
              (py "description", JStr (py "Tenant domain (e.g., 'clientx.onmicrosoft.com')"))]);
            (py "appId", JObj [
              (py "type", JStr (py "string"));
              (py "description", JStr (py "Azure AD app registration ID (GUID)"))]);
            (py "description", JObj [
              (py "type", JStr (py "string"));
              (py "description", JStr (py "What this connection is for"))]);
            (py "mcps", JObj [
              (py "type", JStr (py "array"));
              (py "items", JObj [
                (py "type", JStr (py "string"))]);
              (py "description", JStr (py "Which MCPs can use this. Valid: " ++ repr_strs VALID_MCPS))])]);
          (py "required", JArr [JStr (py "name"); JStr (py "tenant"); JStr (py "appId"); JStr (py "description"); JStr (py "mcps")])] |};
   {| t_name := py "connection_remove";
      t_description := py "Remove a connection by name.";
      inputSchema := JObj [
          (py "type", JStr (py "object"));
          (py "properties", JObj [
            (py "name", JObj [
              (py "type", JStr (py "string"));
              (py "description", JStr (py "Connection name to remove"))])]);
          (py "required", JArr [JStr (py "name")])] |};
   {| t_name := py "connection_update";
      t_description := py "Update an existing connection's properties.";
      inputSchema := JObj [
          (py "type", JStr (py "object"));
          (py "properties", JObj [
            (py "name", JObj [
              (py "type", JStr (py "string"));
              (py "description", JStr (py "Connection name to update"))]);
            (py "appId", JObj [
              (py "type", JStr (py "string"));
              (py "description", JStr (py "New app ID"))]);
            (py "tenant", JObj [
              (py "type", JStr (py "string"));
              (py "description", JStr (py "New tenant"))]);
            (py "description", JObj [
              (py "type", JStr (py "string"));
              (py "description", JStr (py "New description"))]);
            (py "mcps", JObj [
              (py "type", JStr (py "array"));
              (py "items", JObj [
                (py "type", JStr (py "string"))]);
              (py "description", JStr (py "New MCP list"))])]);
          (py "required", JArr [JStr (py "name")])] |}
  ].

Section Runtime.

Variable json_dumps : json -> pystr.
Variable py_lower : pystr -> pystr.

(** [call_tool]: the tool is run and the call is logged, with the first 100
    characters of the text as the error when they hold the word "error" in
    any case, and as the result otherwise. [duration] is what the clock
    gives for the call, in milliseconds. The tool raises no exception on
    arguments of its schema, so the handler of exceptions is not entered. *)
Definition call_tool (duration : Z) (name : pystr) (arguments : obj) (w : world)
  : list TextContent * world * log_entry obj :=
  let connection_name :=
    if truthy_opt (dict_get (strs arguments) (py "connection"))
    then dict_get (strs arguments) (py "connection")
    else dict_get (strs arguments) (py "name") in
  let '(result, w1) := _call_tool_impl json_dumps py_lower name arguments w in
  let '(error_msg, result_summary) :=
    match result with
    | first :: _ =>
        let text := firstn 100 (text first) in
        if str_contains (py "error") (py_lower text) then (Some text, None)
        else (None, Some text)
    | [] => (None, None)
    end in
  (result, w1,
   {| mcp_name := py "mm"; tool_name := name; arguments := arguments;
      connection_name := connection_name; result := result_summary;
      error := error_msg; duration_ms := duration |}).

End Runtime.

End MMServer.

Module PwshServer.
Import PwshManager.

(** [handle_initialize]; it does not read its argument. *)
Definition handle_initialize : json :=
  JObj [
      (py "protocolVersion", JStr (py "2024-11-05"));
      (py "capabilities", JObj [
        (py "tools", JObj [])]);
      (py "serverInfo", JObj [
        (py "name", JStr (py "pwsh-manager"));
        (py "version", JStr (py "1.0.0"))])].

(** [handle_list_tools]. *)
Definition handle_list_tools : json :=
  JObj [
      (py "tools", JArr [
        JObj [
          (py "name", JStr (py "pwsh_login"));
          (py "description", JStr (py "Authenticate to a Microsoft service (EXO, PnP, Azure, Power Platform, Teams). Returns device code for authentication."));
          (py "inputSchema", JObj [
            (py "type", JStr (py "object"));
            (py "properties", JObj [
              (py "connectionName", JObj [
                (py "type", JStr (py "string"));
                (py "description", JStr (py "REQUIRED: Connection name from ~/.m365-connections.json (e.g., 'ForIT')"))]);
              (py "module", JObj [
                (py "type", JStr (py "string"));
                (py "enum", JArr [JStr (py "exo"); JStr (py "pnp"); JStr (py "azure"); JStr (py "powerplatform"); JStr (py "teams")]);
                (py "description", JStr (py "Module to authenticate: exo (Exchange), pnp (SharePoint), azure, powerplatform, teams (MicrosoftTeams)"));
                (py "default", JStr (py "exo"))]);
              (py "account", JObj [
                (py "type", JStr (py "string"));
                (py "description", JStr (py "For Azure: which account to select when prompted (default: '1'). Use '2', '3', etc. if you have multiple Azure accounts."));
                (py "default", JStr (py "1"))])]);
            (py "required", JArr [JStr (py "connectionName")])])];
        JObj [
          (py "name", JStr (py "pwsh_status"));
          (py "description", JStr (py "Check authentication status for a connection/module combination."));
          (py "inputSchema", JObj [
            (py "type", JStr (py "object"));
            (py "properties", JObj [
              (py "connectionName", JObj [
                (py "type", JStr (py "string"));
                (py "description", JStr (py "REQUIRED: Connection name (e.g., 'ForIT')"))]);
              (py "module", JObj [
                (py "type", JStr (py "string"));
                (py "enum", JArr [JStr (py "exo"); JStr (py "pnp"); JStr (py "azure"); JStr (py "powerplatform"); JStr (py "teams")]);
                (py "default", JStr (py "exo"))])]);
            (py "required", JArr [JStr (py "connectionName")])])];
        JObj [
          (py "name", JStr (py "pwsh_run"));
          (py "description", JStr (py "Execute a PowerShell command in an authenticated session."));
          (py "inputSchema", JObj [
            (py "type", JStr (py "object"));
            (py "properties", JObj [
              (py "connectionName", JObj [
                (py "type", JStr (py "string"));
                (py "description", JStr (py "REQUIRED: Connection name (e.g., 'ForIT')"))]);
              (py "module", JObj [
                (py "type", JStr (py "string"));
                (py "enum", JArr [JStr (py "exo"); JStr (py "pnp"); JStr (py "azure"); JStr (py "powerplatform"); JStr (py "teams")]);
                (py "default", JStr (py "exo"))]);
              (py "command", JObj [
                (py "type", JStr (py "string"));
                (py "description", JStr (py "PowerShell command to execute (e.g., 'Get-Mailbox -ResultSize 10')"))])]);
            (py "required", JArr [JStr (py "connectionName"); JStr (py "command")])])];
        JObj [
          (py "name", JStr (py "pwsh_sessions"));
          (py "description", JStr (py "List all active PowerShell sessions and their status."));
          (py "inputSchema", JObj [
            (py "type", JStr (py "object"));
            (py "properties", JObj [])])];
        JObj [
          (py "name", JStr (py "pwsh_list_connections"));
          (py "description", JStr (py "List all connections configured for pwsh-manager from ~/.m365-connections.json."));
          (py "inputSchema", JObj [
            (py "type", JStr (py "object"));
            (py "properties", JObj [])])];
        JObj [
          (py "name", JStr (py "pwsh_disconnect"));
          (py "description", JStr (py "Disconnect a specific session. REQUIRES explicit user confirmation to prevent accidental disconnects."));
          (py "inputSchema", JObj [
            (py "type", JStr (py "object"));
            (py "properties", JObj [
              (py "connectionName", JObj [
                (py "type", JStr (py "string"));
                (py "description", JStr (py "REQUIRED: Connection name (e.g., 'ForIT')"))]);
              (py "module", JObj [
                (py "type", JStr (py "string"));
                (py "enum", JArr [JStr (py "exo"); JStr (py "pnp"); JStr (py "azure"); JStr (py "powerplatform"); JStr (py "teams")]);
                (py "default", JStr (py "exo"))]);
              (py "confirmation", JObj [
                (py "type", JStr (py "string"));
                (py "description", JStr (py "REQUIRED: Must be exactly 'DISCONNECT' to confirm this destructive action"))])]);
            (py "required", JArr [JStr (py "connectionName"); JStr (py "confirmation")])])]])].

(** The dictionary of a result, as [json.dumps] gets it. *)
Definition json_of_result (r : tool_result) : json :=
  JObj ((py "content",
         JArr (map (fun c => JObj [(py "type", JStr (type c));
                                   (py "text", JStr (text c))])
                 (content r)))
        :: (if isError r then [(py "isError", JBool true)] else [])).

(** ** The loop of [main]

    What reading a line of the standard input and decoding it gives:
    [json.loads] raises a [JSONDecodeError]; the reading or the decoding
    raises another exception (a [RecursionError] when the document is
    nested too deep, a [UnicodeDecodeError] when the bytes are no text), of
    which the loop uses [str(e)]; or the line decodes to a document, which
    may be any value of JSON. *)
Inductive line :=
| NotJson
| Raises (message : pystr)
| Json (document : json).

(** The process: the world of the adapter, the documents written to the
    standard output, one a line, the records handed to the logger, and the
    variable [request_id] of [main], which has no value ([None]) until the
    body of the loop assigns one, and keeps its value from one line to the
    next. Python's [None] is [JNull]. *)
Record process := mkProcess {
  env : world;
  stdout : list json;
  logged : list (log_entry (dict pystr));
  request_id : option json
}.

(** What the body of the loop leaves: the loop goes on to the next line, and
    [main] returns when there is none; or an exception leaves [main], which
    ends the program; or the line asks for a tool call that does not follow
    the input schemas of the tools, on which the tools are not described. *)
Inductive outcome :=
| Alive (p : process)
| Dead (p : process)
| OffSchema.

(** The process when it starts. *)
Definition start (w : world) : process :=
  {| env := w; stdout := []; logged := []; request_id := None |}.

(** [v == s] for a string [s]. *)
Definition is_str (v : json) (s : pystr) : bool :=
  match v with
  | JStr x => str_eqb x s
  | _ => false
  end.

(** The name of the type of a value, as Python prints it in a message. *)
Definition type_name (v : json) : pystr :=
  match v with
  | JNull => py "NoneType"
  | JBool _ => py "bool"
  | JNum _ => py "int"
  | JFloat _ => py "float"
  | JStr _ => py "str"
  | JArr _ => py "list"
  | JObj _ => py "dict"
  end.

(** [str(e)] for the [AttributeError] that [v.get] raises on a value that
    is no dictionary. *)
Definition no_get (v : json) : pystr :=
  py "'" ++ type_name v ++ py "' object has no attribute 'get'".

(** The arguments of a tool call that follow the input schemas: every one
    of them a string. *)
Fixpoint typed (members : list (pystr * json)) : option (dict pystr) :=
  match members with
  | [] => Some []
  | (k, JStr s) :: rest =>
      match typed rest with
      | Some d => Some ((k, s) :: d)
      | None => None
      end
  | _ => None
  end.

(** [sys.stdout.write(json.dumps(doc) + "\n")]. *)
Definition write (doc : json) (p : process) : process :=
  {| env := env p; stdout := stdout p ++ [doc]; logged := logged p;
     request_id := request_id p |}.

(** [request_id = request.get("id")]. *)
Definition assign (i : json) (p : process) : process :=
  {| env := env p; stdout := stdout p; logged := logged p;
     request_id := Some i |}.

(** The end of the loop's body: the response is written when [request_id]
    is not [None]. *)
Definition respond (result : json) (p : process) : process :=
  match request_id p with
  | Some JNull => p
  | Some i =>
      write (JObj [(py "jsonrpc", JStr (py "2.0")); (py "id", i);
                   (py "result", result)]) p
  | None => p
  end.

(** The handler [except Exception as e] of the loop, for [str(e)]. It reads
    [request_id], whatever line gave it its value; when no line has, reading
    it raises an [UnboundLocalError], which nothing catches. *)
Definition on_exception (message : pystr) (p : process) : outcome :=
  match request_id p with
  | Some JNull => Alive p
  | Some i =>
      Alive (write (JObj [(py "jsonrpc", JStr (py "2.0")); (py "id", i);
                          (py "error",
                           JObj [(py "code", JNum (-32603));
                                 (py "message", JStr message)])]) p)
  | None => Dead p
  end.

Section Adapter.

Variable MCP_NAME : pystr.
Variable json_dumps : json -> pystr.

(** [handle_call_tool]: the tool is run and the call is logged, with the
    first 100 characters of the text as the error or as the result, by
    [isError]. [duration] is what the clock gives for the call, in
    milliseconds. *)
Definition handle_call_tool (duration : Z) (name : pystr)
  (arguments : dict pystr) (w : world)
  : tool_result * world * log_entry (dict pystr) :=
  let conn_name := get_or arguments (py "connectionName") [] in
  let '(result, w1) :=
    _handle_call_tool_impl MCP_NAME json_dumps name arguments w in
  let '(error_msg, result_summary) :=
    match content result with
    | first :: _ =>
        let text := firstn 100 (text first) in
        if isError result then (Some text, None) else (None, Some text)
    | [] => (None, None)
    end in
  (result, w1,
   {| mcp_name := py "pwsh-manager"; tool_name := name; arguments := arguments;
      connection_name := if truthy conn_name then Some conn_name else None;
      result := result_summary; error := error_msg;
      duration_ms := duration |}).

(** [elapsed n] is the duration the clock gives for the tool call number
    [n], counted from 0. *)
Variable elapsed : nat -> Z.

(** [str(v)], of the Python runtime, for a value that is no string. *)
Variable py_str : json -> pystr.

(** [f"{v}"]. *)
Definition shown (v : json) : pystr :=
  match v with
  | JStr s => s
  | other => py_str other
  end.

(** The body of the loop of [main] on one line. [request.get] raises an
    [AttributeError] when the document is no object, before [request_id] is
    assigned; [params.get] raises one when the [params] of a tool call are
    no object, and so does [arguments.get], in the first lines of
    [handle_call_tool], when the [arguments] are no object: the call is then
    not logged, as the logging is in the [try] statement that follows. *)
Definition serve (l : line) (p : process) : outcome :=
  match l with
  | NotJson => Alive p
  | Raises message => on_exception message p
  | Json (JObj request) =>
      let method := get_or request (py "method") (JStr []) in
      let params := get_or request (py "params") (JObj []) in
      let p := assign (get_or request (py "id") JNull) p in
      if is_str method (py "initialize") then
        Alive (respond handle_initialize p)
      else if is_str method (py "notifications/initialized") then Alive p
      else if is_str method (py "tools/list") then
        Alive (respond handle_list_tools p)
      else if is_str method (py "tools/call") then
        match params with
        | JObj q =>
            let tool_name := get_or q (py "name") (JStr []) in
            let arguments := get_or q (py "arguments") (JObj []) in
            match arguments with
            | JObj a =>
                match tool_name, typed a with
                | JStr name, Some args =>
                    let '(result, w1, entry) :=
                      handle_call_tool (elapsed (length (logged p))) name args
                        (env p) in
                    Alive (respond (json_of_result result)
                             {| env := w1; stdout := stdout p;
                                logged := logged p ++ [entry];
                                request_id := request_id p |})
                | _, _ => OffSchema
                end
            | other => on_exception (no_get other) p
            end
        | other => on_exception (no_get other) p
        end
      else
        Alive (respond
                 (JObj [(py "error",
                         JObj [(py "code", JNum (-32601));
                               (py "message",
                                JStr (py "Unknown method: " ++ shown method))])])
                 p)
  | Json other => on_exception (no_get other) p
  end.

(** [main]: the loop over the lines of the standard input, up to its end or
    to the exception that leaves it. *)
Fixpoint main (stdin : list line) (p : process) : outcome :=
  match stdin with
  | [] => Alive p
  | l :: rest =>
      match serve l p with
      | Alive p' => main rest p'
      | stop => stop
      end
  end.

End Adapter.

End PwshServer.

(* ===================================================================== *)
(** * More notions used in the statements *)
(* ===================================================================== *)

Module Terms.

(** The name a registry tool works on: [args.get("name", "").strip()]. *)
Definition stripped_name (args : obj) : pystr :=
  strip (get_or (strs args) (py "name") []).

(** The record [connection_add] stores for its arguments. *)
Definition added_record (args : obj) : obj :=
  {| strs := [(py "appId", strip (get_or (strs args) (py "appId") []));
              (py "tenant", strip (get_or (strs args) (py "tenant") []));
              (py "description",
               strip (get_or (strs args) (py "description") []))];
     mcps := Some (match mcps args with Some l => l | None => [] end) |}.

(** A call of [connection_add] that none of the three checks rejects: no
    field is missing, the [appId] is a GUID once stripped, and the registry
    has no connection of the name. *)
Definition add_accepted (args : obj) (w : MM.world) : Prop :=
  MM.missing_fields args = []
  /\ is_guid (strip (get_or (strs args) (py "appId") []))
  /\ dict_get (connections_of (MM.load_registry w)) (stripped_name args) = None.

(** Terminal output cut in pieces: stretches of text and control
    sequences. *)
Inductive piece :=
| Text (s : pystr)
| Control (q : pystr).

(** The output the pieces make up. *)
Definition raw_of (ps : list piece) : pystr :=
  concat (map (fun p => match p with Text s => s | Control q => q end) ps).

(** Its text: the pieces without the control sequences. *)
Definition text_of (ps : list piece) : pystr :=
  concat (map (fun p => match p with Text s => s | Control _ => [] end) ps).

(** The text holds no ESC, and every control sequence is one of the two
    kinds the [success] branch takes out. *)
Definition well_formed (ps : list piece) : Prop :=
  Forall (fun p => match p with
                   | Text s => ~ In ESC s
                   | Control q => is_sgr_seq q \/ is_mode_seq q
                   end) ps.

(** A member of a JSON object. *)
Definition member (j : json) (k : pystr) : option json :=
  match j with
  | JObj members => dict_get members k
  | _ => None
  end.

(** The strings of a JSON array. *)
Definition strings_of (j : json) : list pystr :=
  match j with
  | JArr items =>
      flat_map (fun x => match x with JStr s => [s] | _ => [] end) items
  | _ => []
  end.

(** The fields an input schema marks as required. *)
Definition required_of (schema : json) : list pystr :=
  match member schema (py "required") with
  | Some r => strings_of r
  | None => []
  end.

(** The tools a tool list in JSON declares, each with its required
    fields. *)
Definition declared (listing : json) : list (pystr * list pystr) :=
  match member listing (py "tools") with
  | Some (JArr tools) =>
      map (fun t =>
             (match member t (py "name") with Some (JStr n) => n | _ => [] end,
              match member t (py "inputSchema") with
              | Some schema => required_of schema
              | None => []
              end)) tools
  | _ => []
  end.

(** The request of a line: the line decodes to an object. *)
Definition request_of (l : PwshServer.line) : option (dict json) :=
  match l with
  | PwshServer.Json (JObj request) => Some request
  | _ => None
  end.

(** The [method], the [id] and the [params] of a request, with what [main]
    takes when the request has none. *)
Definition method_of (request : dict json) : json :=
  get_or request (py "method") (JStr []).

Definition id_of (request : dict json) : json :=
  get_or request (py "id") JNull.

Definition params_of (request : dict json) : json :=
  get_or request (py "params") (JObj []).

(** The message of Python when [get] is asked of a value that is no
    object. *)
Definition get_fails (v : json) : option pystr :=
  match v with
  | JNull => Some (py "'NoneType' object has no attribute 'get'")
  | JBool _ => Some (py "'bool' object has no attribute 'get'")
  | JNum _ => Some (py "'int' object has no attribute 'get'")
  | JFloat _ => Some (py "'float' object has no attribute 'get'")
  | JStr _ => Some (py "'str' object has no attribute 'get'")
  | JArr _ => Some (py "'list' object has no attribute 'get'")
  | JObj _ => None
  end.

(** The exception a line makes the body of the loop raise, by its message:
    the line cannot be read or decoded; it decodes to a value that is no
    object; or it asks for a tool call with [params] that are no object, or
    with [arguments] that are no object. *)
Definition raises (l : PwshServer.line) : option pystr :=
  match l with
  | PwshServer.NotJson => None
  | PwshServer.Raises message => Some message
  | PwshServer.Json (JObj request) =>
      if PwshServer.is_str (method_of request) (py "tools/call") then
        match params_of request with
        | JObj q => get_fails (get_or q (py "arguments") (JObj []))
        | other => get_fails other
        end
      else None
  | PwshServer.Json other => get_fails other
  end.

(** The line asks for a tool call that reaches the tool: its [params] and
    its [arguments] are objects. *)
Definition is_tool_call (l : PwshServer.line) : bool :=
  match request_of l with
  | Some request =>
      PwshServer.is_str (method_of request) (py "tools/call")
      && match params_of request with
         | JObj q =>
             match get_or q (py "arguments") (JObj []) with
             | JObj _ => true
             | _ => false
             end
         | _ => false
         end
  | None => false
  end.

(** The tool call of the line follows the input schemas of the tools: the
    name of the tool is a string, and so is every argument. *)
Definition on_schema (l : PwshServer.line) : bool :=
  match request_of l with
  | Some request =>
      match params_of request with
      | JObj q =>
          match get_or q (py "name") (JStr []),
                get_or q (py "arguments") (JObj []) with
          | JStr _, JObj a =>
              match PwshServer.typed a with Some _ => true | None => false end
          | _, _ => false
          end
      | _ => false
      end
  | None => false
  end.

(** A line in order: no JSON document, which [main] passes over, or a
    request on which nothing raises an exception, and whose tool call, if it
    asks for one, follows the input schemas. *)
Definition orderly (l : PwshServer.line) : bool :=
  match l with
  | PwshServer.NotJson => true
  | PwshServer.Raises _ => false
  | PwshServer.Json (JObj request) =>
      negb (PwshServer.is_str (method_of request) (py "tools/call"))
      || on_schema l
  | PwshServer.Json _ => false
  end.

(** The [id] under which [main] answers a line in order, if it answers it:
    the line holds a request with an [id] that is not [null], and is not the
    notification of the end of the initialization. *)
Definition answered (l : PwshServer.line) : option json :=
  match request_of l with
  | Some request =>
      if PwshServer.is_str (method_of request) (py "notifications/initialized")
      then None
      else match id_of request with
           | JNull => None
           | _ => Some (id_of request)
           end
  | None => None
  end.

(** The ids of the lines that are answered, in their order. *)
Definition answered_ids (stdin : list PwshServer.line) : list json :=
  flat_map (fun l => match answered l with Some i => [i] | None => [] end)
    stdin.

(** The line with the [id] of its request taken away. *)
Definition without_id (l : PwshServer.line) : PwshServer.line :=
  match l with
  | PwshServer.Json (JObj request) =>
      PwshServer.Json (JObj (dict_pop request (py "id")))
  | other => other
  end.

(** A response of JSON-RPC to the request of id [i]. *)
Definition response_to (i : json) (doc : json) : Prop :=
  exists result,
    doc = JObj [(py "jsonrpc", JStr (py "2.0")); (py "id", i);
                (py "result", result)].

(** The error of JSON-RPC that [main] writes for an exception, under the
    id [i]. *)
Definition internal_error (i : json) (message : pystr) : json :=
  JObj [(py "jsonrpc", JStr (py "2.0")); (py "id", i);
        (py "error",
         JObj [(py "code", JNum (-32603)); (py "message", JStr message)])].

(** Two processes with the same world and the same records for the logger,
    the first of which answers no line: [request_id] has no value in both,
    or it is [None] in the first. *)
Definition shadows (q p : PwshServer.process) : Prop :=
  PwshServer.env q = PwshServer.env p
  /\ PwshServer.logged q = PwshServer.logged p
  /\ ((PwshServer.request_id p = None /\ PwshServer.request_id q = None)
      \/ (PwshServer.request_id p <> None
          /\ PwshServer.request_id q = Some JNull)).

(** Two outcomes with the same effects, the second with no document
    written beyond [written]. *)
Definition same_effects (written : list json)
  (spoken silent : PwshServer.outcome) : Prop :=
  match spoken, silent with
  | PwshServer.Alive a, PwshServer.Alive b
  | PwshServer.Dead a, PwshServer.Dead b =>
      PwshServer.env b = PwshServer.env a
      /\ PwshServer.logged b = PwshServer.logged a
      /\ PwshServer.stdout b = written
  | PwshServer.OffSchema, PwshServer.OffSchema => True
  | _, _ => False
  end.

(** The three registry tools. *)
Definition REGISTRY_TOOLS : list pystr :=
  [py "connection_add"; py "connection_remove"; py "connection_update"].

End Terms.

Import Terms.

(* ===================================================================== *)
(** * More sample inputs *)
(* ===================================================================== *)

Module Scenarios.
Import Samples.

(** Arguments of the registry tools: the removal of [New]; a second
    [connection_add] of [New]; a connection for both adapters; an [appId]
    with a blank in front of it, for [connection_add] and for
    [connection_update]. *)
Definition remove_new : obj := str_args [(py "name", py " New ")].

Definition add_new_again : obj :=
  {| strs := [(py "name", py "New"); (py "tenant", py "other.example");
              (py "appId", guid_1); (py "description", py "Another one")];
     mcps := Some [py "exo"] |}.

Definition add_new_no_guid : obj :=
  {| strs := [(py "name", py "New"); (py "tenant", py "other.example");
              (py "appId", py "zz"); (py "description", py "Another one")];
     mcps := Some [py "exo"] |}.

Definition add_shared : obj :=
  {| strs := [(py "name", py "Shared"); (py "tenant", py "shared.example");
              (py "appId", guid_1); (py "description", py "For both")];
     mcps := Some [py "mm"; py "pwsh-manager"] |}.

Definition add_padded : obj :=
  {| strs := [(py "name", py "Padded"); (py "tenant", py "padded.example");
              (py "appId", py " " ++ guid_1);
              (py "description", py "Padded appId")];
     mcps := Some [py "mm"] |}.

Definition update_padded : obj :=
  str_args [(py "name", py "ClientX"); (py "appId", py " " ++ guid_1)].

Definition remove_clientx : obj := str_args [(py "name", py "ClientX")].

(** The registry once [connection_add] has stored a connection under the
    empty name. *)
Definition world_with_unnamed : MM.world :=
  snd (MM._connection_add dumps add_blank_name registry_world).

(** Replies of [/run] to [mm]: another caller is signing in; the command
    failed; a status [mm] does not know. *)
Definition reply_busy : response :=
  run_reply [(py "status", py "auth_in_progress")].

Definition reply_failed : response :=
  run_reply [(py "status", py "error"); (py "error", py "No such cmdlet")].

Definition reply_queued : response := run_reply [(py "status", py "queued")].

(** Coloured output that hides the cursor at its end, in pieces, and the
    reply of [/run] that carries it. *)
Definition coloured_pieces : list piece :=
  [Control (ESC :: py "[32m"); Text (py "OK"); Control (ESC :: py "[0m");
   Control (ESC :: py "[?25l")].

Definition reply_pieces : response :=
  run_reply [(py "status", py "success");
             (py "output", raw_of coloured_pieces)].

(** Arguments of the tools of [pwsh-manager] on [ForIT]. *)
Definition forit_args : dict pystr := [(py "connectionName", py "ForIT")].

Definition forit_pnp_run : dict pystr :=
  [(py "connectionName", py "ForIT"); (py "module", py "pnp");
   (py "command", py "Get-PnPList")].

(** Replies of the session manager: a device code, with the sign-in
    pending; a session that is connected; the result of a command. *)
Definition reply_code : response :=
  {| r_received := JObj [(py "device_code", JStr (py "XYZ-789"));
                         (py "auth_pending", JBool true)];
     r_strs := [(py "device_code", py "XYZ-789")];
     r_flags := [(py "auth_pending", true)]; r_connections := None;
     r_sessions := [] |}.

Definition reply_connected : response :=
  {| r_received := JObj [(py "connected", JBool true)];
     r_strs := []; r_flags := [(py "connected", true)];
     r_connections := None; r_sessions := [] |}.

Definition reply_result : response :=
  {| r_received := JObj [(py "success", JBool true);
                         (py "result", JStr (py "3 lists"))];
     r_strs := [(py "result", py "3 lists")];
     r_flags := [(py "success", true)]; r_connections := None;
     r_sessions := [] |}.

(** A session manager that cannot be reached. *)
Definition refused : failure :=
  {| kind := ConnectFailed; message := py "Connection refused" |}.

(** Lines of the standard input of [pwsh-manager]: a request, and two
    sessions. The first initializes, lists the tools and calls one; its
    second line is the notification, which has no [id], its third holds no
    JSON. The second has, behind a request, the document [[1, 2]], and a tool
    call whose [params] are a list. *)
Definition request_line (i : json) (method : pystr) (params : json)
  : PwshServer.line :=
  PwshServer.Json
    (JObj [(py "jsonrpc", JStr (py "2.0")); (py "id", i);
           (py "method", JStr method); (py "params", params)]).

Definition session : list PwshServer.line :=
  [request_line (JNum 1) (py "initialize") (JObj []);
   PwshServer.Json
     (JObj [(py "jsonrpc", JStr (py "2.0"));
            (py "method", JStr (py "notifications/initialized"))]);
   PwshServer.NotJson;
   request_line (JNum 2) (py "tools/list") (JObj []);
   request_line (JStr (py "c")) (py "tools/call")
     (JObj [(py "name", JStr (py "pwsh_list_connections"));
            (py "arguments", JObj [])])].

Definition broken_session : list PwshServer.line :=
  [request_line (JNum 5) (py "tools/list") (JObj []);
   PwshServer.Json (JArr [JNum 1; JNum 2]);
   request_line (JNum 6) (py "tools/call") (JArr [])].

(** A clock for which every tool call lasts 7 ms. *)
Definition clock (n : nat) : Z := 7.

End Scenarios.
(* ===================================================================== *)
(** * Facts on the Python operations *)
(* ===================================================================== *)

Module PyFacts.

Lemma str_eqb_refl (a : pystr) : str_eqb a a = true.
Proof.
  induction a as [|x a IH]; simpl; [reflexivity|].
  now rewrite N.eqb_refl, IH.
Qed.

Lemma str_eqb_eq (a b : pystr) : str_eqb a b = true <-> a = b.
Proof.
  split.
  - revert b. induction a as [|x a IH]; intros [|y b] H; simpl in H;
      try discriminate; [reflexivity|].
    apply andb_true_iff in H as [Hx Hr].
    apply N.eqb_eq in Hx. apply IH in Hr. congruence.
  - intros ->. apply str_eqb_refl.
Qed.

Lemma str_eqb_neq (a b : pystr) : str_eqb a b = false <-> a <> b.
Proof.
  rewrite <- str_eqb_eq. destruct (str_eqb a b); split; congruence.
Qed.

Lemma str_eqb_sym (a b : pystr) : str_eqb a b = str_eqb b a.
Proof.
  destruct (str_eqb a b) eqn:E.
  - apply str_eqb_eq in E. subst. symmetry. apply str_eqb_refl.
  - symmetry. apply str_eqb_neq. apply str_eqb_neq in E. congruence.
Qed.

Lemma str_in_In (x : pystr) (l : list pystr) : str_in x l = true <-> In x l.
Proof.
  unfold str_in. rewrite existsb_exists. split.
  - intros [y [Hy E]]. apply str_eqb_eq in E. now subst.
  - intros H. exists x. split; [assumption | apply str_eqb_refl].
Qed.

(** ** Dictionaries *)

Section Dict.

Variable V : Type.
Implicit Types (d : dict V) (k : pystr) (v : V).

Lemma dict_get_In d k v : dict_get d k = Some v -> In (k, v) d.
Proof.
  induction d as [|[k' v'] d IH]; simpl; [discriminate|].
  destruct (str_eqb k k') eqn:E.
  - apply str_eqb_eq in E. intros [= ->]. subst. now left.
  - intros H. right. now apply IH.
Qed.

Lemma dict_get_None d k : dict_get d k = None <-> ~ In k (keys d).
Proof.
  induction d as [|[k' v'] d IH]; simpl; [tauto|].
  destruct (str_eqb k k') eqn:E.
  - apply str_eqb_eq in E. subst. split; [discriminate | tauto].
  - apply str_eqb_neq in E. rewrite IH. split; [intros H [G|G]|]; intuition.
Qed.

Lemma dict_mem_keys d k : dict_mem k d = true <-> In k (keys d).
Proof.
  unfold dict_mem. destruct (dict_get d k) eqn:E.
  - split; [intros _ | reflexivity].
    apply dict_get_In in E. now apply (in_map fst) in E.
  - split; [discriminate|]. intros H. now apply dict_get_None in E.
Qed.

Lemma dict_get_set_same d k v : dict_get (dict_set d k v) k = Some v.
Proof.
  induction d as [|[k' v'] d IH]; simpl.
  - now rewrite str_eqb_refl.
  - destruct (str_eqb k k') eqn:E; simpl; rewrite E; [reflexivity | exact IH].
Qed.

Lemma dict_get_set_other d k k' v :
  k' <> k -> dict_get (dict_set d k v) k' = dict_get d k'.
Proof.
  intros Hne. induction d as [|[k0 v0] d IH]; simpl.
  - apply str_eqb_neq in Hne. now rewrite Hne.
  - destruct (str_eqb k k0) eqn:E; simpl.
    + apply str_eqb_eq in E. subst k0. apply str_eqb_neq in Hne.
      now rewrite Hne.
    + now rewrite IH.
Qed.

Lemma keys_set_present d k v :
  In k (keys d) -> keys (dict_set d k v) = keys d.
Proof.
  induction d as [|[k0 v0] d IH]; simpl; [tauto|].
  destruct (str_eqb k k0) eqn:E; simpl; [reflexivity|].
  apply str_eqb_neq in E. intros [H|H]; [congruence|]. now rewrite IH.
Qed.

Lemma keys_set_absent d k v :
  ~ In k (keys d) -> keys (dict_set d k v) = keys d ++ [k].
Proof.
  induction d as [|[k0 v0] d IH]; simpl; [reflexivity|].
  intros H. destruct (str_eqb k k0) eqn:E; simpl.
  - apply str_eqb_eq in E. subst k0. exfalso. apply H. now left.
  - rewrite IH; [reflexivity|]. intros G. apply H. now right.
Qed.

Lemma dict_get_pop_same d k : dict_get (dict_pop d k) k = None.
Proof.
  induction d as [|[k0 v0] d IH]; simpl; [reflexivity|].
  destruct (str_eqb k k0) eqn:E; simpl; [exact IH | now rewrite E].
Qed.

Lemma dict_get_pop_other d k k' :
  k' <> k -> dict_get (dict_pop d k) k' = dict_get d k'.
Proof.
  intros Hne. induction d as [|[k0 v0] d IH]; simpl; [reflexivity|].
  destruct (str_eqb k k0) eqn:E; simpl.
  - apply str_eqb_eq in E. subst k0. apply str_eqb_neq in Hne. now rewrite Hne.
  - now rewrite IH.
Qed.

Lemma keys_pop d k : keys (dict_pop d k) = filter (fun x => negb (str_eqb k x)) (keys d).
Proof.
  induction d as [|[k0 v0] d IH]; simpl; [reflexivity|].
  destruct (str_eqb k k0); simpl; now rewrite IH.
Qed.

Lemma dict_wf_set d k v : dict_wf d -> dict_wf (dict_set d k v).
Proof.
  unfold dict_wf. intros H.
  destruct (in_dec (list_eq_dec N.eq_dec) k (keys d)) as [Hin|Hout].
  - now rewrite keys_set_present.
  - rewrite keys_set_absent by assumption.
    apply NoDup_app; [assumption | repeat constructor; simpl; tauto |].
    intros x Hx [<-|[]]. tauto.
Qed.

Lemma dict_wf_pop d k : dict_wf d -> dict_wf (dict_pop d k).
Proof.
  unfold dict_wf. rewrite keys_pop. apply NoDup_filter.
Qed.

End Dict.

(** ** [strip] *)

Lemma lstrip_blank (s : pystr) : lstrip s = [] <-> blank s = true.
Proof.
  induction s as [|c s IH]; simpl; [tauto|].
  destruct (is_space c); simpl; [exact IH | split; discriminate].
Qed.

Lemma blank_app (a b : pystr) : blank (a ++ b) = blank a && blank b.
Proof. apply forallb_app. Qed.

Lemma blank_rev (s : pystr) : blank (rev s) = blank s.
Proof.
  induction s as [|c s IH]; simpl; [reflexivity|].
  rewrite blank_app, IH. simpl. rewrite andb_true_r. apply andb_comm.
Qed.

Lemma lstrip_head (c : N) (s : pystr) :
  is_space c = false -> lstrip (c :: s) = c :: s.
Proof. intros H. simpl. now rewrite H. Qed.

Lemma lstrip_app_visible (u v : pystr) (c : N) :
  is_space c = false -> lstrip (u ++ c :: v) = lstrip u ++ c :: v.
Proof.
  intros H. induction u as [|x u IH]; simpl.
  - now rewrite H.
  - destruct (is_space x); [exact IH | reflexivity].
Qed.

Lemma lstrip_not_blank_head (s : pystr) :
  match lstrip s with [] => True | c :: _ => is_space c = false end.
Proof.
  induction s as [|c s IH]; simpl; [exact I|].
  destruct (is_space c) eqn:E; [exact IH | exact E].
Qed.

Lemma rstrip_app_visible (x y : pystr) (c : N) :
  is_space c = false -> rstrip (x ++ c :: y) = x ++ c :: rstrip y.
Proof.
  intros H. unfold rstrip.
  rewrite rev_app_distr. simpl. rewrite <- app_assoc. simpl.
  rewrite lstrip_app_visible by assumption.
  rewrite rev_app_distr. simpl. rewrite rev_involutive, <- app_assoc.
  reflexivity.
Qed.

Lemma rstrip_blank (s : pystr) : rstrip s = [] <-> blank s = true.
Proof.
  unfold rstrip. rewrite <- blank_rev, <- lstrip_blank.
  split; intros H.
  - apply (f_equal (@rev N)) in H. now rewrite rev_involutive in H.
  - now rewrite H.
Qed.

(** [strip] gives the empty string exactly on the strings of white space. *)
Lemma strip_blank (s : pystr) : strip s = [] <-> blank s = true.
Proof.
  unfold strip. rewrite rstrip_blank. split; intros H.
  - apply lstrip_blank. pose proof (lstrip_not_blank_head s) as G.
    destruct (lstrip s) as [|c r]; [reflexivity|].
    simpl in H. rewrite G in H. discriminate.
  - apply lstrip_blank in H. now rewrite H.
Qed.

Lemma truthy_strip (s : pystr) : truthy (strip s) = negb (blank s).
Proof.
  destruct (blank s) eqn:E.
  - apply strip_blank in E. now rewrite E.
  - destruct (strip s) eqn:S; [|reflexivity].
    apply strip_blank in S. congruence.
Qed.

(** A string that starts with a visible character loses nothing in front. *)
Lemma strip_visible_head (c : N) (s : pystr) :
  is_space c = false -> strip (c :: s) = c :: rstrip s.
Proof.
  intros H. unfold strip. rewrite lstrip_head by assumption.
  now apply (rstrip_app_visible []).
Qed.

(** [rstrip] cuts white space only, and only at the end. *)
Lemma rstrip_split (s : pystr) :
  exists ws, s = rstrip s ++ ws /\ blank ws = true.
Proof.
  unfold rstrip.
  assert (forall u, exists ws, u = ws ++ lstrip u /\ blank ws = true) as L.
  { induction u as [|c u [ws [E B]]]; [exists []; split; reflexivity|].
    simpl. destruct (is_space c) eqn:Ec.
    - exists (c :: ws). simpl. rewrite Ec, B. split; [congruence | reflexivity].
    - exists []. split; reflexivity. }
  destruct (L (rev s)) as [ws [E B]].
  exists (rev ws). split; [|now rewrite blank_rev].
  rewrite <- rev_app_distr, <- E. symmetry. apply rev_involutive.
Qed.

(** What [strip] returns does not end in white space. *)
Lemma strip_last_visible (s x : pystr) (c : N) :
  strip s = x ++ [c] -> is_space c = false.
Proof.
  unfold strip, rstrip. intros H.
  pose proof (lstrip_not_blank_head (rev (lstrip s))) as G.
  apply (f_equal (@rev N)) in H. rewrite rev_involutive, rev_app_distr in H.
  simpl in H. now rewrite H in G.
Qed.

Lemma lstrip_visible (s : pystr) :
  Forall (fun c => is_space c = false) s -> lstrip s = s.
Proof. intros [|c r Hc _]; [reflexivity | now apply lstrip_head]. Qed.

Lemma rstrip_visible (s : pystr) :
  Forall (fun c => is_space c = false) s -> rstrip s = s.
Proof.
  intros H. unfold rstrip. rewrite lstrip_visible by now apply Forall_rev.
  apply rev_involutive.
Qed.

(** A string without white space is left as it is, also when a line feed
    follows it. *)
Lemma strip_visible (s : pystr) :
  Forall (fun c => is_space c = false) s -> strip s = s.
Proof.
  intros H. unfold strip. rewrite lstrip_visible by assumption.
  now apply rstrip_visible.
Qed.

Lemma strip_visible_nl (s : pystr) :
  Forall (fun c => is_space c = false) s -> strip (s ++ nl) = s.
Proof.
  intros H. destruct s as [|c r]; [reflexivity|].
  inversion H as [|? ? Hc Hr]; subst.
  change ((c :: r) ++ nl) with (c :: (r ++ nl)).
  rewrite strip_visible_head by assumption. f_equal.
  unfold rstrip, nl. rewrite rev_app_distr. simpl.
  now apply rstrip_visible.
Qed.


End PyFacts.

(* ===================================================================== *)
(** * Facts on [re.sub] and on the two patterns *)
(* ===================================================================== *)

Module ReFacts.

(** ** Any pattern whose matches start with ESC and hold no other ESC *)

Section Scan.

Variable m : pystr -> option nat.

(** A match lies within the string. *)
Hypothesis m_bound : forall x n, m x = Some n -> (n <= length x)%nat.

(** A match starts with ESC. *)
Hypothesis m_head : forall c r, c <> ESC -> m (c :: r) = None.

(** Whether and how far the pattern matches is settled in front of the next
    ESC. *)
Hypothesis m_cut :
  forall x y, x <> [] -> m (x ++ ESC :: y) = m x.

Lemma sub_from_skip (x y : pystr) :
  sub_from m (length x) (x ++ y) = sub_from m 0 y.
Proof. induction x as [|c x IH]; simpl; [reflexivity | exact IH]. Qed.

(** The scan starts afresh at an ESC. *)
Lemma sub_from_cut (y : pystr) :
  forall a k, (k <= length a)%nat ->
    sub_from m k (a ++ ESC :: y) = sub_from m k a ++ sub_from m 0 (ESC :: y).
Proof.
  induction a as [|c a IH]; intros k Hk.
  - simpl in Hk. replace k with 0%nat by lia. reflexivity.
  - destruct k as [|k].
    + change ((c :: a) ++ ESC :: y) with (c :: (a ++ ESC :: y)).
      cbn [sub_from].
      change (c :: (a ++ ESC :: y)) with ((c :: a) ++ ESC :: y).
      rewrite m_cut by discriminate.
      destruct (m (c :: a)) as [[|n]|] eqn:E.
      * rewrite IH by lia. reflexivity.
      * apply m_bound in E. simpl in E. rewrite IH by lia. reflexivity.
      * rewrite IH by lia. reflexivity.
    + simpl in Hk. simpl. apply IH. lia.
Qed.

(** A sequence the pattern matches, wherever it stands, is dropped. *)
Lemma sub_drops (q y : pystr) :
  q <> [] -> m (q ++ y) = Some (length q) ->
  sub_from m 0 (q ++ y) = sub_from m 0 y.
Proof.
  intros Hq Hm. destruct q as [|c q]; [congruence|].
  change ((c :: q) ++ y) with (c :: (q ++ y)) in *.
  cbn [sub_from]. rewrite Hm. simpl. apply sub_from_skip.
Qed.

(** A stretch without ESC is kept. *)
Lemma sub_keeps_plain (x y : pystr) :
  ~ In ESC x -> sub_from m 0 (x ++ y) = x ++ sub_from m 0 y.
Proof.
  induction x as [|c x IH]; intros H; [reflexivity|].
  change ((c :: x) ++ y) with (c :: (x ++ y)).
  cbn [sub_from]. rewrite m_head.
  - simpl. f_equal. apply IH. intros G. apply H. now right.
  - intros ->. apply H. now left.
Qed.

(** What [re.sub] takes out are matches of the pattern, and nothing else. *)
Lemma sub_from_erased (P : pystr -> Prop) :
  (forall x n, m x = Some n -> P (firstn n x)) ->
  forall s k, erased P (skipn k s) (sub_from m k s).
Proof.
  intros sound. induction s as [|c s IH]; intros k.
  - destruct k; constructor.
  - destruct k as [|k]; [|apply IH].
    cbn [sub_from skipn].
    destruct (m (c :: s)) as [[|n]|] eqn:E.
    + constructor. apply (IH 0%nat).
    + pose proof (sound _ _ E) as HP.
      rewrite <- (firstn_skipn (S n) (c :: s)).
      apply erased_drop; [exact HP | apply (IH n)].
    + constructor. apply (IH 0%nat).
Qed.

End Scan.

(** ** The SGR pattern *)

Lemma ESC_not_param : is_sgr_param ESC = false.
Proof. reflexivity. Qed.

Lemma sgr_tail_bound (x : pystr) (n : nat) :
  sgr_tail x = Some n -> (n <= length x)%nat.
Proof.
  revert n. induction x as [|c x IH]; intros n; simpl; [discriminate|].
  destruct (is_sgr_param c).
  - destruct (sgr_tail x) as [k|]; [|discriminate].
    intros [= <-]. specialize (IH k eq_refl). lia.
  - destruct (c =? 109); [|discriminate]. intros [= <-]. lia.
Qed.

Lemma sgr_tail_cut (x y : pystr) : sgr_tail (x ++ ESC :: y) = sgr_tail x.
Proof.
  induction x as [|c x IH]; simpl; [reflexivity|].
  destruct (is_sgr_param c); [now rewrite IH | reflexivity].
Qed.

Lemma sgr_tail_params (ps y : pystr) :
  Forall (fun c => is_sgr_param c = true) ps ->
  sgr_tail (ps ++ 109 :: y) = Some (S (length ps)).
Proof.
  induction 1 as [|c ps Hc _ IH]; simpl; [reflexivity|].
  now rewrite Hc, IH.
Qed.

Lemma sgr_tail_sound (x : pystr) (n : nat) :
  sgr_tail x = Some n ->
  exists ps, Forall (fun c => is_sgr_param c = true) ps
             /\ firstn n x = ps ++ [109].
Proof.
  revert n. induction x as [|c x IH]; intros n; simpl; [discriminate|].
  destruct (is_sgr_param c) eqn:Ec.
  - destruct (sgr_tail x) as [k|]; [|discriminate].
    intros [= <-]. destruct (IH k eq_refl) as [ps [Hps E]].
    exists (c :: ps). split; [now constructor|]. simpl. now rewrite E.
  - destruct (N.eqb_spec c 109); [|discriminate]. intros [= <-]. subst c.
    exists []. split; [constructor | reflexivity].
Qed.

Lemma match_sgr_bound (x : pystr) (n : nat) :
  match_sgr x = Some n -> (n <= length x)%nat.
Proof.
  destruct x as [|e [|b r]]; simpl; try discriminate.
  destruct ((e =? ESC) && (b =? 91)); [|discriminate].
  destruct (sgr_tail r) as [k|] eqn:E; [|discriminate].
  intros [= <-]. apply sgr_tail_bound in E. lia.
Qed.

Lemma match_sgr_head (c : N) (r : pystr) : c <> ESC -> match_sgr (c :: r) = None.
Proof.
  intros H. destruct r as [|b r]; simpl; [reflexivity|].
  apply N.eqb_neq in H. now rewrite H.
Qed.

Lemma match_sgr_cut (x y : pystr) :
  x <> [] -> match_sgr (x ++ ESC :: y) = match_sgr x.
Proof.
  intros Hx. destruct x as [|e [|b r]]; [congruence| |].
  - simpl. now rewrite andb_false_r.
  - simpl. now rewrite sgr_tail_cut.
Qed.

Lemma match_sgr_seq (q y : pystr) :
  is_sgr_seq q -> match_sgr (q ++ y) = Some (length q).
Proof.
  intros [ps [Hps ->]]. simpl.
  rewrite <- app_assoc. simpl. rewrite sgr_tail_params by assumption.
  simpl. rewrite length_app. simpl. do 3 f_equal. lia.
Qed.

Lemma match_sgr_sound (x : pystr) (n : nat) :
  match_sgr x = Some n -> is_sgr_seq (firstn n x).
Proof.
  destruct x as [|e [|b r]]; simpl; try discriminate.
  destruct (N.eqb_spec e ESC); [|discriminate].
  destruct (N.eqb_spec b 91); [|discriminate]. simpl.
  destruct (sgr_tail r) as [k|] eqn:E; [|discriminate].
  intros [= <-]. destruct (sgr_tail_sound _ E) as [ps [Hps F]].
  exists ps. split; [assumption|]. simpl. now rewrite F; subst.
Qed.

(** ** The private-mode pattern *)

Lemma mode_tail_bound (x : pystr) (n : nat) :
  mode_tail x = Some n -> (n <= length x)%nat.
Proof.
  revert n. induction x as [|c x IH]; intros n; simpl; [discriminate|].
  destruct (is_digit c).
  - destruct (mode_tail x) as [k|]; [|discriminate].
    intros [= <-]. specialize (IH k eq_refl). lia.
  - destruct ((c =? 104) || (c =? 108)); [|discriminate]. intros [= <-]. lia.
Qed.

Lemma mode_tail_cut (x y : pystr) : mode_tail (x ++ ESC :: y) = mode_tail x.
Proof.
  induction x as [|c x IH]; simpl; [reflexivity|].
  destruct (is_digit c); [now rewrite IH | reflexivity].
Qed.

Lemma mode_tail_digits (ds y : pystr) (f : N) :
  Forall (fun c => is_digit c = true) ds -> f = 104 \/ f = 108 ->
  mode_tail (ds ++ f :: y) = Some (S (length ds)).
Proof.
  intros Hds Hf. induction Hds as [|c ds Hc _ IH]; simpl.
  - destruct Hf as [-> | ->]; reflexivity.
  - now rewrite Hc, IH.
Qed.

Lemma mode_tail_sound (x : pystr) (n : nat) :
  mode_tail x = Some n ->
  exists ds f, Forall (fun c => is_digit c = true) ds
               /\ (f = 104 \/ f = 108) /\ firstn n x = ds ++ [f].
Proof.
  revert n. induction x as [|c x IH]; intros n; simpl; [discriminate|].
  destruct (is_digit c) eqn:Ec.
  - destruct (mode_tail x) as [k|]; [|discriminate].
    intros [= <-]. destruct (IH k eq_refl) as [ds [f [Hds [Hf E]]]].
    exists (c :: ds), f. split; [now constructor|]. split; [assumption|].
    simpl. now rewrite E.
  - destruct (N.eqb_spec c 104); simpl.
    + intros [= <-]. exists [], c. repeat split; [constructor | now left].
    + destruct (N.eqb_spec c 108); [|discriminate].
      intros [= <-]. exists [], c. repeat split; [constructor | now right].
Qed.

Lemma match_mode_bound (x : pystr) (n : nat) :
  match_mode x = Some n -> (n <= length x)%nat.
Proof.
  destruct x as [|e [|b [|q [|d r]]]]; simpl; try discriminate.
  destruct ((e =? ESC) && (b =? 91) && (q =? 63) && is_digit d); [|discriminate].
  destruct (mode_tail r) as [k|] eqn:E; [|discriminate].
  intros [= <-]. apply mode_tail_bound in E. lia.
Qed.

Lemma match_mode_head (c : N) (r : pystr) :
  c <> ESC -> match_mode (c :: r) = None.
Proof.
  intros H. destruct r as [|b [|q [|d r]]]; simpl; try reflexivity.
  apply N.eqb_neq in H. now rewrite H.
Qed.

Lemma match_mode_cut (x y : pystr) :
  x <> [] -> match_mode (x ++ ESC :: y) = match_mode x.
Proof.
  intros Hx. destruct x as [|e [|b [|q [|d r]]]]; [congruence| | | |].
  - destruct y as [|y1 [|y2 y]]; simpl; try reflexivity.
    now rewrite andb_false_r.
  - destruct y as [|y1 y]; simpl; try reflexivity.
    now rewrite andb_false_r.
  - simpl. now rewrite andb_false_r.
  - simpl. now rewrite mode_tail_cut.
Qed.

Lemma match_mode_seq (q y : pystr) :
  is_mode_seq q -> match_mode (q ++ y) = Some (length q).
Proof.
  intros [d [ds [f [Hd [Hds [Hf ->]]]]]]. simpl.
  rewrite Hd. simpl. rewrite <- app_assoc. simpl.
  rewrite (mode_tail_digits y Hds Hf).
  simpl. rewrite length_app. simpl. do 5 f_equal. lia.
Qed.

Lemma match_mode_sound (x : pystr) (n : nat) :
  match_mode x = Some n -> is_mode_seq (firstn n x).
Proof.
  destruct x as [|e [|b [|q [|d r]]]]; simpl; try discriminate.
  destruct (N.eqb_spec e ESC); [|discriminate].
  destruct (N.eqb_spec b 91); [|discriminate].
  destruct (N.eqb_spec q 63); [|discriminate]. simpl.
  destruct (is_digit d) eqn:Ed; [|discriminate].
  destruct (mode_tail r) as [k|] eqn:E; [|discriminate].
  intros [= <-]. destruct (mode_tail_sound _ E) as [ds [f [Hds [Hf F]]]].
  exists d, ds, f. repeat split; try assumption. simpl. now rewrite F; subst.
Qed.

(** The SGR pattern matches nowhere inside a private-mode sequence. *)
Lemma sgr_keeps_mode_seq (q y : pystr) :
  is_mode_seq q ->
  re_sub_del match_sgr (q ++ y) = q ++ re_sub_del match_sgr y.
Proof.
  intros [d [ds [f [Hd [Hds [Hf ->]]]]]]. unfold re_sub_del.
  change ((ESC :: 91 :: 63 :: d :: ds ++ [f]) ++ y)
    with (ESC :: ((91 :: 63 :: d :: ds ++ [f]) ++ y)).
  cbn [sub_from].
  replace (match_sgr (ESC :: (91 :: 63 :: d :: ds ++ [f]) ++ y)) with (@None nat)
    by reflexivity.
  change ((ESC :: 91 :: 63 :: d :: ds ++ [f]) ++ sub_from match_sgr 0 y)
    with (ESC :: ((91 :: 63 :: d :: ds ++ [f]) ++ sub_from match_sgr 0 y)).
  f_equal. apply (sub_keeps_plain match_sgr match_sgr_head).
  intros G. simpl in G.
  destruct G as [G|[G|[G|G]]]; try discriminate.
  - subst d. discriminate.
  - apply in_app_or in G as [G|[G|[]]].
    + rewrite Forall_forall in Hds. apply Hds in G. discriminate.
    + subst f. destruct Hf; discriminate.
Qed.

End ReFacts.

(* ===================================================================== *)
(** * The [mm] adapter: rendering of the pool's replies, registry tools *)
(* ===================================================================== *)

Module MMFacts.
Import MM PyFacts ReFacts.

(** A reply has one status. *)
Lemma status_is_excl (r : response) (a b : pystr) :
  status_is r a = true -> str_eqb a b = false -> status_is r b = false.
Proof.
  unfold status_is.
  destruct (dict_get (r_strs r) (py "status")) as [v|]; [|discriminate].
  intros H. apply str_eqb_eq in H. now subst.
Qed.

(** ** The two substitutions of the [success] branch *)

(** The first substitution takes an SGR sequence out wherever it stands. *)
Lemma sgr_pass_drops (a q b : pystr) :
  is_sgr_seq q ->
  re_sub_del match_sgr (a ++ q ++ b)
  = re_sub_del match_sgr a ++ re_sub_del match_sgr b.
Proof.
  intros Hq. unfold re_sub_del.
  assert (exists q', q = ESC :: q') as [q' Eq]
    by (destruct Hq as [ps [_ ->]]; eexists; reflexivity).
  rewrite Eq at 1. change ((ESC :: q') ++ b) with (ESC :: (q' ++ b)).
  rewrite (sub_from_cut match_sgr match_sgr_bound match_sgr_cut) by lia.
  f_equal. change (ESC :: (q' ++ b)) with ((ESC :: q') ++ b). rewrite <- Eq.
  apply (sub_drops match_sgr).
  - subst q. discriminate.
  - now apply match_sgr_seq.
Qed.

(** The second substitution takes a private-mode sequence out wherever it
    stands. *)
Lemma mode_pass_drops (a q b : pystr) :
  is_mode_seq q ->
  re_sub_del match_mode (a ++ q ++ b)
  = re_sub_del match_mode a ++ re_sub_del match_mode b.
Proof.
  intros Hq. unfold re_sub_del.
  assert (exists q', q = ESC :: q') as [q' Eq]
    by (destruct Hq as (d & ds & f & _ & _ & _ & ->); eexists; reflexivity).
  rewrite Eq at 1. change ((ESC :: q') ++ b) with (ESC :: (q' ++ b)).
  rewrite (sub_from_cut match_mode match_mode_bound match_mode_cut) by lia.
  f_equal. change (ESC :: (q' ++ b)) with ((ESC :: q') ++ b). rewrite <- Eq.
  apply (sub_drops match_mode).
  - subst q. discriminate.
  - now apply match_mode_seq.
Qed.

(** The first substitution leaves a private-mode sequence in place. *)
Lemma sgr_pass_keeps_mode (a q b : pystr) :
  is_mode_seq q ->
  re_sub_del match_sgr (a ++ q ++ b)
  = re_sub_del match_sgr a ++ q ++ re_sub_del match_sgr b.
Proof.
  intros Hq.
  assert (exists q', q = ESC :: q') as [q' Eq]
    by (destruct Hq as (d & ds & f & _ & _ & _ & ->); eexists; reflexivity).
  unfold re_sub_del at 1. rewrite Eq at 1.
  change ((ESC :: q') ++ b) with (ESC :: (q' ++ b)).
  rewrite (sub_from_cut match_sgr match_sgr_bound match_sgr_cut) by lia.
  change (ESC :: (q' ++ b)) with ((ESC :: q') ++ b). rewrite <- Eq.
  f_equal. now apply sgr_keeps_mode_seq.
Qed.

Lemma strip_ansi_drops_mode (a q b : pystr) :
  is_mode_seq q -> strip_ansi (a ++ q ++ b) = strip_ansi a ++ strip_ansi b.
Proof.
  intros Hq. unfold strip_ansi.
  rewrite sgr_pass_keeps_mode by assumption. now apply mode_pass_drops.
Qed.

Lemma strip_ansi_plain (s : pystr) : ~ In ESC s -> strip_ansi s = s.
Proof.
  intros H. unfold strip_ansi, re_sub_del.
  pose proof (sub_keeps_plain match_sgr match_sgr_head s [] ) as E1.
  pose proof (sub_keeps_plain match_mode match_mode_head s []) as E2.
  rewrite app_nil_r in E1, E2. simpl in E1, E2. rewrite app_nil_r in E1, E2.
  rewrite E1, E2; auto.
Qed.

Lemma sgr_pass_erased (s : pystr) : erased is_sgr_seq s (re_sub_del match_sgr s).
Proof. apply (sub_from_erased match_sgr is_sgr_seq match_sgr_sound s 0%nat). Qed.

Lemma mode_pass_erased (s : pystr) :
  erased is_mode_seq s (re_sub_del match_mode s).
Proof. apply (sub_from_erased match_mode is_mode_seq match_mode_sound s 0%nat). Qed.


(** ** [is_valid_guid] *)

Lemma take_hex_app (h r : pystr) :
  Forall (fun x => is_hex x = true) h -> take_hex (length h) (h ++ r) = Some r.
Proof. induction 1 as [|c h Hc _ IH]; simpl; [reflexivity | now rewrite Hc]. Qed.

Lemma take_hex_len (h r : pystr) (n : nat) :
  length h = n -> Forall (fun x => is_hex x = true) h ->
  take_hex n (h ++ r) = Some r.
Proof. intros <-. apply take_hex_app. Qed.

Lemma take_dash_cons (r : pystr) : take_dash (45 :: r) = Some r.
Proof. reflexivity. Qed.

Lemma take_hex_inv (n : nat) (s r : pystr) :
  take_hex n s = Some r ->
  exists h, length h = n /\ Forall (fun x => is_hex x = true) h /\ s = h ++ r.
Proof.
  revert s. induction n as [|n IH]; intros s; simpl.
  - intros [= ->]. exists []. repeat split. constructor.
  - destruct s as [|c s]; [discriminate|].
    destruct (is_hex c) eqn:Hc; [|discriminate].
    intros H. destruct (IH _ H) as (h & Hl & Hh & ->).
    exists (c :: h). simpl. repeat split; [congruence | now constructor].
Qed.

Lemma take_dash_inv (s r : pystr) : take_dash s = Some r -> s = 45 :: r.
Proof.
  destruct s as [|c s]; simpl; [discriminate|].
  destruct (N.eqb_spec c 45); [|discriminate]. now intros [= ->]; subst.
Qed.

Lemma at_end_inv (s : pystr) : at_end s = true -> s = [] \/ s = nl.
Proof.
  destruct s as [|c [|d s]]; simpl; try discriminate; [now left|].
  intros H. apply N.eqb_eq in H. subst. now right.
Qed.

(** [is_valid_guid] accepts the GUIDs, and the GUIDs followed by one line
    feed. *)
Lemma is_valid_guid_spec (s : pystr) :
  is_valid_guid s = true <-> is_guid s \/ exists g, is_guid g /\ s = g ++ nl.
Proof.
  split.
  - unfold is_valid_guid, and_then.
    destruct (take_hex 8 s) as [s1|] eqn:E1; [|discriminate].
    destruct (take_dash s1) as [s2|] eqn:E2; [|discriminate].
    destruct (take_hex 4 s2) as [s3|] eqn:E3; [|discriminate].
    destruct (take_dash s3) as [s4|] eqn:E4; [|discriminate].
    destruct (take_hex 4 s4) as [s5|] eqn:E5; [|discriminate].
    destruct (take_dash s5) as [s6|] eqn:E6; [|discriminate].
    destruct (take_hex 4 s6) as [s7|] eqn:E7; [|discriminate].
    destruct (take_dash s7) as [s8|] eqn:E8; [|discriminate].
    destruct (take_hex 12 s8) as [s9|] eqn:E9; [|discriminate].
    intros Hend.
    apply take_hex_inv in E1 as (a & La & Ha & ->).
    apply take_dash_inv in E2 as ->.
    apply take_hex_inv in E3 as (b & Lb & Hb & ->).
    apply take_dash_inv in E4 as ->.
    apply take_hex_inv in E5 as (c & Lc & Hc & ->).
    apply take_dash_inv in E6 as ->.
    apply take_hex_inv in E7 as (d & Ld & Hd & ->).
    apply take_dash_inv in E8 as ->.
    apply take_hex_inv in E9 as (e & Le & He & ->).
    assert (is_guid (a ++ 45 :: b ++ 45 :: c ++ 45 :: d ++ 45 :: e)) as G.
    { exists a, b, c, d, e. repeat split; try assumption.
      repeat (apply Forall_app; split; try assumption). }
    apply at_end_inv in Hend as [-> | ->].
    + left. now rewrite app_nil_r.
    + right. eexists. split; [exact G|].
      rewrite <- !app_assoc. simpl. rewrite <- !app_assoc. simpl.
      rewrite <- !app_assoc. simpl. rewrite <- !app_assoc. reflexivity.
  - assert (forall g r, is_guid g -> at_end r = true ->
                        is_valid_guid (g ++ r) = true) as K.
    { intros g r (a & b & c & d & e & H & La & Lb & Lc & Ld & Le & ->) Hr.
      apply Forall_app in H as [Ha H]. apply Forall_app in H as [Hb H].
      apply Forall_app in H as [Hc H]. apply Forall_app in H as [Hd He].
      unfold is_valid_guid, and_then.
      repeat (rewrite <- app_assoc || rewrite <- app_comm_cons).
      rewrite (@take_hex_len a _ _ La Ha). cbv beta iota. rewrite take_dash_cons.
      rewrite (@take_hex_len b _ _ Lb Hb). cbv beta iota. rewrite take_dash_cons.
      rewrite (@take_hex_len c _ _ Lc Hc). cbv beta iota. rewrite take_dash_cons.
      rewrite (@take_hex_len d _ _ Ld Hd). cbv beta iota. rewrite take_dash_cons.
      rewrite (@take_hex_len e _ _ Le He). exact Hr. }
    intros [G | (g & G & ->)].
    + rewrite <- (app_nil_r s). now apply K.
    + now apply K.
Qed.

Lemma hex_visible (c : N) : is_hex c = true -> is_space c = false.
Proof.
  unfold is_hex, is_digit, is_space. intros H.
  apply not_true_iff_false. intros G.
  rewrite !orb_true_iff, !andb_true_iff, !N.leb_le in H.
  rewrite !orb_true_iff, !andb_true_iff, !N.leb_le, !N.eqb_eq in G.
  lia.
Qed.

Lemma guid_visible (g : pystr) :
  is_guid g -> Forall (fun c => is_space c = false) g.
Proof.
  intros (a & b & c & d & e & H & _ & _ & _ & _ & _ & ->).
  apply Forall_app in H as [Ha H]. apply Forall_app in H as [Hb H].
  apply Forall_app in H as [Hc H]. apply Forall_app in H as [Hd He].
  assert (forall l, Forall (fun x => is_hex x = true) l ->
                    Forall (fun x => is_space x = false) l) as V
    by (intros l Hl; eapply Forall_impl; [apply hex_visible | exact Hl]).
  repeat (apply Forall_app; split; [now apply V|]; constructor; [reflexivity|]).
  now apply V.
Qed.

(** On a stripped string [is_valid_guid] is the GUID format itself. *)
Lemma valid_guid_strip (s : pystr) :
  is_valid_guid (strip s) = true <-> is_guid (strip s).
Proof.
  rewrite is_valid_guid_spec. split; [|now left].
  intros [G | (g & G & E)]; [exact G|].
  apply strip_last_visible in E. discriminate.
Qed.

(** A value [is_valid_guid] accepts is a GUID once stripped. *)
Lemma valid_guid_stored (v : pystr) :
  is_valid_guid v = true -> is_guid (strip v).
Proof.
  intros H. apply is_valid_guid_spec in H as [G | (g & G & ->)].
  - now rewrite strip_visible by now apply guid_visible.
  - now rewrite strip_visible_nl by now apply guid_visible.
Qed.

(** ** The effects of the registry tools *)

(** The missing fields are the required ones without a non-empty value. *)
Lemma missing_fields_In (args : obj) (f : pystr) :
  In f (missing_fields args) <-> In f REQUIRED /\ arg_truthy args f = false.
Proof.
  unfold missing_fields. rewrite filter_In.
  now destruct (arg_truthy args f).
Qed.

Lemma truthy_nil_iff {A} (l : list A) : truthy l = false <-> l = [].
Proof. destruct l; split; (reflexivity || discriminate). Qed.

Lemma save_registry_ok (data : document) (w : world) :
  disk w = IoOk ->
  fst (save_registry data w) = true
  /\ file (snd (save_registry data w)) = Some data
  /\ writes (snd (save_registry data w)) = writes w ++ [data]
  /\ calls (snd (save_registry data w)) = calls w.
Proof. intros H. unfold save_registry. rewrite H. now repeat split. Qed.

Lemma save_registry_fails (data : document) (w : world) :
  disk w <> IoOk ->
  fst (save_registry data w) = false
  /\ (file (snd (save_registry data w)) = file w
      \/ file (snd (save_registry data w)) = None)
  /\ writes (snd (save_registry data w)) = writes w ++ [data]
  /\ calls (snd (save_registry data w)) = calls w.
Proof.
  intros H. unfold save_registry.
  destruct (disk w); [congruence| |]; simpl; repeat split; auto.
Qed.

(** The loop over the string fields: it stops at an [appId] that is supplied
    and not valid; otherwise it lists the supplied fields in order, sets
    each to its stripped value and leaves every other entry as it was. *)
Lemma update_fields_spec (args : obj) :
  forall fields conn updated,
    match update_fields fields args conn updated with
    | inl bad =>
        In (py "appId") fields /\ supplied args (py "appId") = true
        /\ bad = get_or (strs args) (py "appId") []
        /\ is_valid_guid bad = false
    | inr (conn', updated') =>
        updated' = updated ++ filter (supplied args) fields
        /\ mcps conn' = mcps conn
        /\ (forall k, ~ In k (filter (supplied args) fields) ->
              dict_get (strs conn') k = dict_get (strs conn) k)
        /\ (forall k, In k (filter (supplied args) fields) ->
              dict_get (strs conn') k
              = Some (strip (get_or (strs args) k [])))
        /\ (In (py "appId") fields -> supplied args (py "appId") = true ->
            is_valid_guid (get_or (strs args) (py "appId") []) = true)
    end.
Proof.
  induction fields as [|f rest IH]; intros conn updated.
  - simpl. rewrite app_nil_r. repeat split; tauto.
  - cbn [update_fields filter]. fold (supplied args f).
    destruct (supplied args f) eqn:Sf.
    + destruct (str_eqb f (py "appId")
                && negb (is_valid_guid (get_or (strs args) f []))) eqn:B.
      * apply andb_true_iff in B as [Bf Bv]. apply str_eqb_eq in Bf. subst f.
        apply negb_true_iff in Bv. repeat split; auto. now left.
      * specialize (IH (set_str conn f (strip (get_or (strs args) f [])))
                       (updated ++ [f])).
        destruct (update_fields rest args _ _) as [bad | [conn' updated']].
        { destruct IH as (Hin & H). split; [now right | exact H]. }
        destruct IH as (Hu & Hm & Hframe & Hset & Hguid).
        split; [rewrite Hu, <- app_assoc; reflexivity|].
        split; [exact Hm|]. split; [|split].
        -- intros k Hk. rewrite Hframe by (intros G; apply Hk; now right).
           simpl. apply dict_get_set_other. intros ->. apply Hk. now left.
        -- intros k Hk.
           destruct (in_dec (list_eq_dec N.eq_dec) k
                       (filter (supplied args) rest)) as [Hin|Hout].
           ++ now apply Hset.
           ++ rewrite Hframe by assumption.
              destruct Hk as [<-|Hk]; [|contradiction].
              simpl. apply dict_get_set_same.
        -- intros [E|Hin] Hs; [|now apply Hguid]. subst f.
           rewrite str_eqb_refl in B. simpl in B.
           now apply negb_false_iff in B.
    + specialize (IH conn updated).
      destruct (update_fields rest args conn updated)
        as [bad | [conn' updated']].
      { destruct IH as (Hin & H). split; [now right | exact H]. }
      destruct IH as (Hu & Hm & Hframe & Hset & Hguid).
      repeat split; auto.
      intros [E|Hin] Hs; [subst f; congruence | now apply Hguid].
Qed.

Lemma save_registry_file (data : document) (w : world) :
  file (snd (save_registry data w)) = Some data
  \/ file (snd (save_registry data w)) = file w
  \/ file (snd (save_registry data w)) = None.
Proof. unfold save_registry. destruct (disk w); simpl; auto. Qed.

Lemma expected_email_loaded (w : world) (n : pystr) :
  expected_email_in (Some (load_registry w)) n = expected_email_in (file w) n.
Proof. unfold load_registry. now destruct (file w). Qed.

Lemma expected_email_with (d : document) (c : dict obj) (n : pystr) :
  expected_email_in (Some (with_connections d c)) n
  = match dict_get c n with
    | Some o => dict_get (strs o) (py "expectedEmail")
    | None => None
    end.
Proof. reflexivity. Qed.

Lemma call_pool_keeps_file (endpoint method : pystr)
  (data : option (dict pystr)) (w : world) :
  file (snd (call_pool endpoint method data w)) = file w.
Proof.
  unfold call_pool. destruct (pool w _); [reflexivity|].
  now destruct (httpx_timeout e).
Qed.

Section Dumps.

(** [json.dumps(., indent=2)], of the Python runtime. *)
Variable json_dumps : json -> pystr.

(** ** [connection_add] *)


(** ** [connection_remove] *)

(** C7 (as amended). [connection_remove] takes the name with the white
    space around it stripped. An empty name is refused with "name is
    required". A name that is not in the registry gets the "not found" error
    with the names of the registry, and the world stays as it is. For a name
    in the registry the document handed to [save_registry] is the registry
    without that connection, everything else in it as before; when the write
    succeeds it is the file's new content and the result carries the record
    removed, and when the write fails the result is "Failed to save". *)
Theorem connection_remove_cases (args : obj) (w : world) :
  let name := strip (get_or (strs args) (py "name") []) in
  let registry := load_registry w in
  let conns := connections_of registry in
  (name = [] ->
     _connection_remove json_dumps args w
     = (text_content (json_dumps (error_doc (py "name is required"))), w))
  /\ (name <> [] -> dict_get conns name = None ->
      _connection_remove json_dumps args w
      = (text_content (json_dumps (JObj
           [(py "error", JStr (py "'" ++ name ++ py "' not found"));
            (py "available", JArr (map JStr (keys conns)))])), w))
  /\ (forall removed, name <> [] -> dict_get conns name = Some removed ->
      let saved := with_connections registry (dict_pop conns name) in
      dict_get (connections_of saved) name = None
      /\ (forall n, n <> name ->
            dict_get (connections_of saved) n = dict_get conns n)
      /\ extras saved = extras registry
      /\ snd (_connection_remove json_dumps args w) = snd (save_registry saved w)
      /\ (disk w = IoOk ->
          fst (_connection_remove json_dumps args w)
          = text_content (json_dumps (JObj
              [(py "success", JBool true);
               (py "message", JStr (py "'" ++ name ++ py "' removed"));
               (py "removed", json_of_obj removed)]))
          /\ file (snd (_connection_remove json_dumps args w)) = Some saved)
      /\ (disk w <> IoOk ->
          fst (_connection_remove json_dumps args w)
          = text_content (json_dumps (error_doc (py "Failed to save"))))).
Proof.
  intros name registry conns.
  unfold _connection_remove. fold name. fold registry. fold conns.
  split; [|split].
  - intros ->. reflexivity.
  - intros Hn Hget.
    assert (truthy name = true) as -> by (destruct name; [congruence|reflexivity]).
    cbn [negb]. now rewrite Hget.
  - intros removed Hn Hget.
    set (saved := with_connections registry (dict_pop conns name)).
    assert (truthy name = true) as -> by (destruct name; [congruence|reflexivity]).
    cbn [negb]. rewrite Hget.
    split; [apply dict_get_pop_same|].
    split; [intros n Hne; now apply dict_get_pop_other|].
    split; [reflexivity|].
    destruct (save_registry saved w) as [ok w'] eqn:E.
    split; [now destruct ok|].
    split.
    + intros Hd. destruct (@save_registry_ok saved w Hd) as (Hok & Hf & _).
      rewrite E in Hok, Hf. simpl in Hok, Hf. subst ok. now split.
    + intros Hd. destruct (@save_registry_fails saved w Hd) as (Hok & _).
      rewrite E in Hok. simpl in Hok. now subst ok.
Qed.

(** ** [connection_update] *)

(** C8 (as amended). For a call of [connection_update] that names a
    connection of the registry: an [appId] that is supplied and that
    [is_valid_guid] rejects gives the "Invalid appId" error, and a call that
    supplies none of the four fields gives the "No changes" result, both with
    the world as it was. Otherwise the document handed to [save_registry] is
    the registry in which, for that connection, each supplied field has its
    new value (strings stripped, the [appId] a GUID) and every other entry is
    as before, and in which the other connections, the order of the names
    and the other top-level keys are as before; when the write succeeds the
    result lists the supplied fields, whether or not their values differ
    from the old ones, and carries the connection. *)
Theorem connection_update_frame (args : obj) (w : world) (conn : obj) :
  let name := strip (get_or (strs args) (py "name") []) in
  let registry := load_registry w in
  let conns := connections_of registry in
  let raw_app := get_or (strs args) (py "appId") [] in
  name <> [] -> dict_get conns name = Some conn ->
  (supplied args (py "appId") = true -> is_valid_guid raw_app = false ->
     _connection_update json_dumps args w
     = (text_content (json_dumps (error_doc (py "Invalid appId: " ++ raw_app))),
        w))
  /\ (fields_set args = [] ->
      _connection_update json_dumps args w
      = (text_content (json_dumps (JObj
           [(py "message", JStr (py "No changes"))])), w))
  /\ (fields_set args <> [] ->
      (supplied args (py "appId") = true -> is_valid_guid raw_app = true) ->
      exists conn',
        let saved := with_connections registry (dict_set conns name conn') in
        (forall k, In k STRING_FIELDS -> supplied args k = true ->
           dict_get (strs conn') k = Some (strip (get_or (strs args) k [])))
        /\ (supplied args (py "appId") = true -> is_guid (strip raw_app))
        /\ (forall k, (In k STRING_FIELDS -> supplied args k = false) ->
              dict_get (strs conn') k = dict_get (strs conn) k)
        /\ mcps conn'
           = (if truthy_opt (mcps args) then mcps args else mcps conn)
        /\ dict_get (connections_of saved) name = Some conn'
        /\ (forall n, n <> name ->
              dict_get (connections_of saved) n = dict_get conns n)
        /\ keys (connections_of saved) = keys conns
        /\ extras saved = extras registry
        /\ snd (_connection_update json_dumps args w)
           = snd (save_registry saved w)
        /\ (disk w = IoOk ->
            fst (_connection_update json_dumps args w)
            = text_content (json_dumps (JObj
                [(py "success", JBool true);
                 (py "updated", JArr (map JStr (fields_set args)));
                 (py "connection", json_of_obj conn')]))
            /\ file (snd (_connection_update json_dumps args w)) = Some saved)
        /\ (disk w <> IoOk ->
            fst (_connection_update json_dumps args w)
            = text_content (json_dumps (error_doc (py "Failed to save"))))).
Proof.
  intros name registry conns raw_app Hn Hget.
  unfold _connection_update. fold name. fold registry. fold conns.
  assert (truthy name = true) as -> by (destruct name; [congruence|reflexivity]).
  cbn [negb]. rewrite Hget.
  change [py "appId"; py "tenant"; py "description"] with STRING_FIELDS.
  pose proof (update_fields_spec args STRING_FIELDS conn []) as Spec.
  destruct (update_fields STRING_FIELDS args conn [])
    as [bad | [conn1 updated1]].
  - destruct Spec as (_ & Hs & -> & Hbad). fold raw_app in Hbad |- *.
    split; [reflexivity|]. split.
    + intros E. exfalso. unfold fields_set, STRING_FIELDS in E.
      cbn [filter] in E. rewrite Hs in E. discriminate.
    + intros _ Hv. rewrite Hv in Hbad by assumption. discriminate.
  - destruct Spec as (Hu & Hm & Hframe & Hset & Hguid).
    change (updated1 = filter (supplied args) STRING_FIELDS) in Hu.
    fold raw_app in Hguid.
    assert (In (py "appId") STRING_FIELDS) as Happ by now left.
    split; [|split].
    + intros Hs Hbad. rewrite Hguid in Hbad by assumption. discriminate.
    + intros E. unfold fields_set in E. rewrite <- Hu in E.
      apply app_eq_nil in E as [-> E].
      destruct (truthy_opt (mcps args)); [discriminate | reflexivity].
    + intros Hne _.
      set (conn2 := if truthy_opt (mcps args)
                    then {| strs := strs conn1; mcps := mcps args |}
                    else conn1).
      exists conn2.
      set (saved := with_connections registry (dict_set conns name conn2)).
      assert ((if truthy_opt (mcps args)
               then ({| strs := strs conn1; mcps := mcps args |},
                     updated1 ++ [py "mcps"])
               else (conn1, updated1)) = (conn2, fields_set args)) as ->.
      { unfold conn2, fields_set. rewrite <- Hu.
        destruct (truthy_opt (mcps args)); [reflexivity|].
        now rewrite app_nil_r. }
      assert (truthy (fields_set args) = true) as ->
        by (destruct (fields_set args); [congruence | reflexivity]).
      cbn [negb]. fold saved.
      assert (strs conn2 = strs conn1) as Hstrs
        by (unfold conn2; now destruct (truthy_opt (mcps args))).
      split.
      { intros k Hk Hs. rewrite Hstrs. apply Hset.
        apply filter_In. now split. }
      split; [intros Hs; apply valid_guid_stored; now apply Hguid|].
      split.
      { intros k Hk. rewrite Hstrs. apply Hframe.
        intros G. apply filter_In in G as [G1 G2]. rewrite Hk in G2 by assumption.
        discriminate. }
      split.
      { unfold conn2. destruct (truthy_opt (mcps args)); [reflexivity | exact Hm]. }
      split; [apply dict_get_set_same|].
      split; [intros n Hne'; now apply dict_get_set_other|].
      split.
      { apply keys_set_present. apply dict_mem_keys. unfold dict_mem.
        now rewrite Hget. }
      split; [reflexivity|].
      destruct (save_registry saved w) as [ok w'] eqn:E.
      split; [now destruct ok|]. split.
      * intros Hd. destruct (@save_registry_ok saved w Hd) as (Hok & Hf & _).
        rewrite E in Hok, Hf. simpl in Hok, Hf. subst ok. now split.
      * intros Hd. destruct (@save_registry_fails saved w Hd) as (Hok & _).
        rewrite E in Hok. simpl in Hok. now subst ok.
Qed.

(** ** What the gateway writes *)

(** [connection_add] leaves the world as it is or saves the registry with
    one record more, made of the four fields. *)
Lemma connection_add_effect (args : obj) (w : world) :
  let name := strip (get_or (strs args) (py "name") []) in
  let conns := connections_of (load_registry w) in
  snd (_connection_add json_dumps args w) = w
  \/ exists record,
       snd (_connection_add json_dumps args w)
       = snd (save_registry
                (with_connections (load_registry w) (dict_set conns name record))
                w)
       /\ dict_get conns name = None
       /\ obj_keys record = [py "appId"; py "tenant"; py "description"; py "mcps"]
       /\ dict_get (strs record) (py "appId")
          = Some (strip (get_or (strs args) (py "appId") []))
       /\ dict_get (strs record) (py "tenant")
          = Some (strip (get_or (strs args) (py "tenant") []))
       /\ dict_get (strs record) (py "description")
          = Some (strip (get_or (strs args) (py "description") []))
       /\ mcps record = Some (match mcps args with Some l => l | None => [] end)
       /\ is_guid (strip (get_or (strs args) (py "appId") []))
       /\ missing_fields args = [].
Proof.
  intros name conns. unfold _connection_add. fold name. fold conns.
  destruct (missing_fields args) eqn:Em; [|now left]. cbn [truthy].
  destruct (is_valid_guid _) eqn:Ev; [|now left]. cbn [negb].
  unfold dict_mem. destruct (dict_get conns name) eqn:Eg; [now left|].
  right.
  exists {| strs := [(py "appId", strip (get_or (strs args) (py "appId") []));
                     (py "tenant", strip (get_or (strs args) (py "tenant") []));
                     (py "description",
                      strip (get_or (strs args) (py "description") []))];
            mcps := Some (match mcps args with Some l => l | None => [] end) |}.
  split.
  - destruct (save_registry _ w) as [ok w']. now destruct ok.
  - repeat split; try reflexivity. now apply valid_guid_strip.
Qed.

(** [connection_remove] leaves the world as it is or saves the registry
    without the connection. *)
Lemma connection_remove_effect (args : obj) (w : world) :
  let name := strip (get_or (strs args) (py "name") []) in
  let conns := connections_of (load_registry w) in
  snd (_connection_remove json_dumps args w) = w
  \/ snd (_connection_remove json_dumps args w)
     = snd (save_registry
              (with_connections (load_registry w) (dict_pop conns name)) w).
Proof.
  intros name conns. unfold _connection_remove. fold name. fold conns.
  destruct (truthy name); [|now left]. cbn [negb].
  destruct (dict_get conns name); [|now left].
  right. destruct (save_registry _ w) as [ok w']. now destruct ok.
Qed.

(** [connection_update] leaves the world as it is or saves the registry
    with one connection changed, at the three string fields and [mcps]
    only. *)
Lemma connection_update_effect (args : obj) (w : world) :
  let name := strip (get_or (strs args) (py "name") []) in
  let conns := connections_of (load_registry w) in
  snd (_connection_update json_dumps args w) = w
  \/ exists conn conn',
       dict_get conns name = Some conn
       /\ snd (_connection_update json_dumps args w)
          = snd (save_registry
                   (with_connections (load_registry w)
                      (dict_set conns name conn')) w)
       /\ (forall k, ~ In k STRING_FIELDS ->
             dict_get (strs conn') k = dict_get (strs conn) k).
Proof.
  intros name conns. unfold _connection_update. fold name. fold conns.
  destruct (truthy name); [|now left]. cbn [negb].
  destruct (dict_get conns name) as [conn|] eqn:Eg; [|now left].
  change [py "appId"; py "tenant"; py "description"] with STRING_FIELDS.
  pose proof (update_fields_spec args STRING_FIELDS conn []) as Spec.
  destruct (update_fields STRING_FIELDS args conn [])
    as [bad | [conn1 updated1]]; [now left|].
  destruct Spec as (_ & _ & Hframe & _).
  destruct (truthy_opt (mcps args)).
  - destruct (truthy (updated1 ++ [py "mcps"])); [|now left]. cbn [negb].
    right. exists conn, {| strs := strs conn1; mcps := mcps args |}.
    split; [reflexivity|]. split.
    + destruct (save_registry _ w) as [ok w']. now destruct ok.
    + intros k Hk. simpl. apply Hframe. intros G.
      apply filter_In in G. tauto.
  - destruct (truthy updated1); [|now left]. cbn [negb].
    right. exists conn, conn1. split; [reflexivity|]. split.
    + destruct (save_registry _ w) as [ok w']. now destruct ok.
    + intros k Hk. apply Hframe. intros G. apply filter_In in G. tauto.
Qed.

Section Lower.

(** [str.lower], of the Python runtime. *)
Variable py_lower : pystr -> pystr.

(** ** The dispatch on the status of a [run] *)

(** Unfolds a [run] call with its three parameters up to the reply of the
    pool. *)
Ltac enter_run args Hcall Hpool :=
  destruct Hcall as (?Hc & ?Hm & ?Hk);
  unfold _call_tool_impl;
  change (str_eqb (py "run") (py "connection_add")) with false;
  change (str_eqb (py "run") (py "connection_remove")) with false;
  change (str_eqb (py "run") (py "connection_update")) with false;
  change (str_eqb (py "run") (py "run")) with true;
  cbv iota; rewrite Hc, Hm, Hk; cbn [negb andb];
  unfold call_pool; change (str_eqb (py "POST") (py "GET")) with false;
  cbv iota;
  match goal with
  | |- context [pool ?w (Post ?e ?b)] =>
      change (pool w (Post e b)) with (pool w (run_request args))
  end;
  rewrite Hpool.

(** The branch a [run] call takes on status [success]. *)
Lemma run_success_eq (args : obj) (w : world) (r : response) :
  is_run_call args -> pool w (run_request args) = Replied r ->
  status_is r (py "success") = true ->
  _call_tool_impl json_dumps py_lower (py "run") args w
  = (text_content
       (on_success py_lower (get_or (strs args) (py "connection") []) r w),
     sent w (run_request args)).
Proof.
  intros Hcall Hpool Hs. enter_run args Hcall Hpool.
  rewrite (status_is_excl r _ (py "auth_required") Hs eq_refl).
  rewrite (status_is_excl r _ (py "auth_in_progress") Hs eq_refl).
  rewrite (status_is_excl r _ (py "error") Hs eq_refl).
  rewrite Hs. reflexivity.
Qed.



(** C1 (as amended). For a [run] call answered with status [success]: the
    first substitution takes every "select graphic rendition" sequence of the
    output out, the second every sequence that sets or resets a private mode
    (the cursor's visibility is one), and what they take out are such
    sequences only; an output without ESC is left as it is. The text rendered
    is the result, behind the wrong-account warning if there is one, with the
    white space at both ends trimmed. It is never empty: when no warning is
    prepended and the result is empty or white space only, it is the marker
    "(no output)". *)
Theorem run_success_rendering (args : obj) (w : world) (r : response) :
  is_run_call args -> pool w (run_request args) = Replied r ->
  status_is r (py "success") = true ->
  let output := get_or (r_strs r) (py "output") [] in
  let clean := strip_ansi output in
  let expected :=
    get_or (strs (conn_config_of w (get_or (strs args) (py "connection") [])))
      (py "expectedEmail") [] in
  let identity := get_or (r_strs r) (py "authenticated_as") [] in
  exists shown rendered,
    _call_tool_impl json_dumps py_lower (py "run") args w
    = (text_content rendered, sent w (run_request args))
    /\ rendered = (if blank shown then py "(no output)" else strip shown)
    /\ rendered <> []
    /\ (shown = clean \/ shown = wrong_account_warning expected identity ++ clean)
    /\ (identity = [] \/ expected = [] \/ py_lower expected = py_lower identity ->
        shown = clean)
    /\ erased is_sgr_seq output (re_sub_del match_sgr output)
    /\ erased is_mode_seq (re_sub_del match_sgr output) clean
    /\ (forall a q b, output = a ++ q ++ b -> is_sgr_seq q ->
          re_sub_del match_sgr output
          = re_sub_del match_sgr a ++ re_sub_del match_sgr b)
    /\ (forall a q b, output = a ++ q ++ b -> is_mode_seq q ->
          clean = strip_ansi a ++ strip_ansi b)
    /\ (~ In ESC output -> clean = output).
Proof.
  intros Hcall Hpool Hs output clean expected identity.
  rewrite (@run_success_eq args w r Hcall Hpool Hs). unfold on_success.
  fold output. fold clean. fold expected. fold identity.
  set (shown :=
         if truthy_opt (dict_get (r_strs r) (py "authenticated_as")) then
           if truthy expected
              && negb (str_eqb (py_lower expected) (py_lower identity))
           then wrong_account_warning expected identity ++ clean
           else clean
         else clean).
  exists shown, (if blank shown then py "(no output)" else strip shown).
  split; [|split; [reflexivity|split; [|split; [|split]]]].
  - rewrite truthy_strip. now destruct (blank shown).
  - destruct (blank shown) eqn:B; [discriminate|].
    intros E. apply strip_blank in E. congruence.
  - unfold shown.
    destruct (truthy_opt _); [|now left].
    destruct (_ && _); [now right | now left].
  - intros H. unfold shown.
    destruct (truthy_opt (dict_get (r_strs r) (py "authenticated_as"))) eqn:T;
      [|reflexivity].
    destruct H as [H|[H|H]].
    + exfalso. unfold identity, get_or in H. unfold truthy_opt in T.
      destruct (dict_get (r_strs r) (py "authenticated_as")); [|discriminate].
      subst. discriminate.
    + now rewrite H.
    + rewrite H, str_eqb_refl. now rewrite andb_false_r.
  - repeat split.
    + apply sgr_pass_erased.
    + apply mode_pass_erased.
    + intros a q b E Hq. rewrite E. now apply sgr_pass_drops.
    + intros a q b E Hq. unfold clean. rewrite E. now apply strip_ansi_drops_mode.
    + apply strip_ansi_plain.
Qed.




(** [run] does not write the registry file. *)
Lemma run_keeps_file (args : obj) (w : world) :
  file (snd (_call_tool_impl json_dumps py_lower (py "run") args w)) = file w.
Proof.
  unfold _call_tool_impl.
  change (str_eqb (py "run") (py "connection_add")) with false.
  change (str_eqb (py "run") (py "connection_remove")) with false.
  change (str_eqb (py "run") (py "connection_update")) with false.
  change (str_eqb (py "run") (py "run")) with true. cbv iota. cbn [negb].
  destruct (_ && _ && _).
  - unfold list_connections.
    destruct (call_pool (py "/connections") (py "GET") None w) as [r1 w1] eqn:E1.
    destruct (call_pool (py "/metrics") (py "GET") None w1) as [r2 w2] eqn:E2.
    simpl.
    pose proof (call_pool_keeps_file (py "/metrics") (py "GET") None w1) as F2.
    pose proof (call_pool_keeps_file (py "/connections") (py "GET") None w) as F1.
    rewrite E2 in F2. rewrite E1 in F1. simpl in F1, F2. congruence.
  - destruct (negb _); [reflexivity|].
    match goal with
    | |- context [call_pool ?e ?m ?d w] =>
        pose proof (call_pool_keeps_file e m d w) as F;
        destruct (call_pool e m d w) as [r1 w1]
    end.
    simpl in F.
    repeat match goal with
           | |- context [if ?b then _ else _] => destruct b
           end; exact F.
Qed.

(** C10. A connection that [connection_add] creates has the keys [appId],
    [tenant], [description] and [mcps] and no other, with the three strings
    stripped. A [connection_update] that saves leaves every entry of the
    connection other than those four as it was. So whatever the tool and its
    arguments, an [expectedEmail] found in the registry file after the call
    was there, for the same connection and with the same value, before it. *)
Theorem gateway_never_writes_expected_email :
  (forall args w,
     let name := strip (get_or (strs args) (py "name") []) in
     let conns := connections_of (load_registry w) in
     snd (_connection_add json_dumps args w) = w
     \/ exists record,
          snd (_connection_add json_dumps args w)
          = snd (save_registry
                   (with_connections (load_registry w)
                      (dict_set conns name record)) w)
          /\ obj_keys record
             = [py "appId"; py "tenant"; py "description"; py "mcps"]
          /\ dict_get (strs record) (py "appId")
             = Some (strip (get_or (strs args) (py "appId") []))
          /\ dict_get (strs record) (py "tenant")
             = Some (strip (get_or (strs args) (py "tenant") []))
          /\ dict_get (strs record) (py "description")
             = Some (strip (get_or (strs args) (py "description") []))
          /\ mcps record
             = Some (match mcps args with Some l => l | None => [] end))
  /\ (forall args w,
        let name := strip (get_or (strs args) (py "name") []) in
        let conns := connections_of (load_registry w) in
        snd (_connection_update json_dumps args w) = w
        \/ exists conn conn',
             dict_get conns name = Some conn
             /\ snd (_connection_update json_dumps args w)
                = snd (save_registry
                         (with_connections (load_registry w)
                            (dict_set conns name conn')) w)
             /\ (forall k, ~ In k STRING_FIELDS ->
                   dict_get (strs conn') k = dict_get (strs conn) k))
  /\ (forall tool args w n e,
        expected_email_in
          (file (snd (_call_tool_impl json_dumps py_lower tool args w))) n
        = Some e ->
        expected_email_in (file w) n = Some e).
Proof.
  split; [|split].
  - intros args w name conns.
    destruct (connection_add_effect args w) as [H | (record & H)];
      [now left|].
    right. exists record. tauto.
  - exact connection_update_effect.
  - intros tool args w n e.
    assert (forall d,
              (forall m x, expected_email_in (Some d) m = Some x ->
                           expected_email_in (file w) m = Some x) ->
              expected_email_in (file (snd (save_registry d w))) n = Some e ->
              expected_email_in (file w) n = Some e) as Save.
    { intros d Hd. destruct (save_registry_file d w) as [-> | [-> | ->]].
      - apply Hd.
      - trivial.
      - discriminate. }
    unfold _call_tool_impl.
    destruct (str_eqb tool (py "connection_add")) eqn:T1.
    { destruct (connection_add_effect args w)
        as [-> | (record & -> & Hnone & Hkeys & _)]; [trivial|].
      apply Save. intros m x.
      rewrite <- expected_email_loaded, expected_email_with.
      unfold expected_email_in.
      destruct (list_eq_dec N.eq_dec m
                  (strip (get_or (strs args) (py "name") []))) as [-> | Hne].
      - rewrite dict_get_set_same.
        intros H. exfalso.
        assert (~ In (py "expectedEmail") (keys (strs record))) as Hk.
        { intros G. assert (In (py "expectedEmail") (obj_keys record)) as G'
            by (unfold obj_keys; apply in_or_app; now left).
          rewrite Hkeys in G'. simpl in G'.
          repeat (destruct G' as [G'|G']; [discriminate|]). exact G'. }
        apply dict_get_None in Hk. congruence.
      - now rewrite dict_get_set_other. }
    destruct (str_eqb tool (py "connection_remove")) eqn:T2.
    { destruct (connection_remove_effect args w) as [-> | ->]; [trivial|].
      apply Save. intros m x.
      rewrite <- expected_email_loaded, expected_email_with.
      unfold expected_email_in.
      destruct (list_eq_dec N.eq_dec m
                  (strip (get_or (strs args) (py "name") []))) as [-> | Hne].
      - now rewrite dict_get_pop_same.
      - now rewrite dict_get_pop_other. }
    destruct (str_eqb tool (py "connection_update")) eqn:T3.
    { destruct (connection_update_effect args w)
        as [-> | (conn & conn' & Hget & -> & Hframe)]; [trivial|].
      apply Save. intros m x.
      rewrite <- expected_email_loaded, expected_email_with.
      unfold expected_email_in.
      destruct (list_eq_dec N.eq_dec m
                  (strip (get_or (strs args) (py "name") []))) as [-> | Hne].
      - rewrite dict_get_set_same, Hget. rewrite Hframe; [trivial|].
        simpl. intros G.
        repeat (destruct G as [G|G]; [discriminate|]). exact G.
      - now rewrite dict_get_set_other. }
    destruct (str_eqb tool (py "run")) eqn:T4; [|trivial].
    apply str_eqb_eq in T4. subst tool.
    pose proof (run_keeps_file args w) as F. unfold _call_tool_impl in F.
    change (str_eqb (py "run") (py "connection_add")) with false in F.
    change (str_eqb (py "run") (py "connection_remove")) with false in F.
    change (str_eqb (py "run") (py "connection_update")) with false in F.
    change (str_eqb (py "run") (py "run")) with true in F.
    cbv iota in F. cbn [negb] in *. now rewrite F.
Qed.

End Lower.

End Dumps.

End MMFacts.

(* ===================================================================== *)
(** * The [pwsh-manager] adapter: the connection filter, [disconnect] *)
(* ===================================================================== *)

Module PwshFacts.
Import PwshManager PyFacts.

(** In a dictionary a name has one value. *)
Lemma dict_get_unique {V} (d : dict V) (k : pystr) (v v' : V) :
  dict_wf d -> dict_get d k = Some v -> In (k, v') d -> v' = v.
Proof.
  unfold dict_wf. induction d as [|[k0 v0] d IH]; simpl; [discriminate|].
  intros Hwf Hget Hin. inversion Hwf as [|? ? Hnot Hrest]; subst.
  destruct (str_eqb k k0) eqn:E.
  - apply str_eqb_eq in E. subst k0. injection Hget as ->.
    destruct Hin as [Hin|Hin]; [congruence|].
    exfalso. apply Hnot. now apply (in_map fst) in Hin.
  - destruct Hin as [Hin|Hin].
    + injection Hin as -> ->. now rewrite str_eqb_refl in E.
    + now apply IH.
Qed.

Lemma load_connections_without (w : world) (name : pystr) :
  load_connections (without_connection w name)
  = dict_pop (load_connections w) name.
Proof.
  unfold load_connections, without_connection, connections_of. simpl.
  destruct (file w) as [d|]; [|reflexivity]. simpl.
  now destruct (connections d).
Qed.

Section Adapter.

Variable MCP_NAME : pystr.
Variable json_dumps : json -> pystr.

Section Foreign.

Variables (w : world) (name : pystr) (conn : obj).
Hypothesis Hwf : dict_wf (load_connections w).
Hypothesis Hget : dict_get (load_connections w) name = Some conn.
Hypothesis Hforeign : allowed MCP_NAME conn = false.

(** The filter passes the same entries with and without the foreign
    connection. *)
Lemma filter_without :
  filter (fun e => allowed MCP_NAME (snd e)) (load_connections (without_connection w name))
  = filter (fun e => allowed MCP_NAME (snd e)) (load_connections w).
Proof.
  rewrite load_connections_without. unfold dict_pop.
  assert (forall e, In e (load_connections w) -> fst e = name ->
                    allowed MCP_NAME (snd e) = false) as Hid.
  { intros [k c] Hin Hk. simpl in Hk. subst k.
    rewrite (@dict_get_unique _ _ _ _ _ Hwf Hget Hin). exact Hforeign. }
  revert Hid. generalize (load_connections w) as d.
  induction d as [|e d IH]; intros Hid; [reflexivity|].
  simpl. destruct (str_eqb name (fst e)) eqn:E; simpl.
  - apply str_eqb_eq in E. rewrite (Hid e) by (now left || now symmetry).
    apply IH. intros e' He'. apply Hid. now right.
  - destruct (allowed MCP_NAME (snd e)); [f_equal|]; apply IH; intros e' He';
      apply Hid; now right.
Qed.

Lemma available_without :
  list_available_connections MCP_NAME (without_connection w name)
  = list_available_connections MCP_NAME w.
Proof.
  unfold list_available_connections.
  now rewrite filter_without.
Qed.

Lemma get_connection_foreign : get_connection MCP_NAME name w = None.
Proof.
  unfold get_connection. rewrite Hget, Hforeign. now rewrite andb_false_r.
Qed.

(** Every name resolves the same way with and without it. *)
Lemma get_connection_without (n : pystr) :
  get_connection MCP_NAME n (without_connection w name)
  = get_connection MCP_NAME n w.
Proof.
  unfold get_connection. rewrite load_connections_without.
  destruct (list_eq_dec N.eq_dec n name) as [-> | Hne].
  - rewrite dict_get_pop_same, Hget, Hforeign. now rewrite andb_false_r.
  - now rewrite dict_get_pop_other.
Qed.

(** The client does not read the registry. *)
Lemma api_call_without (endpoint : pystr) (data : option (dict pystr)) :
  api_call endpoint data (without_connection w name)
  = (fst (api_call endpoint data w),
     without_connection (snd (api_call endpoint data w)) name).
Proof.
  unfold api_call.
  change (pool (without_connection w name)) with (pool w).
  destruct (pool w _) as [r|e]; [reflexivity|].
  now destruct (requests_connection_error e).
Qed.

Lemma not_available : ~ In name (list_available_connections MCP_NAME w).
Proof.
  unfold list_available_connections. intros H.
  apply in_map_iff in H as ([k c] & Hk & Hin). simpl in Hk. subst k.
  apply filter_In in Hin as [Hin Hv]. simpl in Hv.
  rewrite (@dict_get_unique _ _ _ _ _ Hwf Hget Hin) in Hv. congruence.
Qed.

(** A tool call goes the same way, with the same requests to the session
    manager, whether the registry has the foreign connection or not. *)
Lemma handle_without (tool : pystr) (args : dict pystr) :
  _handle_call_tool_impl MCP_NAME json_dumps tool args
    (without_connection w name)
  = (fst (_handle_call_tool_impl MCP_NAME json_dumps tool args w),
     without_connection
       (snd (_handle_call_tool_impl MCP_NAME json_dumps tool args w)) name).
Proof.
  unfold _handle_call_tool_impl.
  rewrite filter_without, available_without, get_connection_without.
  repeat (cbv beta iota; cbn [fst snd];
          match goal with
          | |- context [api_call ?e ?d (without_connection w name)] =>
              rewrite (api_call_without e d)
          | |- context [api_call ?e ?d w] => destruct (api_call e d w) as [? ?]
          | |- context [if ?b then _ else _] => destruct b
          | |- context [match ?x with Some _ => _ | None => _ end] =>
              destruct x
          end);
    reflexivity.
Qed.

End Foreign.

(** C5. Let the registry hold a connection [name] whose [mcps] does not
    list the adapter. Then the adapter resolves [name] to nothing, as it does
    in the registry without that connection, and does not list it; every
    tool call returns the same result and sends the same requests as it does
    for the registry without that connection; and a tool used on [name]
    fails with the one "not found" error, which carries the names the
    adapter may use. *)
Theorem foreign_connection_not_found (w : world) (name : pystr) (conn : obj) :
  dict_wf (load_connections w) ->
  dict_get (load_connections w) name = Some conn ->
  str_in MCP_NAME (mcps_of conn) = false ->
  let absent := without_connection w name in
  dict_get (load_connections absent) name = None
  /\ get_connection MCP_NAME name w = None
  /\ get_connection MCP_NAME name absent = None
  /\ ~ In name (list_available_connections MCP_NAME w)
  /\ list_available_connections MCP_NAME w
     = list_available_connections MCP_NAME absent
  /\ (forall (tool : pystr) (args : dict pystr),
        fst (_handle_call_tool_impl MCP_NAME json_dumps tool args w)
        = fst (_handle_call_tool_impl MCP_NAME json_dumps tool args absent)
        /\ calls (snd (_handle_call_tool_impl MCP_NAME json_dumps tool args w))
           = calls (snd (_handle_call_tool_impl MCP_NAME json_dumps tool args
                           absent)))
  /\ (forall (tool : pystr) (args : dict pystr),
        str_eqb tool (py "pwsh_list_connections") = false ->
        str_eqb tool (py "pwsh_sessions") = false ->
        get_or args (py "connectionName") [] = name -> name <> [] ->
        _handle_call_tool_impl MCP_NAME json_dumps tool args w
        = (error_result (json_dumps
             (not_found_doc name (list_available_connections MCP_NAME w))), w)).
Proof.
  intros Hwf Hget Hforeign absent.
  assert (allowed MCP_NAME conn = false) as Hf by exact Hforeign.
  split; [unfold absent; rewrite load_connections_without;
          apply dict_get_pop_same|].
  split; [eapply get_connection_foreign; eassumption|].
  split; [unfold absent; erewrite get_connection_without by eassumption;
          eapply get_connection_foreign; eassumption|].
  split; [eapply not_available; eassumption|].
  split; [symmetry; eapply available_without; eassumption|].
  split.
  - intros tool args. unfold absent.
    erewrite (@handle_without w name conn) by eassumption. now split.
  - intros tool args T1 T2 Hname Hne.
    unfold _handle_call_tool_impl. rewrite T1, T2, Hname.
    assert (truthy name = true) as ->
      by (destruct name; [congruence | reflexivity]).
    cbn [negb].
    erewrite get_connection_foreign by eassumption. reflexivity.
Qed.

(** C6 (as amended). A [disconnect] whose confirmation is not exactly
    [DISCONNECT] sends nothing to the session manager and returns an error:
    the confirmation-required error when the call names a connection that
    resolves for the adapter, and else the error of the missing name or of
    the name not found. With the exact confirmation and a connection that
    resolves, the one request sent is the one to [/disconnect]. Whatever the
    confirmation, a call without a name, or with a name that does not
    resolve, gets the error of the name and sends nothing; so a call that
    sends anything has the exact confirmation and a name that resolves. *)
Theorem disconnect_needs_confirmation (args : dict pystr) (w : world) :
  let conn_name := get_or args (py "connectionName") [] in
  let confirmation := get_or args (py "confirmation") [] in
  let outcome :=
    _handle_call_tool_impl MCP_NAME json_dumps (py "pwsh_disconnect") args w in
  let failed (doc : json) :=
    {| content := [{| type := py "text"; text := json_dumps doc |}];
       isError := true |} in
  (confirmation <> py "DISCONNECT" ->
     snd outcome = w
     /\ isError (fst outcome) = true
     /\ (conn_name = [] ->
         fst outcome
         = failed (name_required_doc (list_available_connections MCP_NAME w)))
     /\ (conn_name <> [] -> get_connection MCP_NAME conn_name w = None ->
         fst outcome
         = failed
             (not_found_doc conn_name (list_available_connections MCP_NAME w)))
     /\ (forall conn, conn_name <> [] ->
           get_connection MCP_NAME conn_name w = Some conn ->
           fst outcome = failed confirmation_required_doc))
  /\ (forall conn, confirmation = py "DISCONNECT" -> conn_name <> [] ->
        get_connection MCP_NAME conn_name w = Some conn ->
        snd outcome
        = sent w (Post (py "/disconnect")
                    (Some (build_request (get_or (strs conn) (py "tenant") [])
                             (get_or args (py "module") (py "exo")) []))))
  /\ (conn_name = [] ->
      outcome
      = (failed (name_required_doc (list_available_connections MCP_NAME w)), w))
  /\ (conn_name <> [] -> get_connection MCP_NAME conn_name w = None ->
      outcome
      = (failed
           (not_found_doc conn_name (list_available_connections MCP_NAME w)),
         w))
  /\ (snd outcome <> w ->
      confirmation = py "DISCONNECT" /\ conn_name <> []
      /\ exists conn, get_connection MCP_NAME conn_name w = Some conn).
Proof.
  intros conn_name confirmation outcome failed.
  unfold outcome, failed, _handle_call_tool_impl.
  change (str_eqb (py "pwsh_disconnect") (py "pwsh_list_connections"))
    with false.
  change (str_eqb (py "pwsh_disconnect") (py "pwsh_sessions")) with false.
  change (str_eqb (py "pwsh_disconnect") (py "pwsh_login")) with false.
  change (str_eqb (py "pwsh_disconnect") (py "pwsh_status")) with false.
  change (str_eqb (py "pwsh_disconnect") (py "pwsh_run")) with false.
  change (str_eqb (py "pwsh_disconnect") (py "pwsh_disconnect")) with true.
  cbv iota. fold conn_name. fold confirmation.
  split; [|split; [|split; [|split]]].
  - intros Hc. apply str_eqb_neq in Hc. rewrite Hc. cbn [negb].
    destruct conn_name as [|c0 cn] eqn:En.
    + cbn [truthy negb]. repeat split; try reflexivity; congruence.
    + cbn [truthy negb].
      destruct (get_connection MCP_NAME (c0 :: cn) w) as [conn|];
        repeat split; try reflexivity; congruence.
  - intros conn Hc Hn Hget. rewrite Hc.
    change (str_eqb (py "DISCONNECT") (py "DISCONNECT")) with true.
    assert (truthy conn_name = true) as ->
      by (destruct conn_name; [congruence | reflexivity]).
    cbn [negb]. rewrite Hget. unfold api_call.
    assert (truthy_opt (Some (build_request
                         (get_or (strs conn) (py "tenant") [])
                         (get_or args (py "module") (py "exo")) [])) = true)
      as ->.
    { unfold build_request. now destruct (str_eqb _ (py "pnp")). }
    destruct (pool w _) as [r|e].
    + now destruct (flag r (py "success")).
    + destruct (requests_connection_error e);
        match goal with
        | |- context [flag ?r ?k] => now destruct (flag r k)
        end.
  - intros ->. reflexivity.
  - intros Hn Hget.
    assert (truthy conn_name = true) as ->
      by (destruct conn_name; [congruence | reflexivity]).
    cbn [negb]. now rewrite Hget.
  - destruct conn_name as [|c0 cn] eqn:En.
    { cbn [truthy negb fst snd]. congruence. }
    cbn [truthy negb].
    destruct (get_connection MCP_NAME (c0 :: cn) w) as [conn|];
      [|cbn [snd]; congruence].
    destruct (str_eqb confirmation (py "DISCONNECT")) eqn:Hc;
      [|cbn [negb snd]; congruence].
    intros _. apply str_eqb_eq in Hc.
    split; [exact Hc|]. split; [discriminate|]. now exists conn.
Qed.

End Adapter.

End PwshFacts.

(* ===================================================================== *)
(** * The two pool clients *)
(* ===================================================================== *)

Module PoolClientFacts.

(** C9 (as amended). Neither client lets an exception of the HTTP exchange
    through: each returns a reply of its own error shape and has sent the
    request. [call_pool] of [mm] returns [status] "error" with the [error]
    "Request timed out" for a timeout and [str(e)] for any other failure.
    [api_call] of [pwsh-manager] returns [success] false, without [status],
    with a fixed [error] text for a connection error and [str(e)] for any
    other failure, a read timeout included. *)
Theorem transport_failures_normalized :
  (forall (endpoint method : pystr) (data : option (dict pystr))
          (w : MM.world) (e : failure),
     let req := if str_eqb method (py "GET") then Get endpoint
                else Post endpoint data in
     MM.pool w req = Raised e ->
     MM.call_pool endpoint method data w
     = (MM.pool_error (if httpx_timeout e then py "Request timed out"
                       else message e),
        MM.sent w req)
     /\ MM.status_is (fst (MM.call_pool endpoint method data w)) (py "error")
        = true
     /\ (kind e = ConnectTimeout \/ kind e = ReadTimeout ->
         dict_get (r_strs (fst (MM.call_pool endpoint method data w)))
           (py "error") = Some (py "Request timed out"))
     /\ (kind e = ConnectFailed \/ kind e = OtherFailure ->
         dict_get (r_strs (fst (MM.call_pool endpoint method data w)))
           (py "error") = Some (message e)))
  /\ (forall (endpoint : pystr) (data : option (dict pystr))
            (w : PwshManager.world) (e : failure),
        let req := if truthy_opt data then Post endpoint data
                   else Get endpoint in
        PwshManager.pool w req = Raised e ->
        PwshManager.api_call endpoint data w
        = (PwshManager.api_error
             (if requests_connection_error e
              then py "Cannot connect to pwsh-manager. Is Docker running?"
              else message e),
           PwshManager.sent w req)
        /\ flag (fst (PwshManager.api_call endpoint data w)) (py "success")
           = false
        /\ dict_get (r_strs (fst (PwshManager.api_call endpoint data w)))
             (py "status") = None
        /\ (kind e = ReadTimeout \/ kind e = OtherFailure ->
            dict_get (r_strs (fst (PwshManager.api_call endpoint data w)))
              (py "error") = Some (message e))
        /\ (kind e = ConnectTimeout \/ kind e = ConnectFailed ->
            dict_get (r_strs (fst (PwshManager.api_call endpoint data w)))
              (py "error")
            = Some (py "Cannot connect to pwsh-manager. Is Docker running?"))).
Proof.
  split.
  - intros endpoint method data w e req H.
    unfold MM.call_pool. fold req. rewrite H.
    unfold httpx_timeout.
    destruct (kind e); repeat split; try reflexivity;
      intros [G|G]; discriminate.
  - intros endpoint data w e req H.
    unfold PwshManager.api_call. fold req. rewrite H.
    unfold requests_connection_error.
    destruct (kind e); repeat split; try reflexivity;
      intros [G|G]; discriminate.
Qed.

End PoolClientFacts.

(* ===================================================================== *)
(** * The registry tools of [mm]: what they store, and how they compose *)
(* ===================================================================== *)

Module RegistryFacts.
Import MM PyFacts MMFacts.

(** ** Dictionaries, once more *)

Lemma dict_set_absent {V} (d : dict V) (k : pystr) (v : V) :
  dict_get d k = None -> dict_set d k v = d ++ [(k, v)].
Proof.
  induction d as [|[k0 v0] d IH]; simpl; [reflexivity|].
  destruct (str_eqb k k0); [discriminate|]. intros H. now rewrite IH.
Qed.

Lemma dict_set_same_value {V} (d : dict V) (k : pystr) (v : V) :
  dict_get d k = Some v -> dict_set d k v = d.
Proof.
  induction d as [|[k0 v0] d IH]; simpl; [discriminate|].
  destruct (str_eqb k k0); [now intros [= ->]|]. intros H. now rewrite IH.
Qed.

Lemma dict_pop_set_absent {V} (d : dict V) (k : pystr) (v : V) :
  dict_get d k = None -> dict_pop (dict_set d k v) k = d.
Proof.
  induction d as [|[k0 v0] d IH]; simpl.
  - now rewrite str_eqb_refl.
  - destruct (str_eqb k k0) eqn:E; [discriminate|]. intros H.
    simpl. rewrite E. simpl. now rewrite IH.
Qed.

Lemma lstrip_app_blank (p s : pystr) :
  blank p = true -> lstrip (p ++ s) = lstrip s.
Proof.
  induction p as [|c p IH]; simpl; [reflexivity|].
  destruct (is_space c); [exact IH | discriminate].
Qed.

Lemma truthy_true_iff {A} (l : list A) : truthy l = true <-> l <> [].
Proof. destruct l; split; (reflexivity || congruence || discriminate). Qed.

(** ** [is_valid_guid] *)

Lemma guid_length (g : pystr) : is_guid g -> length g = 36%nat.
Proof.
  intros (a & b & c & d & e & _ & La & Lb & Lc & Ld & Le & ->).
  repeat (rewrite length_app || cbn [length]). lia.
Qed.

Lemma valid_guid_head (c : N) (r : pystr) :
  is_valid_guid (c :: r) = true -> is_hex c = true.
Proof.
  unfold is_valid_guid. cbn [take_hex].
  destruct (is_hex c); [reflexivity | discriminate].
Qed.

(** X1. [is_valid_guid] accepts the GUIDs (8-4-4-4-12 hexadecimal digits)
    and, since [$] also matches in front of a line feed that ends the
    string, the GUIDs followed by one line feed; nothing else. What it
    accepts has 36 or 37 characters, is a GUID once stripped, and does not
    start with white space. *)
Theorem valid_guid_language (s : pystr) :
  (is_valid_guid s = true
   <-> is_guid s \/ exists g, is_guid g /\ s = g ++ nl)
  /\ (is_valid_guid s = true ->
      is_guid (strip s) /\ (length s = 36 \/ length s = 37)%nat)
  /\ (forall c r, s = c :: r -> is_space c = true -> is_valid_guid s = false).
Proof.
  split; [apply is_valid_guid_spec|]. split.
  - intros H. split; [now apply valid_guid_stored|].
    apply is_valid_guid_spec in H as [G | (g & G & ->)].
    + left. now apply guid_length.
    + right. rewrite length_app, (guid_length G). reflexivity.
  - intros c r -> Hc. apply not_true_iff_false. intros H.
    apply valid_guid_head, hex_visible in H. congruence.
Qed.

Section Dumps.

Variable json_dumps : json -> pystr.

(** ** [connection_add] *)

(** An accepted call of [connection_add], with a file that can be
    written. *)
Lemma add_accepted_run (args : obj) (w : world) :
  add_accepted args w -> disk w = IoOk ->
  let saved :=
    with_connections (load_registry w)
      (dict_set (connections_of (load_registry w)) (stripped_name args)
         (added_record args)) in
  _connection_add json_dumps args w
  = (text_content (json_dumps (JObj
       [(py "success", JBool true);
        (py "message",
         JStr (py "Connection '" ++ stripped_name args ++ py "' added"))])),
     {| file := Some saved; disk := disk w; pool := pool w;
        calls := calls w; writes := writes w ++ [saved] |}).
Proof.
  intros (Hm & Hg & Hn) Hd saved. unfold _connection_add.
  fold (stripped_name args). rewrite Hm. cbn [truthy].
  apply valid_guid_strip in Hg. rewrite Hg. cbn [negb].
  unfold dict_mem. rewrite Hn.
  change {| strs := _; mcps := _ |} with (added_record args).
  fold saved. unfold save_registry. rewrite Hd. reflexivity.
Qed.

(** X2. A call of [connection_add] that passes the three checks, with a
    file that can be written, is answered with the success message; the
    document saved is the registry with the new record behind the
    connections it had, everything else in it as before; the file is
    written once and nothing is sent to the pool. When the file cannot be
    written the answer is "Failed to save". A call that fails a check leaves
    the world as it is. *)
Theorem connection_add_appends (args : obj) (w : world) :
  let name := stripped_name args in
  let registry := load_registry w in
  let saved :=
    with_connections registry
      (connections_of registry ++ [(name, added_record args)]) in
  (add_accepted args w -> disk w = IoOk ->
   _connection_add json_dumps args w
   = (text_content (json_dumps (JObj
        [(py "success", JBool true);
         (py "message", JStr (py "Connection '" ++ name ++ py "' added"))])),
      {| file := Some saved; disk := disk w; pool := pool w;
         calls := calls w; writes := writes w ++ [saved] |}))
  /\ (add_accepted args w -> disk w <> IoOk ->
      _connection_add json_dumps args w
      = (text_content (json_dumps (error_doc (py "Failed to save"))),
         snd (save_registry saved w)))
  /\ (~ add_accepted args w -> snd (_connection_add json_dumps args w) = w).
Proof.
  intros name registry saved. split; [|split].
  - intros Ha Hd. rewrite (add_accepted_run Ha Hd).
    destruct Ha as (_ & _ & Hn). unfold saved, name, registry.
    now rewrite dict_set_absent by exact Hn.
  - intros (Hm & Hg & Hn) Hd. unfold _connection_add.
    fold (stripped_name args). fold name. fold registry.
    rewrite Hm. cbn [truthy]. apply valid_guid_strip in Hg. rewrite Hg.
    cbn [negb]. unfold dict_mem. fold name registry in Hn. rewrite Hn.
    rewrite dict_set_absent by exact Hn.
    change {| strs := _; mcps := _ |} with (added_record args). fold saved.
    unfold save_registry. destruct (disk w); [congruence | |]; reflexivity.
  - intros Hno. unfold _connection_add.
    fold (stripped_name args). fold name. fold registry.
    destruct (missing_fields args) eqn:Em; [|reflexivity]. cbn [truthy].
    destruct (is_valid_guid _) eqn:Eg; [|reflexivity]. cbn [negb].
    unfold dict_mem.
    destruct (dict_get (connections_of registry) name) eqn:En; [reflexivity|].
    exfalso. apply Hno. split; [exact Em|]. split; [|exact En].
    now apply valid_guid_strip.
Qed.

(** X3. [connection_remove] undoes [connection_add]: after an accepted
    [connection_add] of a name that is not empty, a [connection_remove] of
    that name returns the record that was added, and the registry has the
    connections it had before the two calls, in their order, and the same
    other top-level keys. *)
Theorem connection_remove_undoes_add (args args' : obj) (w : world) :
  add_accepted args w -> disk w = IoOk ->
  stripped_name args <> [] -> stripped_name args' = stripped_name args ->
  let w1 := snd (_connection_add json_dumps args w) in
  let out := _connection_remove json_dumps args' w1 in
  fst out
  = text_content (json_dumps (JObj
      [(py "success", JBool true);
       (py "message", JStr (py "'" ++ stripped_name args ++ py "' removed"));
       (py "removed", json_of_obj (added_record args))]))
  /\ connections_of (load_registry (snd out))
     = connections_of (load_registry w)
  /\ extras (load_registry (snd out)) = extras (load_registry w).
Proof.
  intros Ha Hd Hne Hsame w1 out. unfold out, w1. clear out w1.
  rewrite (add_accepted_run Ha Hd). cbn [snd].
  destruct Ha as (_ & _ & Hn).
  set (conns := connections_of (load_registry w)) in *.
  set (saved := with_connections (load_registry w)
                  (dict_set conns (stripped_name args) (added_record args))).
  set (w1 := {| file := Some saved; disk := disk w; pool := pool w;
                calls := calls w; writes := writes w ++ [saved] |}).
  assert (load_registry w1 = saved) as L by reflexivity.
  unfold _connection_remove. fold (stripped_name args'). rewrite Hsame, L.
  apply truthy_true_iff in Hne. rewrite Hne. cbn [negb].
  assert (connections_of saved
          = dict_set conns (stripped_name args) (added_record args)) as ->
    by reflexivity.
  rewrite dict_get_set_same.
  rewrite dict_pop_set_absent by exact Hn.
  unfold save_registry. cbn [disk w1]. rewrite Hd.
  repeat split.
Qed.

(** X4. [connection_add] does not overwrite: after an accepted
    [connection_add], a second one of the same name, whatever its other
    fields, is answered with an error document and leaves the world as the
    first call left it, so that the registry still has the record of the
    first call under the name. The error is "already exists" when the second
    call has every field and an [appId] that is a GUID once stripped; with a
    field missing or another [appId] it is the error of that check. *)
Theorem connection_add_once (args args' : obj) (w : world) :
  add_accepted args w -> disk w = IoOk ->
  stripped_name args' = stripped_name args ->
  let w1 := snd (_connection_add json_dumps args w) in
  let out := _connection_add json_dumps args' w1 in
  let failed (msg : pystr) :=
    [{| type := py "text";
        text := json_dumps (JObj [(py "error", JStr msg)]) |}] in
  snd out = w1
  /\ dict_get (connections_of (load_registry (snd out))) (stripped_name args)
     = Some (added_record args)
  /\ (exists msg, fst out = failed msg)
  /\ (missing_fields args' = [] ->
      is_guid (strip (get_or (strs args') (py "appId") [])) ->
      fst out
      = failed (py "'" ++ stripped_name args
                ++ py "' already exists. Use connection_update."))
  /\ (missing_fields args' <> [] ->
      fst out
      = failed (py "Missing: " ++ join (py ", ") (missing_fields args')))
  /\ (missing_fields args' = [] ->
      ~ is_guid (strip (get_or (strs args') (py "appId") [])) ->
      fst out
      = failed (py "Invalid appId format: "
                ++ strip (get_or (strs args') (py "appId") []))).
Proof.
  intros Ha Hd Hsame w1 out failed. unfold out, w1, failed. clear out w1 failed.
  rewrite (add_accepted_run Ha Hd). cbn [snd].
  set (saved := with_connections (load_registry w)
                  (dict_set (connections_of (load_registry w))
                     (stripped_name args) (added_record args))).
  set (w1 := {| file := Some saved; disk := disk w; pool := pool w;
                calls := calls w; writes := writes w ++ [saved] |}).
  assert (dict_get (connections_of (load_registry w1)) (stripped_name args)
          = Some (added_record args)) as Hrec.
  { unfold load_registry, w1, saved.
    cbn [file connections_of with_connections connections].
    apply dict_get_set_same. }
  unfold _connection_add. fold (stripped_name args'). rewrite Hsame.
  destruct (missing_fields args') as [|f0 fs] eqn:Em; cbn [truthy].
  2:{ cbn [fst snd]. repeat split; try assumption.
      - eexists. reflexivity.
      - discriminate.
      - congruence. }
  destruct (is_valid_guid (strip (get_or (strs args') (py "appId") [])))
    eqn:Eg; cbn [negb].
  - unfold dict_mem. rewrite Hrec. cbn [fst snd].
    repeat split; try assumption.
    + eexists. reflexivity.
    + congruence.
    + intros _ Hno. exfalso. apply Hno. now apply valid_guid_strip.
  - cbn [fst snd]. repeat split; try assumption.
    + eexists. reflexivity.
    + intros _ Hg. apply valid_guid_strip in Hg. congruence.
    + congruence.
Qed.

(** X5. A name of white space only passes the check for missing fields,
    which looks at the name as given, and is stored stripped: an accepted
    [connection_add] with such a name stores the record under the empty
    name, behind the other connections. *)
Theorem blank_name_stored_under_empty_name (args : obj) (w : world) :
  add_accepted args w -> disk w = IoOk ->
  blank (get_or (strs args) (py "name") []) = true ->
  let w1 := snd (_connection_add json_dumps args w) in
  get_or (strs args) (py "name") [] <> []
  /\ dict_get (connections_of (load_registry w1)) [] = Some (added_record args)
  /\ keys (connections_of (load_registry w1))
     = keys (connections_of (load_registry w)) ++ [[]].
Proof.
  intros Ha Hd Hb w1. unfold w1. rewrite (add_accepted_run Ha Hd). cbn [snd].
  destruct Ha as (Hm & _ & Hn).
  assert (stripped_name args = []) as E by now apply strip_blank.
  rewrite E in *.
  set (conns := connections_of (load_registry w)) in *.
  match goal with
  | |- context [load_registry ?x] =>
      change (connections_of (load_registry x))
        with (dict_set conns [] (added_record args))
  end.
  split; [|split].
  - assert (arg_truthy args (py "name") = true) as T.
    { destruct (arg_truthy args (py "name")) eqn:T; [reflexivity|].
      assert (In (py "name") (missing_fields args)) as G
        by (apply missing_fields_In; split; [now left | exact T]).
      rewrite Hm in G. destruct G. }
    unfold arg_truthy in T.
    change (str_eqb (py "name") (py "mcps")) with false in T. cbv iota in T.
    unfold get_or. intros G.
    destruct (dict_get (strs args) (py "name")) as [v|]; [|discriminate].
    subst v. discriminate.
  - apply dict_get_set_same.
  - apply keys_set_absent. now apply dict_get_None.
Qed.

(** ** [connection_update] *)

(** A connection that already has the values a call supplies comes out of
    the loop as it went in. *)
Lemma update_fields_fixed (args conn : obj) :
  forall fields updated,
    (forall k, In k (filter (supplied args) fields) ->
       dict_get (strs conn) k = Some (strip (get_or (strs args) k []))) ->
    (In (py "appId") fields -> supplied args (py "appId") = true ->
     is_valid_guid (get_or (strs args) (py "appId") []) = true) ->
    update_fields fields args conn updated
    = inr (conn, updated ++ filter (supplied args) fields).
Proof.
  induction fields as [|f rest IH]; intros updated Hval Hguid.
  - simpl. now rewrite app_nil_r.
  - cbn [update_fields filter]. fold (supplied args f).
    destruct (supplied args f) eqn:Sf.
    + assert (str_eqb f (py "appId")
              && negb (is_valid_guid (get_or (strs args) f [])) = false) as ->.
      { destruct (str_eqb f (py "appId")) eqn:Ef; [|reflexivity].
        apply str_eqb_eq in Ef. subst f.
        rewrite Hguid by (assumption || now left). reflexivity. }
      assert (set_str conn f (strip (get_or (strs args) f [])) = conn) as ->.
      { unfold set_str. rewrite dict_set_same_value.
        - now destruct conn.
        - apply Hval. cbn [filter]. fold (supplied args f). rewrite Sf.
          now left. }
      rewrite IH.
      * now rewrite <- app_assoc.
      * intros k Hk. apply Hval. cbn [filter]. fold (supplied args f).
        rewrite Sf. now right.
      * intros Hin. apply Hguid. now right.
    + apply IH.
      * intros k Hk. apply Hval. cbn [filter]. fold (supplied args f).
        now rewrite Sf.
      * intros Hin. apply Hguid. now right.
Qed.

(** X6. [connection_update] is idempotent: the same call made a second
    time gets the same answer and leaves the registry file as the first
    call left it (unless a write of the file fails half-way). *)
Theorem connection_update_idempotent (args : obj) (w : world) :
  disk w <> IoWriteFails ->
  let first := _connection_update json_dumps args w in
  let second := _connection_update json_dumps args (snd first) in
  fst second = fst first /\ file (snd second) = file (snd first).
Proof.
  intros Hd first second. unfold second, first. clear first second.
  remember (_connection_update json_dumps args w) as out eqn:Eout0.
  pose proof Eout0 as Eout.
  unfold _connection_update in Eout. fold (stripped_name args) in Eout.
  (* A call that does not save leaves the world as it is, and is answered
     the same way again. *)
  assert (snd out = w ->
          fst (_connection_update json_dumps args (snd out)) = fst out
          /\ file (snd (_connection_update json_dumps args (snd out)))
             = file (snd out)) as Unchanged.
  { intros H. rewrite H, <- Eout0, H. split; reflexivity. }
  destruct (truthy (stripped_name args)) eqn:Hn; cbn [negb] in Eout;
    [|apply Unchanged; now rewrite Eout].
  destruct (dict_get (connections_of (load_registry w)) (stripped_name args))
    as [conn|] eqn:Hget; [|apply Unchanged; now rewrite Eout].
  change [py "appId"; py "tenant"; py "description"] with STRING_FIELDS in Eout.
  pose proof (update_fields_spec args STRING_FIELDS conn []) as Spec.
  destruct (update_fields STRING_FIELDS args conn [])
    as [bad | [conn1 updated1]] eqn:Eu; [apply Unchanged; now rewrite Eout|].
  destruct Spec as (Hu & Hm & Hframe & Hset & Hguid).
  change (updated1 = filter (supplied args) STRING_FIELDS) in Hu.
  set (conn2 := if truthy_opt (mcps args)
                then {| strs := strs conn1; mcps := mcps args |}
                else conn1) in *.
  set (updated := if truthy_opt (mcps args)
                  then updated1 ++ [py "mcps"] else updated1) in *.
  assert (forall c : obj,
            (if truthy_opt (mcps args)
             then ({| strs := strs c; mcps := mcps args |},
                   updated1 ++ [py "mcps"])
             else (c, updated1))
            = (if truthy_opt (mcps args)
               then {| strs := strs c; mcps := mcps args |} else c,
               updated)) as Epair
    by (intros c; unfold updated; now destruct (truthy_opt (mcps args))).
  rewrite Epair in Eout. fold conn2 in Eout.
  destruct (truthy updated) eqn:Tu; cbn [negb] in Eout;
    [|apply Unchanged; now rewrite Eout].
  set (saved := with_connections (load_registry w)
                  (dict_set (connections_of (load_registry w))
                     (stripped_name args) conn2)) in *.
  assert (strs conn2 = strs conn1) as Hstrs
    by (unfold conn2; now destruct (truthy_opt (mcps args))).
  assert ((if truthy_opt (mcps args)
           then {| strs := strs conn2; mcps := mcps args |} else conn2)
          = conn2) as Hfix.
  { unfold conn2. destruct (truthy_opt (mcps args)); [reflexivity|].
    reflexivity. }
  (* The second call works on the connection the first one stored. *)
  assert (forall w1, load_registry w1 = saved ->
            _connection_update json_dumps args w1
            = (let '(ok, w') := save_registry saved w1 in
               if ok
               then (text_content (json_dumps (JObj
                       [(py "success", JBool true);
                        (py "updated", JArr (map JStr updated));
                        (py "connection", json_of_obj conn2)])), w')
               else (text_content
                       (json_dumps (error_doc (py "Failed to save"))), w')))
    as Again.
  { intros w1 L.
    unfold _connection_update. fold (stripped_name args). rewrite Hn.
    cbn [negb]. rewrite L.
    assert (connections_of saved
            = dict_set (connections_of (load_registry w))
                (stripped_name args) conn2) as -> by reflexivity.
    rewrite dict_get_set_same.
    change [py "appId"; py "tenant"; py "description"] with STRING_FIELDS.
    rewrite (@update_fields_fixed args conn2 STRING_FIELDS []).
    - cbn [app]. rewrite <- Hu, Epair, Hfix, Tu. cbn [negb].
      rewrite dict_set_same_value by apply dict_get_set_same.
      assert (with_connections saved
                (dict_set (connections_of (load_registry w))
                   (stripped_name args) conn2) = saved) as ->
        by reflexivity.
      reflexivity.
    - intros k Hk. rewrite Hstrs. now apply Hset.
    - exact Hguid. }
  unfold save_registry in Eout.
  destruct (disk w) eqn:Ed; [| |congruence].
  - (* the write succeeds *)
    rewrite Eout. cbn [snd fst].
    rewrite Again by reflexivity.
    unfold save_registry. cbn [disk]. split; reflexivity.
  - (* the file cannot be opened: it stays as it was *)
    rewrite Eout. cbn [snd fst].
    match goal with
    | |- context [_connection_update _ _ ?x] =>
        assert (_connection_update json_dumps args x
                = (text_content
                     (json_dumps (error_doc (py "Failed to save"))),
                   {| file := file w; disk := IoOpenFails; pool := pool w;
                      calls := calls w;
                      writes := (writes w ++ [saved]) ++ [saved] |})) as ->
    end.
    { unfold _connection_update. fold (stripped_name args). rewrite Hn.
      cbn [negb].
      match goal with
      | |- context [load_registry ?x] =>
          change (load_registry x) with (load_registry w)
      end.
      rewrite Hget.
      change [py "appId"; py "tenant"; py "description"] with STRING_FIELDS.
      rewrite Eu, Epair. fold conn2. rewrite Tu. cbn [negb]. fold saved.
      unfold save_registry. cbn [disk]. reflexivity. }
    split; reflexivity.
Qed.

(** X7. [connection_add] checks the [appId] once stripped and
    [connection_update] checks it as given: a GUID with white space in front
    of it is accepted and stored stripped by the first, and rejected by the
    second. *)
Theorem padded_app_id_add_and_update (g pad : pystr) :
  is_guid g -> blank pad = true -> pad <> [] ->
  (forall args w,
     get_or (strs args) (py "appId") [] = pad ++ g ->
     missing_fields args = [] ->
     dict_get (connections_of (load_registry w)) (stripped_name args) = None ->
     disk w = IoOk ->
     exists record,
       dict_get (connections_of
                   (load_registry (snd (_connection_add json_dumps args w))))
         (stripped_name args) = Some record
       /\ dict_get (strs record) (py "appId") = Some g)
  /\ (forall args w conn,
        stripped_name args <> [] ->
        dict_get (connections_of (load_registry w)) (stripped_name args)
        = Some conn ->
        dict_get (strs args) (py "appId") = Some (pad ++ g) ->
        _connection_update json_dumps args w
        = (text_content (json_dumps (error_doc
             (py "Invalid appId: " ++ pad ++ g))), w)).
Proof.
  intros Hg Hb Hp.
  assert (strip (pad ++ g) = g) as Hstrip.
  { unfold strip. rewrite lstrip_app_blank by assumption.
    apply strip_visible. now apply guid_visible. }
  assert (is_valid_guid (pad ++ g) = false) as Hbad.
  { apply not_true_iff_false. intros H.
    destruct pad as [|c pad]; [congruence|].
    apply valid_guid_head, hex_visible in H.
    simpl in Hb. now rewrite H in Hb. }
  split.
  - intros args w Happ Hm Hn Hd.
    assert (add_accepted args w) as Ha
      by (repeat split; try assumption; now rewrite Happ, Hstrip).
    exists (added_record args).
    rewrite (add_accepted_run Ha Hd). cbn [snd].
    unfold load_registry.
    cbn [file connections_of with_connections connections].
    rewrite dict_get_set_same. split; [reflexivity|].
    unfold added_record. cbn [strs dict_get].
    change (str_eqb (py "appId") (py "appId")) with true. cbv iota.
    now rewrite Happ, Hstrip.
  - intros args w conn Hne Hget Happ.
    unfold _connection_update. fold (stripped_name args).
    apply truthy_true_iff in Hne. rewrite Hne. cbn [negb]. rewrite Hget.
    cbn [update_fields]. rewrite Happ.
    assert (truthy_opt (Some (pad ++ g)) = true) as ->
      by (destruct pad; [congruence | reflexivity]).
    unfold get_or. rewrite Happ.
    change (str_eqb (py "appId") (py "appId")) with true.
    rewrite Hbad. reflexivity.
Qed.

End Dumps.

End RegistryFacts.

(* ===================================================================== *)
(** * The [run] tool of [mm]: its requests, the dispatch on the status, the
      cleaning of the output; the effects of a tool call *)
(* ===================================================================== *)

Module RunFacts.
Import MM PyFacts ReFacts MMFacts RegistryFacts.

Lemma call_pool_world (endpoint method : pystr) (data : option (dict pystr))
  (w : world) :
  snd (call_pool endpoint method data w)
  = sent w (if str_eqb method (py "GET") then Get endpoint
            else Post endpoint data).
Proof.
  unfold call_pool. destruct (pool w _) as [r|e]; [reflexivity|].
  now destruct (httpx_timeout e).
Qed.

(** What a write leaves alone. *)
Lemma save_registry_frame (data : document) (w : world) :
  disk (snd (save_registry data w)) = disk w
  /\ pool (snd (save_registry data w)) = pool w
  /\ calls (snd (save_registry data w)) = calls w
  /\ writes (snd (save_registry data w)) = writes w ++ [data].
Proof. unfold save_registry. destruct (disk w); repeat split. Qed.

(** ** The cleaning of well-formed output *)

Lemma text_of_plain (ps : list piece) : well_formed ps -> ~ In ESC (text_of ps).
Proof.
  unfold well_formed, text_of.
  induction 1 as [|p ps Hp _ IH]; simpl; [tauto|].
  intros G. apply in_app_or in G as [G|G]; [|tauto].
  destruct p; [tauto | destruct G].
Qed.

(** The first substitution drops the SGR sequences and keeps the rest. *)
Lemma sgr_pass_pieces (ps : list piece) :
  well_formed ps ->
  exists mid,
    re_sub_del match_sgr (raw_of ps) = raw_of mid
    /\ Forall (fun p => match p with
                        | Text s => ~ In ESC s
                        | Control q => is_mode_seq q
                        end) mid
    /\ text_of mid = text_of ps.
Proof.
  unfold well_formed.
  induction 1 as [|p ps Hp _ (mid & E & Hmid & Ht)].
  - exists []. repeat split. constructor.
  - destruct p as [s|q].
    + exists (Text s :: mid). unfold raw_of, text_of in *. simpl.
      unfold re_sub_del in *.
      rewrite (sub_keeps_plain match_sgr match_sgr_head) by exact Hp.
      rewrite E, Ht. repeat split. now constructor.
    + destruct Hp as [Hq|Hq].
      * exists mid. unfold raw_of, text_of in *. simpl.
        unfold re_sub_del in *. rewrite (sub_drops match_sgr).
        -- now repeat split.
        -- destruct Hq as [? [_ ->]]. discriminate.
        -- now apply match_sgr_seq.
      * exists (Control q :: mid). unfold raw_of, text_of in *. simpl.
        rewrite sgr_keeps_mode_seq by exact Hq.
        rewrite E, Ht. repeat split. now constructor.
Qed.

(** The second substitution then leaves the text. *)
Lemma mode_pass_pieces (mid : list piece) :
  Forall (fun p => match p with
                   | Text s => ~ In ESC s
                   | Control q => is_mode_seq q
                   end) mid ->
  re_sub_del match_mode (raw_of mid) = text_of mid.
Proof.
  induction 1 as [|p mid Hp _ IH]; [reflexivity|].
  unfold raw_of, text_of, re_sub_del in *. simpl. destruct p as [s|q].
  - rewrite (sub_keeps_plain match_mode match_mode_head) by exact Hp.
    now rewrite IH.
  - rewrite (sub_drops match_mode).
    + exact IH.
    + destruct Hp as (? & ? & ? & _ & _ & _ & ->). discriminate.
    + now apply match_mode_seq.
Qed.

Section Runtime.

Variable json_dumps : json -> pystr.
Variable py_lower : pystr -> pystr.

(** ** The requests of [run] *)

(** The three ways of a [run] call, by the parameters it has. *)
Lemma run_ways (args : obj) (w : world) :
  let c := truthy_opt (dict_get (strs args) (py "connection")) in
  let m := truthy_opt (dict_get (strs args) (py "module")) in
  let k := truthy_opt (dict_get (strs args) (py "command")) in
  let out := _call_tool_impl json_dumps py_lower (py "run") args w in
  (c = false -> m = false -> k = false -> out = list_connections w)
  /\ (c && m && k = false -> c || m || k = true ->
      out = (text_content
               (py "Error: connection, module, and command are all required"),
             w))
  /\ (c = true -> m = true -> k = true ->
      snd out = sent w (run_request args)).
Proof.
  intros c m k out. unfold out, _call_tool_impl.
  change (str_eqb (py "run") (py "connection_add")) with false.
  change (str_eqb (py "run") (py "connection_remove")) with false.
  change (str_eqb (py "run") (py "connection_update")) with false.
  change (str_eqb (py "run") (py "run")) with true. cbv iota.
  fold c m k. split; [|split].
  - intros -> -> ->. reflexivity.
  - intros H1 H2. destruct c, m, k; try discriminate; reflexivity.
  - intros -> -> ->. cbn [negb andb].
    match goal with
    | |- context [call_pool ?e ?mm ?d w] =>
        pose proof (call_pool_world e mm d w) as F;
        destruct (call_pool e mm d w) as [r w1]
    end.
    change (str_eqb (py "POST") (py "GET")) with false in F.
    cbv iota in F. cbn [snd] in F. subst w1.
    repeat match goal with
           | |- context [if ?b then _ else _] => destruct b
           end; reflexivity.
Qed.

Lemma list_connections_world (w : world) :
  snd (list_connections w)
  = sent (sent w (Get (py "/connections"))) (Get (py "/metrics")).
Proof.
  unfold list_connections.
  pose proof (call_pool_world (py "/connections") (py "GET") None w) as F1.
  destruct (call_pool (py "/connections") (py "GET") None w) as [r1 w1].
  pose proof (call_pool_world (py "/metrics") (py "GET") None w1) as F2.
  destruct (call_pool (py "/metrics") (py "GET") None w1) as [r2 w2].
  cbn [snd] in *. now subst.
Qed.

(** X8. A [run] call without any of its three parameters sends two
    requests to the pool, for the connections and then for the metrics; one
    with some of them but not all is refused and sends nothing; one with all
    three sends the one request to [/run], which names the connection, the
    module, the command and the caller. No [run] call writes the registry
    file. *)
Theorem run_parameter_check (args : obj) (w : world) :
  let c := truthy_opt (dict_get (strs args) (py "connection")) in
  let m := truthy_opt (dict_get (strs args) (py "module")) in
  let k := truthy_opt (dict_get (strs args) (py "command")) in
  let out := _call_tool_impl json_dumps py_lower (py "run") args w in
  (c = false -> m = false -> k = false ->
   calls (snd out)
   = calls w ++ [Get (py "/connections"); Get (py "/metrics")])
  /\ (c && m && k = false -> c || m || k = true ->
      out = (text_content
               (py "Error: connection, module, and command are all required"),
             w))
  /\ (c = true -> m = true -> k = true ->
      calls (snd out)
      = calls w
        ++ [Post (py "/run")
              (Some [(py "connection", get_or (strs args) (py "connection") []);
                     (py "module", get_or (strs args) (py "module") []);
                     (py "command", get_or (strs args) (py "command") []);
                     (py "caller_id", py "mm-mcp")])])
  /\ file (snd out) = file w /\ writes (snd out) = writes w.
Proof.
  intros c m k out.
  destruct (run_ways args w) as (H0 & H1 & H3). fold c m k out in H0, H1, H3.
  split; [|split; [|split]].
  - intros Hc Hm Hk. rewrite (H0 Hc Hm Hk), list_connections_world.
    cbn [calls sent]. now rewrite <- app_assoc.
  - exact H1.
  - intros Hc Hm Hk. rewrite (H3 Hc Hm Hk). reflexivity.
  - destruct c eqn:Ec, m eqn:Em, k eqn:Ek;
      try (rewrite H1 by reflexivity; split; reflexivity);
      try (rewrite (H3 eq_refl eq_refl eq_refl); split; reflexivity).
    rewrite (H0 eq_refl eq_refl eq_refl), list_connections_world.
    split; reflexivity.
Qed.

(** ** The dispatch on the status *)

(** X9. For a [run] call that the pool answers: with status
    [auth_in_progress] the text asks to retry; with status [error] it is
    "Error: " and the reply's [error], or "Unknown error" when the reply has
    none; and a reply with no status, or with a status that is none of the
    four, is rendered as what [json.dumps] makes of the reply as it was
    received. In each case the result is one item of type "text", the one
    request has been sent, and nothing else has changed. *)
Theorem run_status_table (args : obj) (w : world) (r : response) :
  is_run_call args -> pool w (run_request args) = Replied r ->
  let out := _call_tool_impl json_dumps py_lower (py "run") args w in
  snd out = sent w (run_request args)
  /\ (status_is r (py "auth_in_progress") = true ->
      fst out
      = [{| type := py "text";
            text := py "Auth in progress by another caller. Retry in a few seconds." |}])
  /\ (status_is r (py "error") = true ->
      fst out
      = [{| type := py "text";
            text := py "Error: "
                    ++ get_or (r_strs r) (py "error") (py "Unknown error") |}])
  /\ (status_is r (py "auth_required") = false ->
      status_is r (py "auth_in_progress") = false ->
      status_is r (py "error") = false ->
      status_is r (py "success") = false ->
      fst out = [{| type := py "text"; text := json_dumps (r_received r) |}]).
Proof.
  intros Hcall Hpool out. unfold out.
  split.
  - destruct Hcall as (Hc & Hm & Hk).
    now apply (run_ways args w).
  - destruct Hcall as (Hc & Hm & Hk).
    unfold _call_tool_impl.
    change (str_eqb (py "run") (py "connection_add")) with false.
    change (str_eqb (py "run") (py "connection_remove")) with false.
    change (str_eqb (py "run") (py "connection_update")) with false.
    change (str_eqb (py "run") (py "run")) with true.
    cbv iota. rewrite Hc, Hm, Hk. cbn [negb andb].
    unfold call_pool. change (str_eqb (py "POST") (py "GET")) with false.
    cbv iota.
    match goal with
    | |- context [pool ?w (Post ?e ?b)] =>
        change (pool w (Post e b)) with (pool w (run_request args))
    end.
    rewrite Hpool.
    split; [|split].
    + intros Hs.
      rewrite (status_is_excl r _ (py "auth_required") Hs eq_refl).
      now rewrite Hs.
    + intros Hs.
      rewrite (status_is_excl r _ (py "auth_required") Hs eq_refl).
      rewrite (status_is_excl r _ (py "auth_in_progress") Hs eq_refl).
      now rewrite Hs.
    + intros -> -> -> ->. reflexivity.
Qed.

(** X10. When the request of a [run] call raises an exception, the call
    is answered with "Error: " and the message [call_pool] makes of the
    exception: "Request timed out" for a timeout, the text of the exception
    otherwise. *)
Theorem run_transport_failure (args : obj) (w : world) (e : failure) :
  is_run_call args -> pool w (run_request args) = Raised e ->
  _call_tool_impl json_dumps py_lower (py "run") args w
  = (text_content
       (py "Error: "
        ++ (if httpx_timeout e then py "Request timed out" else message e)),
     sent w (run_request args)).
Proof.
  intros (Hc & Hm & Hk) Hpool.
  unfold _call_tool_impl.
  change (str_eqb (py "run") (py "connection_add")) with false.
  change (str_eqb (py "run") (py "connection_remove")) with false.
  change (str_eqb (py "run") (py "connection_update")) with false.
  change (str_eqb (py "run") (py "run")) with true.
  cbv iota. rewrite Hc, Hm, Hk. cbn [negb andb].
  unfold call_pool. change (str_eqb (py "POST") (py "GET")) with false.
  cbv iota.
  match goal with
  | |- context [pool ?w (Post ?e ?b)] =>
      change (pool w (Post e b)) with (pool w (run_request args))
  end.
  rewrite Hpool. now destruct (httpx_timeout e).
Qed.

(** X11. When the pool cannot be reached, a [run] call without parameters
    is not answered with an error: it shows an empty list of connections and
    the default values of the metrics. *)
Theorem listing_without_pool (args : obj) (w : world) (e1 e2 : failure) :
  truthy_opt (dict_get (strs args) (py "connection")) = false ->
  truthy_opt (dict_get (strs args) (py "module")) = false ->
  truthy_opt (dict_get (strs args) (py "command")) = false ->
  pool w (Get (py "/connections")) = Raised e1 ->
  pool w (Get (py "/metrics")) = Raised e2 ->
  fst (_call_tool_impl json_dumps py_lower (py "run") args w)
  = text_content
      (py "**Available Connections:**" ++ nl
       ++ nl ++ py "**Session Pool Status:**" ++ nl
       ++ py "- Uptime: unknown" ++ nl
       ++ py "- Requests: 0 (0% errors)" ++ nl
       ++ py "- Active sessions: 0" ++ nl
       ++ py "- Avg response: 0ms" ++ nl).
Proof.
  intros Hc Hm Hk H1 H2.
  destruct (run_ways args w) as (H0 & _). rewrite (H0 Hc Hm Hk).
  unfold list_connections, call_pool.
  change (str_eqb (py "GET") (py "GET")) with true. cbv iota.
  rewrite H1.
  destruct (httpx_timeout e1);
    (cbn [sent pool]; rewrite H2; destruct (httpx_timeout e2); reflexivity).
Qed.

(** ** The cleaning of the output *)

(** X12. On an output made of text without ESC and of control sequences
    of the two kinds, in any number and order, the two substitutions leave
    exactly the text, with no ESC in it; and a [run] call answered with
    status [success] and such an output, without an identity
    ([authenticated_as]), renders the text trimmed, or "(no output)" when
    the text shows nothing. *)
Theorem clean_output_of_well_formed (ps : list piece) :
  well_formed ps ->
  strip_ansi (raw_of ps) = text_of ps
  /\ ~ In ESC (strip_ansi (raw_of ps))
  /\ (forall args w r,
        is_run_call args -> pool w (run_request args) = Replied r ->
        status_is r (py "success") = true ->
        dict_get (r_strs r) (py "output") = Some (raw_of ps) ->
        dict_get (r_strs r) (py "authenticated_as") = None ->
        _call_tool_impl json_dumps py_lower (py "run") args w
        = (text_content (if blank (text_of ps) then py "(no output)"
                         else strip (text_of ps)),
           sent w (run_request args))).
Proof.
  intros Hwf.
  assert (strip_ansi (raw_of ps) = text_of ps) as E.
  { unfold strip_ansi.
    destruct (sgr_pass_pieces Hwf) as (mid & -> & Hmid & <-).
    now apply mode_pass_pieces. }
  split; [exact E|]. split; [rewrite E; now apply text_of_plain|].
  intros args w r Hcall Hpool Hs Hout Hid.
  rewrite (@run_success_eq json_dumps py_lower args w r Hcall Hpool Hs).
  unfold on_success, get_or. rewrite Hout, Hid, E. cbn [truthy_opt].
  rewrite truthy_strip. now destruct (blank (text_of ps)).
Qed.

(** ** The effects of a tool call *)

(** [connection_remove] and [connection_update] save under a name that is
    not empty. *)
Lemma remove_effect_named (args : obj) (w : world) :
  snd (_connection_remove json_dumps args w) = w
  \/ (stripped_name args <> []
      /\ snd (_connection_remove json_dumps args w)
         = snd (save_registry
                  (with_connections (load_registry w)
                     (dict_pop (connections_of (load_registry w))
                        (stripped_name args))) w)).
Proof.
  unfold _connection_remove. fold (stripped_name args).
  destruct (truthy (stripped_name args)) eqn:T; [|now left]. cbn [negb].
  destruct (dict_get _ _); [|now left].
  right. split; [now apply truthy_true_iff|].
  destruct (save_registry _ w) as [ok w']. now destruct ok.
Qed.

Lemma update_effect_named (args : obj) (w : world) :
  snd (_connection_update json_dumps args w) = w
  \/ (stripped_name args <> []
      /\ exists conn',
           snd (_connection_update json_dumps args w)
           = snd (save_registry
                    (with_connections (load_registry w)
                       (dict_set (connections_of (load_registry w))
                          (stripped_name args) conn')) w)).
Proof.
  unfold _connection_update. fold (stripped_name args).
  destruct (truthy (stripped_name args)) eqn:T; [|now left]. cbn [negb].
  destruct (dict_get _ _) as [conn|]; [|now left].
  destruct (update_fields _ args conn []) as [bad | [conn1 updated1]];
    [now left|].
  destruct (truthy_opt (mcps args)).
  - destruct (truthy (updated1 ++ [py "mcps"])); [|now left]. cbn [negb].
    right. split; [now apply truthy_true_iff|].
    exists {| strs := strs conn1; mcps := mcps args |}.
    destruct (save_registry _ w) as [ok w']. now destruct ok.
  - destruct (truthy updated1); [|now left]. cbn [negb].
    right. split; [now apply truthy_true_iff|]. exists conn1.
    destruct (save_registry _ w) as [ok w']. now destruct ok.
Qed.

(** What a tool call does to the world: nothing, one write, or the
    requests of a [run]. *)
Lemma tool_call_world (tool : pystr) (args : obj) (w : world) :
  let w' := snd (_call_tool_impl json_dumps py_lower tool args w) in
  w' = w
  \/ (In tool REGISTRY_TOOLS /\ exists d, w' = snd (save_registry d w))
  \/ (tool = py "run"
      /\ (w' = sent w (run_request args)
          \/ w' = sent (sent w (Get (py "/connections")))
                    (Get (py "/metrics")))).
Proof.
  intros w'. unfold w', _call_tool_impl. clear w'.
  destruct (str_eqb tool (py "connection_add")) eqn:T1.
  { apply str_eqb_eq in T1. subst tool.
    destruct (connection_add_effect json_dumps args w)
      as [H | (record & H & _)]; [now left|].
    right. left. split; [now left|]. eexists. exact H. }
  destruct (str_eqb tool (py "connection_remove")) eqn:T2.
  { apply str_eqb_eq in T2. subst tool.
    destruct (remove_effect_named args w) as [H | (_ & H)]; [now left|].
    right. left. split; [right; now left|]. eexists. exact H. }
  destruct (str_eqb tool (py "connection_update")) eqn:T3.
  { apply str_eqb_eq in T3. subst tool.
    destruct (update_effect_named args w) as [H | (_ & conn' & H)];
      [now left|].
    right. left. split; [right; right; now left|]. eexists. exact H. }
  destruct (str_eqb tool (py "run")) eqn:T4; [|now left].
  apply str_eqb_eq in T4. subst tool. cbn [negb].
  destruct (run_ways args w) as (H0 & H1 & H3).
  unfold _call_tool_impl in H0, H1, H3.
  change (str_eqb (py "run") (py "connection_add")) with false in *.
  change (str_eqb (py "run") (py "connection_remove")) with false in *.
  change (str_eqb (py "run") (py "connection_update")) with false in *.
  change (str_eqb (py "run") (py "run")) with true in *.
  cbv iota in H0, H1, H3. cbn [negb] in H0, H1, H3.
  destruct (truthy_opt (dict_get (strs args) (py "connection"))) eqn:Ec,
           (truthy_opt (dict_get (strs args) (py "module"))) eqn:Em,
           (truthy_opt (dict_get (strs args) (py "command"))) eqn:Ek;
    try (left; rewrite H1 by reflexivity; reflexivity).
  - right. right. split; [reflexivity|]. left.
    exact (H3 eq_refl eq_refl eq_refl).
  - right. right. split; [reflexivity|]. right.
    rewrite (H0 eq_refl eq_refl eq_refl). apply list_connections_world.
Qed.

(** X13. Whatever the tool and its arguments, a tool call leaves the pool
    and the way the disk behaves as they are, sends at most two requests,
    and these only for [run], and writes the registry file at most once,
    and this only for the three registry tools; a call of [run] leaves the
    file as it is. *)
Theorem tool_call_effects (tool : pystr) (args : obj) (w : world) :
  let w' := snd (_call_tool_impl json_dumps py_lower tool args w) in
  disk w' = disk w /\ pool w' = pool w
  /\ (exists reqs, calls w' = calls w ++ reqs /\ (length reqs <= 2)%nat
                   /\ (reqs <> [] -> tool = py "run"))
  /\ (exists docs, writes w' = writes w ++ docs /\ (length docs <= 1)%nat
                   /\ (docs <> [] -> In tool REGISTRY_TOOLS))
  /\ (tool = py "run" -> file w' = file w).
Proof.
  intros w'.
  destruct (tool_call_world tool args w)
    as [H | [(Ht & d & H) | (Ht & [H | H])]]; fold w' in H; rewrite H.
  - split; [reflexivity|]. split; [reflexivity|]. split; [|split].
    + exists []. rewrite app_nil_r.
      split; [reflexivity|]. split; [simpl; lia | congruence].
    + exists []. rewrite app_nil_r.
      split; [reflexivity|]. split; [simpl; lia | congruence].
    + reflexivity.
  - destruct (save_registry_frame d w) as (Hd & Hp & Hc & Hw).
    split; [exact Hd|]. split; [exact Hp|]. split; [|split].
    + exists []. rewrite app_nil_r.
      split; [exact Hc|]. split; [simpl; lia | congruence].
    + exists [d]. split; [exact Hw|]. split; [simpl; lia | intros _; exact Ht].
    + intros ->. simpl in Ht.
      repeat (destruct Ht as [Ht|Ht]; [discriminate|]). destruct Ht.
  - split; [reflexivity|]. split; [reflexivity|]. split; [|split].
    + exists [run_request args].
      split; [reflexivity|]. split; [simpl; lia | intros _; exact Ht].
    + exists []. rewrite app_nil_r.
      split; [reflexivity|]. split; [simpl; lia | congruence].
    + reflexivity.
  - split; [reflexivity|]. split; [reflexivity|]. split; [|split].
    + exists [Get (py "/connections"); Get (py "/metrics")].
      cbn [calls sent]. rewrite <- app_assoc.
      split; [reflexivity|]. split; [simpl; lia | intros _; exact Ht].
    + exists []. rewrite app_nil_r.
      split; [reflexivity|]. split; [simpl; lia | congruence].
    + reflexivity.
Qed.

(** X14. A connection stored under the empty name stays: no tool call,
    whatever its arguments, removes it or changes it (unless a write of the
    file fails half-way), since [connection_remove] and [connection_update]
    refuse the empty name and every other write leaves it as it is. *)
Theorem empty_name_connection_stays (tool : pystr) (args : obj) (w : world)
  (c : obj) :
  disk w <> IoWriteFails ->
  dict_get (connections_of (load_registry w)) [] = Some c ->
  dict_get (connections_of
              (load_registry
                 (snd (_call_tool_impl json_dumps py_lower tool args w)))) []
  = Some c.
Proof.
  intros Hd Hc.
  assert (forall conns' : dict obj,
            dict_get conns' [] = Some c ->
            dict_get (connections_of
                        (load_registry
                           (snd (save_registry
                                   (with_connections (load_registry w) conns')
                                   w)))) [] = Some c) as Save.
  { intros conns' H. unfold save_registry.
    destruct (disk w); [exact H | exact Hc | congruence]. }
  unfold _call_tool_impl.
  destruct (str_eqb tool (py "connection_add")) eqn:T1.
  { destruct (connection_add_effect json_dumps args w)
      as [-> | (record & -> & Hnone & _)]; [exact Hc|].
    apply Save. rewrite dict_get_set_other; [exact Hc|].
    intros E. rewrite <- E in Hnone. congruence. }
  destruct (str_eqb tool (py "connection_remove")) eqn:T2.
  { destruct (remove_effect_named args w) as [-> | (Hne & ->)]; [exact Hc|].
    apply Save. rewrite dict_get_pop_other; [exact Hc | congruence]. }
  destruct (str_eqb tool (py "connection_update")) eqn:T3.
  { destruct (update_effect_named args w) as [-> | (Hne & conn' & ->)];
      [exact Hc|].
    apply Save. rewrite dict_get_set_other; [exact Hc | congruence]. }
  destruct (str_eqb tool (py "run")) eqn:T4; [|exact Hc].
  apply str_eqb_eq in T4. subst tool.
  pose proof (run_keeps_file json_dumps py_lower args w) as F.
  unfold _call_tool_impl in F.
  change (str_eqb (py "run") (py "connection_add")) with false in F.
  change (str_eqb (py "run") (py "connection_remove")) with false in F.
  change (str_eqb (py "run") (py "connection_update")) with false in F.
  change (str_eqb (py "run") (py "run")) with true in F.
  cbv iota in F. cbn [negb] in *.
  unfold load_registry. rewrite F. exact Hc.
Qed.

End Runtime.

End RunFacts.

(* ===================================================================== *)
(** * The tools of [pwsh-manager]: the requests they send and the results
      they make of the replies *)
(* ===================================================================== *)

Module PwshToolFacts.
Import PwshManager PyFacts PwshFacts.

(** Settles the comparisons of two names of the source. *)
Ltac decide_names :=
  repeat match goal with
         | |- context [str_eqb (py ?a) (py ?b)] =>
             let v := eval vm_compute in (str_eqb (py a) (py b)) in
             change (str_eqb (py a) (py b)) with v
         end;
  cbv iota.

(** ** [get_sharepoint_tenant] *)

Lemma before_dot_no_dot (s : pystr) : ~ In 46 (before_dot s).
Proof.
  induction s as [|c s IH]; simpl; [tauto|].
  destruct (N.eqb_spec c 46); simpl; [tauto|]. intros [G|G]; congruence.
Qed.

Lemma before_dot_prefix (s : pystr) :
  exists rest, s = before_dot s ++ rest
               /\ (rest = [] \/ exists r, rest = 46 :: r).
Proof.
  induction s as [|c s (rest & E & H)]; simpl.
  - exists []. split; [reflexivity | now left].
  - destruct (N.eqb_spec c 46) as [->|Hc].
    + exists (46 :: s). split; [reflexivity|]. right. now exists s.
    + exists rest. split; [simpl; congruence | exact H].
Qed.

(** X15. The SharePoint prefix of a tenant holds no dot. For a domain
    that is not in the table of exceptions it is the domain up to its first
    dot, and the whole domain when it has none; for a domain of the table it
    is the table's value. *)
Theorem sharepoint_tenant_prefix (tenant_domain : pystr) :
  ~ In 46 (get_sharepoint_tenant tenant_domain)
  /\ (dict_get SHAREPOINT_TENANTS tenant_domain = None ->
      exists rest,
        tenant_domain = get_sharepoint_tenant tenant_domain ++ rest
        /\ (rest = [] \/ exists r, rest = 46 :: r))
  /\ (forall v, dict_get SHAREPOINT_TENANTS tenant_domain = Some v ->
        get_sharepoint_tenant tenant_domain = v).
Proof.
  unfold get_sharepoint_tenant, get_or.
  assert (forall k v, dict_get SHAREPOINT_TENANTS k = Some v -> ~ In 46 v)
    as Table.
  { intros k v H. apply dict_get_In in H.
    assert (Forall (fun e : pystr * pystr => ~ In 46 (snd e))
              SHAREPOINT_TENANTS) as F.
    { repeat constructor. simpl. intuition discriminate. }
    rewrite Forall_forall in F. exact (F _ H). }
  destruct (dict_get SHAREPOINT_TENANTS tenant_domain) as [v|] eqn:E.
  - split; [exact (Table _ _ E)|]. split; [discriminate|].
    now intros v' [= ->].
  - split; [apply before_dot_no_dot|]. split; [|discriminate].
    intros _. apply before_dot_prefix.
Qed.

(** ** [build_request] and [api_call] *)

Lemma build_request_truthy (tenant module : pystr) (extra : dict pystr) :
  truthy_opt (Some (build_request tenant module extra)) = true.
Proof.
  assert (forall (d : dict pystr) k v,
            truthy d = true -> truthy (dict_set d k v) = true) as Set1.
  { intros [|[k0 v0] d] k v H; [discriminate|]. simpl.
    now destruct (str_eqb k k0). }
  assert (forall (e d : dict pystr),
            truthy d = true -> truthy (dict_update d e) = true) as Upd.
  { unfold dict_update. induction e as [|x e IH]; intros d H; [exact H|].
    simpl. apply IH. now apply Set1. }
  unfold build_request. cbn [truthy_opt].
  destruct (str_eqb module (py "pnp")); destruct (truthy extra);
    try apply Upd; try apply Set1; reflexivity.
Qed.

Lemma api_call_post (endpoint : pystr) (tenant module : pystr)
  (extra : dict pystr) (w : world) :
  let req := Post endpoint (Some (build_request tenant module extra)) in
  api_call endpoint (Some (build_request tenant module extra)) w
  = (match pool w req with
     | Replied r => r
     | Raised e =>
         api_error (if requests_connection_error e
                    then py "Cannot connect to pwsh-manager. Is Docker running?"
                    else message e)
     end, sent w req).
Proof.
  intros req. unfold api_call. rewrite build_request_truthy. fold req.
  destruct (pool w req) as [r|e]; [reflexivity|].
  now destruct (requests_connection_error e).
Qed.

Lemma api_call_world (endpoint : pystr) (data : option (dict pystr))
  (w : world) :
  snd (api_call endpoint data w)
  = sent w (if truthy_opt data then Post endpoint data else Get endpoint).
Proof.
  unfold api_call. destruct (pool w _) as [r|e]; [reflexivity|].
  now destruct (requests_connection_error e).
Qed.

Section Adapter.

Variable MCP_NAME : pystr.
Variable json_dumps : json -> pystr.

(** ** The names the adapter may use *)

Lemma allowed_truthy (conn : obj) :
  allowed MCP_NAME conn = true -> obj_truthy conn = true.
Proof.
  unfold allowed, mcps_of, obj_truthy.
  destruct (mcps conn); [intros _; apply orb_true_r | discriminate].
Qed.

Lemma get_connection_Some (n : pystr) (w : world) (conn : obj) :
  get_connection MCP_NAME n w = Some conn
  <-> dict_get (load_connections w) n = Some conn
      /\ allowed MCP_NAME conn = true.
Proof.
  unfold get_connection.
  destruct (dict_get (load_connections w) n) as [c|]; [|split; [|intros [? _]];
                                                         discriminate].
  destruct (allowed MCP_NAME c) eqn:A.
  - rewrite (allowed_truthy _ A). cbn [andb].
    split; [intros [= ->]; now split | now intros [[= ->] _]].
  - rewrite andb_false_r. split; [discriminate|]. intros [[= ->] G].
    congruence.
Qed.

(** X16. In a registry whose names are pairwise different, the names
    [list_available_connections] gives are exactly the names that
    [get_connection] resolves; a connection it resolves is the registry's
    connection of that name, and lists the adapter in its [mcps]. *)
Theorem available_iff_resolves (w : world) (n : pystr) :
  dict_wf (load_connections w) ->
  (In n (list_available_connections MCP_NAME w)
   <-> exists conn, get_connection MCP_NAME n w = Some conn)
  /\ (forall conn, get_connection MCP_NAME n w = Some conn ->
        dict_get (load_connections w) n = Some conn
        /\ In MCP_NAME (mcps_of conn)).
Proof.
  intros Hwf. split.
  - unfold list_available_connections. split.
    + intros H. apply in_map_iff in H as ([k c] & Hk & Hin).
      simpl in Hk. subst k. apply filter_In in Hin as [Hin Ha].
      simpl in Ha. exists c. apply get_connection_Some. split; [|exact Ha].
      destruct (dict_get (load_connections w) n) as [c'|] eqn:E.
      * now rewrite (@dict_get_unique _ _ _ _ _ Hwf E Hin).
      * exfalso. apply dict_get_None in E. apply E.
        now apply (in_map fst) in Hin.
    + intros [conn H]. apply get_connection_Some in H as [Hget Ha].
      apply in_map_iff. exists (n, conn). split; [reflexivity|].
      apply filter_In. split; [now apply dict_get_In | exact Ha].
  - intros conn H. apply get_connection_Some in H as [Hget Ha].
    split; [exact Hget | now apply str_in_In].
Qed.

(** ** The two tools that need no connection *)

(** X17. [pwsh_list_connections] sends nothing and reads no argument. Its
    result is never marked as an error: without a connection for the adapter
    it is the hint, and otherwise it is a list with one entry for each
    available connection, in the order of the registry, holding the name,
    the tenant and the description, the last two empty when the connection
    has none. *)
Theorem list_connections_tool (args : dict pystr) (w : world) :
  let out :=
    _handle_call_tool_impl MCP_NAME json_dumps (py "pwsh_list_connections")
      args w in
  let available :=
    filter (fun e => allowed MCP_NAME (snd e)) (load_connections w) in
  snd out = w /\ isError (fst out) = false
  /\ map fst available = list_available_connections MCP_NAME w
  /\ (available = [] ->
      fst out
      = text_result (json_dumps (JObj
          [(py "error",
            JStr (py "No connections configured for pwsh-manager MCP"));
           (py "hint",
            JStr (py "Add connections to ~/.m365-connections.json with 'pwsh-manager' in mcps array"))])))
  /\ (available <> [] ->
      fst out
      = text_result (json_dumps (JArr (map (fun e =>
          JObj [(py "name", JStr (fst e));
                (py "tenant", JStr (get_or (strs (snd e)) (py "tenant") []));
                (py "description",
                 JStr (get_or (strs (snd e)) (py "description") []))])
          available)))).
Proof.
  intros out available. unfold out, _handle_call_tool_impl. decide_names.
  fold available.
  assert (map fst available = list_available_connections MCP_NAME w) as Hmap
    by reflexivity.
  clearbody available.
  destruct available as [|e rest]; cbn [truthy negb fst snd isError];
    (split; [reflexivity|]); (split; [reflexivity|]); (split; [exact Hmap|]);
    split; intros H; (reflexivity || congruence).
Qed.

(** X18. [pwsh_sessions] sends the one request for the sessions and reads
    no argument. Its result is never marked as an error: when the session
    manager cannot be reached, or lists no session, it is "No active
    sessions"; otherwise it is the heading, a rule of 50 dashes and one line
    for each session, in the order of the reply. *)
Theorem sessions_tool (args : dict pystr) (w : world) :
  let out :=
    _handle_call_tool_impl MCP_NAME json_dumps (py "pwsh_sessions") args w in
  snd out = sent w (Get (py "/sessions"))
  /\ isError (fst out) = false
  /\ (forall e, pool w (Get (py "/sessions")) = Raised e ->
        fst out = text_result (py "No active sessions"))
  /\ (forall r, pool w (Get (py "/sessions")) = Replied r ->
        r_sessions r = [] ->
        fst out = text_result (py "No active sessions"))
  /\ (forall r, pool w (Get (py "/sessions")) = Replied r ->
        r_sessions r <> [] ->
        fst out
        = text_result
            (join nl (py "Sessions:"
                      :: py "--------------------------------------------------"
                      :: map session_line (r_sessions r)))).
Proof.
  intros out. unfold out, _handle_call_tool_impl. decide_names.
  unfold api_call. cbn [truthy_opt].
  destruct (pool w (Get (py "/sessions"))) as [r|e].
  - destruct (r_sessions r) as [|s l] eqn:E; cbn [truthy negb fst snd isError].
    + repeat split; try reflexivity; intros; congruence.
    + repeat split; try reflexivity; try (intros; congruence).
      intros r' [= <-] _. rewrite E. reflexivity.
  - destruct (requests_connection_error e);
      cbn [api_error r_sessions truthy negb fst snd isError];
      repeat split; try reflexivity; intros; congruence.
Qed.

(** ** The tools that need a connection *)

(** How a tool that needs a connection starts: the name is there and
    resolves. *)
Ltac enter_tool Hn Hget :=
  unfold _handle_call_tool_impl; decide_names;
  rewrite Hn; cbn [negb]; rewrite Hget.

(** X19. With a connection that resolves, [pwsh_login], [pwsh_status]
    and [pwsh_run] with a command send one request each, a POST to their
    endpoint. Its body has the connection's tenant (empty when the
    connection has none) and the module (by default [exo]), then for the
    module [pnp], and only for it, the SharePoint prefix of the tenant, and
    last the account of a login (by default "1") or the command of a run. *)
Theorem connection_tools_request (args : dict pystr) (w : world) (conn : obj) :
  get_or args (py "connectionName") [] <> [] ->
  get_connection MCP_NAME (get_or args (py "connectionName") []) w
  = Some conn ->
  let tenant := get_or (strs conn) (py "tenant") [] in
  let module := get_or args (py "module") (py "exo") in
  let base :=
    [(py "tenant", tenant); (py "module", module)]
    ++ (if str_eqb module (py "pnp")
        then [(py "sharepoint_tenant", get_sharepoint_tenant tenant)]
        else []) in
  snd (_handle_call_tool_impl MCP_NAME json_dumps (py "pwsh_login") args w)
  = sent w (Post (py "/login")
              (Some (base ++ [(py "account",
                               get_or args (py "account") (py "1"))])))
  /\ snd (_handle_call_tool_impl MCP_NAME json_dumps (py "pwsh_status") args w)
     = sent w (Post (py "/status") (Some base))
  /\ (get_or args (py "command") [] <> [] ->
      snd (_handle_call_tool_impl MCP_NAME json_dumps (py "pwsh_run") args w)
      = sent w (Post (py "/run")
                  (Some (base ++ [(py "command",
                                   get_or args (py "command") [])])))).
Proof.
  intros Hn Hget tenant module base.
  apply RegistryFacts.truthy_true_iff in Hn.
  assert (forall k v,
            In k [py "account"; py "command"] ->
            build_request tenant module [(k, v)] = base ++ [(k, v)]) as B1.
  { intros k v Hk. unfold build_request, base.
    destruct (str_eqb module (py "pnp"));
      (destruct Hk as [<-|[<-|[]]]; reflexivity). }
  assert (build_request tenant module [] = base) as B0.
  { unfold build_request, base.
    destruct (str_eqb module (py "pnp")); reflexivity. }
  split; [|split].
  - enter_tool Hn Hget. fold tenant module.
    rewrite api_call_post, B1 by (now left). cbn [fst snd].
    repeat match goal with
           | |- context [if ?b then _ else _] => destruct b
           end; reflexivity.
  - enter_tool Hn Hget. fold tenant module.
    rewrite api_call_post, B0. reflexivity.
  - intros Hc. apply RegistryFacts.truthy_true_iff in Hc.
    enter_tool Hn Hget. fold tenant module. rewrite Hc. cbn [negb].
    rewrite api_call_post, B1 by (right; now left). cbn [fst snd].
    now destruct (flag _ _).
Qed.

(** X20. With a connection that resolves, the result of [pwsh_status] is
    never marked as an error. It starts with a mark: the check mark when the
    reply says [connected], else the hourglass when it says [auth_pending],
    else the cross; and when the session manager cannot be reached it is the
    cross with "Not connected", as for a session that is not there. *)
Theorem status_tool (args : dict pystr) (w : world) (conn : obj) :
  get_or args (py "connectionName") [] <> [] ->
  get_connection MCP_NAME (get_or args (py "connectionName") []) w
  = Some conn ->
  let conn_name := get_or args (py "connectionName") [] in
  let tenant := get_or (strs conn) (py "tenant") [] in
  let module := get_or args (py "module") (py "exo") in
  let req := Post (py "/status") (Some (build_request tenant module [])) in
  let label := py " " ++ conn_name ++ py " (" ++ tenant ++ py ") - " ++ module in
  let out :=
    _handle_call_tool_impl MCP_NAME json_dumps (py "pwsh_status") args w in
  isError (fst out) = false
  /\ (forall r, pool w req = Replied r ->
        fst out
        = text_result
            (if flag r (py "connected") then
               [0x2713] ++ label ++ py ": Connected"
             else if flag r (py "auth_pending") then
               [0x23F3] ++ label
               ++ py ": Authentication pending (complete device code flow)"
             else [0x2717] ++ label ++ py ": Not connected"))
  /\ (forall e, pool w req = Raised e ->
        fst out = text_result ([0x2717] ++ label ++ py ": Not connected")).
Proof.
  intros Hn Hget conn_name tenant module req label out.
  apply RegistryFacts.truthy_true_iff in Hn.
  unfold out. enter_tool Hn Hget. fold conn_name tenant module.
  rewrite api_call_post. fold req. cbn [fst snd].
  split; [reflexivity|]. split.
  - intros r ->. reflexivity.
  - intros e ->. now destruct (requests_connection_error e).
Qed.

(** X21. With a connection that resolves, [pwsh_run] without a command,
    or with an empty one, is refused and sends nothing. With a command, a
    reply that says [success] gives the reply's [result], or "OK" when it
    has none, and any other reply gives an error with the reply's [error],
    or else its [result], or else "Command failed"; and when the request
    raises an exception the error has the message [api_call] makes of it. *)
Theorem run_tool (args : dict pystr) (w : world) (conn : obj) :
  get_or args (py "connectionName") [] <> [] ->
  get_connection MCP_NAME (get_or args (py "connectionName") []) w
  = Some conn ->
  let tenant := get_or (strs conn) (py "tenant") [] in
  let module := get_or args (py "module") (py "exo") in
  let command := get_or args (py "command") [] in
  let req :=
    Post (py "/run")
      (Some (build_request tenant module [(py "command", command)])) in
  let out :=
    _handle_call_tool_impl MCP_NAME json_dumps (py "pwsh_run") args w in
  (command = [] -> out = (error_result (py "Error: command is required"), w))
  /\ (command <> [] ->
      (forall r, pool w req = Replied r -> flag r (py "success") = true ->
         fst out = text_result (get_or (r_strs r) (py "result") (py "OK")))
      /\ (forall r, pool w req = Replied r -> flag r (py "success") = false ->
            fst out
            = error_result
                (py "Error: "
                 ++ get_or (r_strs r) (py "error")
                      (get_or (r_strs r) (py "result") (py "Command failed"))))
      /\ (forall e, pool w req = Raised e ->
            fst out
            = error_result
                (py "Error: "
                 ++ (if requests_connection_error e
                     then py "Cannot connect to pwsh-manager. Is Docker running?"
                     else message e)))).
Proof.
  intros Hn Hget tenant module command req out.
  apply RegistryFacts.truthy_true_iff in Hn.
  unfold out. enter_tool Hn Hget. fold tenant module command.
  split.
  - intros ->. reflexivity.
  - intros Hc. apply RegistryFacts.truthy_true_iff in Hc. rewrite Hc. cbn [negb].
    rewrite api_call_post. fold req. cbn [fst snd].
    split; [|split].
    + intros r -> ->. reflexivity.
    + intros r -> ->. reflexivity.
    + intros e ->. now destruct (requests_connection_error e).
Qed.

(** X22. With a connection that resolves, [pwsh_login] shows the device
    code whenever the reply has one, whether or not the reply says
    [success], and is then not marked as an error; without a device code a
    reply that says [success] gives "Connected to ...", and any other reply
    gives the error "Login failed: " with the reply's [error], or else its
    [result], or else "Unknown error"; and when the request raises an
    exception the error has the message [api_call] makes of it. *)
Theorem login_tool (args : dict pystr) (w : world) (conn : obj) :
  get_or args (py "connectionName") [] <> [] ->
  get_connection MCP_NAME (get_or args (py "connectionName") []) w
  = Some conn ->
  let conn_name := get_or args (py "connectionName") [] in
  let tenant := get_or (strs conn) (py "tenant") [] in
  let module := get_or args (py "module") (py "exo") in
  let req :=
    Post (py "/login")
      (Some (build_request tenant module
               [(py "account", get_or args (py "account") (py "1"))])) in
  let out :=
    _handle_call_tool_impl MCP_NAME json_dumps (py "pwsh_login") args w in
  (forall r code, pool w req = Replied r ->
     dict_get (r_strs r) (py "device_code") = Some code -> code <> [] ->
     fst out
     = text_result
         (py "**DEVICE CODE: " ++ code ++ py "**" ++ nl
          ++ py "Go to: "
          ++ get_or (r_strs r) (py "auth_url")
               (py "https://microsoft.com/devicelogin") ++ nl ++ nl
          ++ py "Connection: " ++ conn_name ++ nl
          ++ py "Tenant: " ++ tenant ++ nl
          ++ py "Module: " ++ module ++ nl ++ nl
          ++ (if flag r (py "auth_pending")
              then py "Authentication pending. Complete device code flow, then check status."
              else py "Connected")))
  /\ (forall r, pool w req = Replied r ->
        truthy_opt (dict_get (r_strs r) (py "device_code")) = false ->
        fst out
        = (if flag r (py "success")
           then text_result
                  (py "Connected to " ++ conn_name ++ py " (" ++ tenant
                   ++ py ") - " ++ module)
           else error_result
                  (py "Login failed: "
                   ++ get_or (r_strs r) (py "error")
                        (get_or (r_strs r) (py "result")
                           (py "Unknown error")))))
  /\ (forall e, pool w req = Raised e ->
        fst out
        = error_result
            (py "Login failed: "
             ++ (if requests_connection_error e
                 then py "Cannot connect to pwsh-manager. Is Docker running?"
                 else message e))).
Proof.
  intros Hn Hget conn_name tenant module req out.
  apply RegistryFacts.truthy_true_iff in Hn.
  unfold out. enter_tool Hn Hget. fold conn_name tenant module.
  rewrite api_call_post. fold req. cbn [fst snd].
  split; [|split].
  - intros r code -> Hcode Hne. unfold get_or at 1. rewrite Hcode.
    apply RegistryFacts.truthy_true_iff in Hne. cbn [truthy_opt]. rewrite Hne.
    now destruct (flag r (py "auth_pending")).
  - intros r -> ->. now destruct (flag r (py "success")).
  - intros e ->. now destruct (requests_connection_error e).
Qed.

(** ** The effects of a tool call *)

(** A tool call sends nothing or one request. *)
Lemma handle_world (tool : pystr) (args : dict pystr) (w : world) :
  snd (_handle_call_tool_impl MCP_NAME json_dumps tool args w) = w
  \/ exists req,
       snd (_handle_call_tool_impl MCP_NAME json_dumps tool args w)
       = sent w req.
Proof.
  unfold _handle_call_tool_impl.
  repeat (cbv beta iota; cbn [fst snd];
          match goal with
          | |- context [api_call ?e ?d w] =>
              pose proof (api_call_world e d w);
              destruct (api_call e d w) as [? ?]
          | |- context [if ?b then _ else _] => destruct b
          | |- context [match ?x with Some _ => _ | None => _ end] =>
              destruct x
          end);
    cbn [snd] in *; subst; (now left) || (right; eexists; reflexivity).
Qed.

(** X23. Whatever the tool and its arguments, a tool call leaves the
    registry file and the session manager as they are and sends at most one
    request; [pwsh_list_connections] sends none, and so does every call of
    a tool other than [pwsh_sessions] without a connection name or with one
    that does not resolve. *)
Theorem tool_sends_at_most_one (tool : pystr) (args : dict pystr) (w : world) :
  let w' := snd (_handle_call_tool_impl MCP_NAME json_dumps tool args w) in
  file w' = file w /\ pool w' = pool w
  /\ (w' = w \/ exists req, w' = sent w req)
  /\ (tool = py "pwsh_list_connections" -> w' = w)
  /\ (tool <> py "pwsh_list_connections" -> tool <> py "pwsh_sessions" ->
      get_or args (py "connectionName") [] = []
      \/ get_connection MCP_NAME (get_or args (py "connectionName") []) w
         = None ->
      w' = w).
Proof.
  intros w'.
  pose proof (handle_world tool args w) as H. fold w' in H.
  split; [destruct H as [-> | [req ->]]; reflexivity|].
  split; [destruct H as [-> | [req ->]]; reflexivity|].
  split; [exact H|]. split.
  - intros ->. unfold w', _handle_call_tool_impl. decide_names.
    now destruct (negb _).
  - intros T1 T2 Hnone. unfold w', _handle_call_tool_impl.
    apply str_eqb_neq in T1, T2. rewrite T1, T2.
    destruct Hnone as [-> | ->]; [reflexivity|].
    now destruct (negb _).
Qed.

End Adapter.

End PwshToolFacts.

(* ===================================================================== *)
(** * The entry points: what the tool lists declare, what the wrappers log,
      what the loop of [pwsh-manager] answers *)
(* ===================================================================== *)

Module EntryFacts.
Import PyFacts MMFacts RegistryFacts.

Section MM.

Import MM MMServer.

Variable json_dumps : json -> pystr.
Variable py_lower : pystr -> pystr.

(** Every tool of [mm] returns one item of text. *)
Lemma impl_one_text (name : pystr) (args : obj) (w : world) :
  exists t,
    fst (_call_tool_impl json_dumps py_lower name args w) = text_content t.
Proof.
  unfold _call_tool_impl, _connection_add, _connection_remove,
    _connection_update, list_connections.
  repeat (cbv beta iota zeta; cbn [fst snd];
          match goal with
          | |- context [save_registry ?d ?x] =>
              destruct (save_registry d x) as [? ?]
          | |- context [call_pool ?e ?m ?d ?x] =>
              destruct (call_pool e m d x) as [? ?]
          | |- context [if ?b then _ else _] => destruct b
          | |- context [match ?x with Some _ => _ | None => _ end] =>
              destruct x
          | |- context [match ?x with inl _ => _ | inr _ => _ end] =>
              destruct x as [?|[? ?]]
          end);
    eexists; reflexivity.
Qed.

(** X24. [call_tool] returns what the tool returns, with the tool's
    effects and no other, and hands one record to the logger. The record
    has the first 100 characters of the text: as the error, and with no
    result, when their lower-case form holds "error"; as the result, and
    with no error, otherwise. It names the tool, the arguments, and as the
    connection the [connection] argument, or the [name] argument when there
    is no [connection] that is not empty. *)
Theorem call_tool_logs (duration : Z) (name : pystr) (args : obj) (w : world) :
  let out := call_tool json_dumps py_lower duration name args w in
  let entry := snd out in
  fst out = _call_tool_impl json_dumps py_lower name args w
  /\ (exists t,
        fst (fst out) = text_content t
        /\ (str_contains (py "error") (py_lower (firstn 100 t)) = true ->
            error entry = Some (firstn 100 t) /\ result entry = None)
        /\ (str_contains (py "error") (py_lower (firstn 100 t)) = false ->
            error entry = None /\ result entry = Some (firstn 100 t)))
  /\ mcp_name entry = py "mm" /\ tool_name entry = name
  /\ arguments entry = args /\ duration_ms entry = duration
  /\ (forall c, dict_get (strs args) (py "connection") = Some c -> c <> [] ->
        connection_name entry = Some c)
  /\ (truthy_opt (dict_get (strs args) (py "connection")) = false ->
      connection_name entry = dict_get (strs args) (py "name")).
Proof.
  intros out entry. unfold entry, out, call_tool. clear entry out.
  destruct (impl_one_text name args w) as [t Ht].
  destruct (_call_tool_impl json_dumps py_lower name args w) as [res w1].
  cbn [fst] in Ht. subst res. unfold text_content. cbn [text].
  destruct (str_contains (py "error") (py_lower (firstn 100 t))) eqn:E;
    cbn [fst snd mcp_name tool_name arguments connection_name result error
         duration_ms].
  - split; [reflexivity|]. split.
    + exists t. split; [reflexivity|]. rewrite E.
      split; [now split | discriminate].
    + repeat split.
      * intros c Hc Hne. rewrite Hc. cbn [truthy_opt].
        apply truthy_true_iff in Hne. now rewrite Hne.
      * now intros ->.
  - split; [reflexivity|]. split.
    + exists t. split; [reflexivity|]. rewrite E.
      split; [discriminate | now split].
    + repeat split.
      * intros c Hc Hne. rewrite Hc. cbn [truthy_opt].
        apply truthy_true_iff in Hne. now rewrite Hne.
      * now intros ->.
Qed.

(** X25. What [list_tools] declares is what the tools enforce: for every
    tool of the list and every field its input schema marks as required, a
    call that lacks the field, or gives it empty, is answered with an error
    document and leaves the world as it is: nothing is written and nothing
    is sent. A name outside the list is answered "Unknown tool", and the
    world is left as it is. *)
Theorem declared_fields_enforced :
  (forall t f args w,
     In t list_tools -> In f (required_of (inputSchema t)) ->
     arg_truthy args f = false ->
     exists msg,
       _call_tool_impl json_dumps py_lower (t_name t) args w
       = (text_content (json_dumps (error_doc msg)), w))
  /\ (forall name args w,
        ~ In name (map t_name list_tools) ->
        _call_tool_impl json_dumps py_lower name args w
        = (text_content (py "Unknown tool: " ++ name), w)).
Proof.
  split.
  - intros t f args w Ht Hf Hmiss. unfold list_tools in Ht.
    destruct Ht as [<-|[<-|[<-|[<-|[]]]]]; cbn [t_name inputSchema] in *.
    + (* run declares no required field *)
      destruct Hf.
    + (* connection_add *)
      assert (In f REQUIRED) as Hreq by exact Hf.
      assert (In f (missing_fields args)) as Hin
        by (apply missing_fields_In; now split).
      unfold _call_tool_impl.
      change (str_eqb (py "connection_add") (py "connection_add")) with true.
      cbv iota. unfold _connection_add.
      destruct (missing_fields args) as [|m ms]; [destruct Hin|].
      cbn [truthy]. eexists. reflexivity.
    + (* connection_remove *)
      assert (f = py "name") as -> by (destruct Hf as [<-|[]]; reflexivity).
      unfold _call_tool_impl.
      change (str_eqb (py "connection_remove") (py "connection_add"))
        with false.
      change (str_eqb (py "connection_remove") (py "connection_remove"))
        with true.
      cbv iota. unfold _connection_remove, get_or.
      unfold arg_truthy in Hmiss.
      change (str_eqb (py "name") (py "mcps")) with false in Hmiss.
      cbv iota in Hmiss.
      destruct (dict_get (strs args) (py "name")) as [[|c v]|];
        try discriminate; eexists; reflexivity.
    + (* connection_update *)
      assert (f = py "name") as -> by (destruct Hf as [<-|[]]; reflexivity).
      unfold _call_tool_impl.
      change (str_eqb (py "connection_update") (py "connection_add"))
        with false.
      change (str_eqb (py "connection_update") (py "connection_remove"))
        with false.
      change (str_eqb (py "connection_update") (py "connection_update"))
        with true.
      cbv iota. unfold _connection_update, get_or.
      unfold arg_truthy in Hmiss.
      change (str_eqb (py "name") (py "mcps")) with false in Hmiss.
      cbv iota in Hmiss.
      destruct (dict_get (strs args) (py "name")) as [[|c v]|];
        try discriminate; eexists; reflexivity.
  - intros name args w Hout. unfold _call_tool_impl.
    assert (forall n, In n (map t_name list_tools) -> str_eqb name n = false)
      as Hne.
    { intros n Hn. apply str_eqb_neq. intros ->. contradiction. }
    rewrite (Hne (py "connection_add")) by (right; now left).
    rewrite (Hne (py "connection_remove")) by (right; right; now left).
    rewrite (Hne (py "connection_update")) by (right; right; right; now left).
    rewrite (Hne (py "run")) by now left.
    reflexivity.
Qed.

End MM.

Section Pwsh.

Import PwshManager PwshServer PwshToolFacts.

Variable MCP_NAME : pystr.
Variable json_dumps : json -> pystr.

(** Every tool of [pwsh-manager] returns one item of text. *)
Lemma handle_one_text (name : pystr) (args : dict pystr) (w : world) :
  exists t,
    content (fst (_handle_call_tool_impl MCP_NAME json_dumps name args w))
    = [{| type := py "text"; text := t |}].
Proof.
  unfold _handle_call_tool_impl.
  repeat (cbv beta iota zeta; cbn [fst snd];
          match goal with
          | |- context [api_call ?e ?d ?x] =>
              destruct (api_call e d x) as [? ?]
          | |- context [if ?b then _ else _] => destruct b
          | |- context [match ?x with Some _ => _ | None => _ end] =>
              destruct x
          end);
    eexists; reflexivity.
Qed.

(** X26. [handle_call_tool] returns what the tool returns, with the
    tool's effects and no other, and hands one record to the logger. The
    record has the first 100 characters of the text: as the error, and with
    no result, when the result is marked as an error; as the result, and
    with no error, otherwise. It names the tool, the arguments, and the
    connection, or no connection when the name is missing or empty. *)
Theorem handle_call_tool_logs (duration : Z) (name : pystr)
  (args : dict pystr) (w : world) :
  let out := handle_call_tool MCP_NAME json_dumps duration name args w in
  let entry := snd out in
  fst out = _handle_call_tool_impl MCP_NAME json_dumps name args w
  /\ (exists t,
        content (fst (fst out)) = [{| type := py "text"; text := t |}]
        /\ (isError (fst (fst out)) = true ->
            error entry = Some (firstn 100 t) /\ result entry = None)
        /\ (isError (fst (fst out)) = false ->
            error entry = None /\ result entry = Some (firstn 100 t)))
  /\ mcp_name entry = py "pwsh-manager" /\ tool_name entry = name
  /\ arguments entry = args /\ duration_ms entry = duration
  /\ (get_or args (py "connectionName") [] = [] ->
      connection_name entry = None)
  /\ (get_or args (py "connectionName") [] <> [] ->
      connection_name entry = Some (get_or args (py "connectionName") [])).
Proof.
  intros out entry. unfold entry, out, handle_call_tool. clear entry out.
  destruct (handle_one_text name args w) as [t Ht].
  destruct (_handle_call_tool_impl MCP_NAME json_dumps name args w)
    as [res w1].
  cbn [fst] in Ht. rewrite Ht. cbn [text].
  destruct (isError res) eqn:E;
    cbn [fst snd mcp_name tool_name arguments connection_name result error
         duration_ms].
  - split; [reflexivity|]. split.
    + exists t. split; [exact Ht|]. rewrite E.
      split; [now split | discriminate].
    + repeat split.
      * now intros ->.
      * intros Hne. apply truthy_true_iff in Hne. now rewrite Hne.
  - split; [reflexivity|]. split.
    + exists t. split; [exact Ht|]. rewrite E.
      split; [discriminate | now split].
    + repeat split.
      * now intros ->.
      * intros Hne. apply truthy_true_iff in Hne. now rewrite Hne.
Qed.

(** The names [handle_list_tools] declares, with their required fields. *)
Lemma declared_tools :
  declared handle_list_tools
  = [(py "pwsh_login", [py "connectionName"]);
     (py "pwsh_status", [py "connectionName"]);
     (py "pwsh_run", [py "connectionName"; py "command"]);
     (py "pwsh_sessions", []);
     (py "pwsh_list_connections", []);
     (py "pwsh_disconnect", [py "connectionName"; py "confirmation"])].
Proof. reflexivity. Qed.

(** A call without a connection name, or with one that does not resolve,
    of a tool that needs one. *)
Lemma unresolved_is_error (tool : pystr) (args : dict pystr) (w : world) :
  str_eqb tool (py "pwsh_list_connections") = false ->
  str_eqb tool (py "pwsh_sessions") = false ->
  get_or args (py "connectionName") [] = []
  \/ get_connection MCP_NAME (get_or args (py "connectionName") []) w = None ->
  isError (fst (_handle_call_tool_impl MCP_NAME json_dumps tool args w)) = true
  /\ snd (_handle_call_tool_impl MCP_NAME json_dumps tool args w) = w.
Proof.
  intros T1 T2 H. unfold _handle_call_tool_impl. rewrite T1, T2.
  destruct H as [-> | H].
  - cbn [truthy negb]. now split.
  - rewrite H. destruct (negb _); now split.
Qed.

(** X27. What [handle_list_tools] declares is what the tools enforce:
    for every tool of the list and every field its input schema marks as
    required, a call that lacks the field, or gives it empty, is answered
    with a result marked as an error, and sends nothing to the session
    manager. So is a call of a tool that the list does not declare. *)
Theorem declared_fields_enforced_by_handler :
  (forall (tool : pystr) (required : list pystr) (f : pystr)
          (args : dict pystr) (w : world),
     In (tool, required) (declared handle_list_tools) -> In f required ->
     get_or args f [] = [] ->
     isError (fst (_handle_call_tool_impl MCP_NAME json_dumps tool args w))
     = true
     /\ snd (_handle_call_tool_impl MCP_NAME json_dumps tool args w) = w)
  /\ (forall (tool : pystr) (args : dict pystr) (w : world),
        ~ In tool (map fst (declared handle_list_tools)) ->
        isError (fst (_handle_call_tool_impl MCP_NAME json_dumps tool args w))
        = true
        /\ snd (_handle_call_tool_impl MCP_NAME json_dumps tool args w) = w).
Proof.
  rewrite declared_tools. split.
  - intros tool required f args w Ht Hf Hmiss.
    assert (f = py "connectionName" ->
            isError (fst (_handle_call_tool_impl MCP_NAME json_dumps tool
                            args w)) = true
            /\ snd (_handle_call_tool_impl MCP_NAME json_dumps tool args w)
               = w) as Hname.
    { intros ->.
      simpl in Ht.
      destruct Ht as [E|[E|[E|[E|[E|[E|[]]]]]]]; injection E as <- <-;
        try (destruct Hf);
        (apply unresolved_is_error; [reflexivity | reflexivity | now left]). }
    simpl in Ht.
    destruct Ht as [E|[E|[E|[E|[E|[E|[]]]]]]]; injection E as <- <-;
      simpl in Hf.
    + destruct Hf as [<-|[]]. now apply Hname.
    + destruct Hf as [<-|[]]. now apply Hname.
    + destruct Hf as [<-|[<-|[]]]; [now apply Hname|].
      change (get_or args (py "command") [] = []) in Hmiss.
      unfold _handle_call_tool_impl. decide_names. rewrite Hmiss.
      destruct (negb _); [now split|].
      destruct (get_connection _ _ _); now split.
    + destruct Hf.
    + destruct Hf.
    + destruct Hf as [<-|[<-|[]]]; [now apply Hname|].
      change (get_or args (py "confirmation") [] = []) in Hmiss.
      unfold _handle_call_tool_impl. decide_names. rewrite Hmiss.
      change (str_eqb [] (py "DISCONNECT")) with false. cbn [negb].
      destruct (negb _); [now split|].
      destruct (get_connection _ _ _); now split.
  - intros tool args w Hout. cbn [map fst] in Hout.
    assert (forall n,
              In n [py "pwsh_login"; py "pwsh_status"; py "pwsh_run";
                    py "pwsh_sessions"; py "pwsh_list_connections";
                    py "pwsh_disconnect"] -> str_eqb tool n = false) as Hne.
    { intros n Hn. apply str_eqb_neq. intros ->. contradiction. }
    unfold _handle_call_tool_impl.
    rewrite (Hne (py "pwsh_list_connections")) by (simpl; tauto).
    rewrite (Hne (py "pwsh_sessions")) by (simpl; tauto).
    rewrite (Hne (py "pwsh_login")) by (simpl; tauto).
    rewrite (Hne (py "pwsh_status")) by (simpl; tauto).
    rewrite (Hne (py "pwsh_run")) by (simpl; tauto).
    rewrite (Hne (py "pwsh_disconnect")) by (simpl; tauto).
    destruct (negb _); [now split|].
    destruct (get_connection _ _ _); now split.
Qed.

(** ** The loop of [main] *)

Variable elapsed : nat -> Z.
Variable py_str : json -> pystr.

Lemma no_get_fails (v : json) (message : pystr) :
  get_fails v = Some message -> no_get v = message.
Proof. destruct v; simpl; intros H; now inversion H. Qed.

Lemma is_str_excl (v : json) (a b : pystr) :
  is_str v a = true -> a <> b -> is_str v b = false.
Proof.
  destruct v; simpl; try discriminate.
  intros H Hne. apply str_eqb_eq in H. subst. now apply str_eqb_neq.
Qed.

Lemma respond_frame (result : json) (p : process) :
  env (respond result p) = env p
  /\ logged (respond result p) = logged p
  /\ request_id (respond result p) = request_id p
  /\ stdout (respond result p)
     = stdout p
       ++ match request_id p with
          | Some JNull => []
          | Some i => [JObj [(py "jsonrpc", JStr (py "2.0")); (py "id", i);
                             (py "result", result)]]
          | None => []
          end.
Proof.
  unfold respond.
  destruct (request_id p) as [[]|] eqn:E;
    cbn [env logged stdout request_id write];
    rewrite ?app_nil_r; repeat split; exact E.
Qed.

(** A response, when there is one, answers the [id] in force. *)
Lemma respond_answers (result : json) (p : process) (i : json) :
  request_id p = Some i ->
  exists docs,
    stdout (respond result p) = stdout p ++ docs
    /\ Forall2 response_to (match i with JNull => [] | _ => [i] end) docs.
Proof.
  intros Hi. destruct (respond_frame result p) as (_ & _ & _ & ->).
  rewrite Hi. eexists. split; [reflexivity|].
  destruct i; repeat constructor; now exists result.
Qed.

(** What the handler of exceptions leaves. *)
Lemma on_exception_cases (message : pystr) (p : process) :
  (request_id p = None -> on_exception message p = Dead p)
  /\ (request_id p = Some JNull -> on_exception message p = Alive p)
  /\ (forall i, request_id p = Some i -> i <> JNull ->
        on_exception message p = Alive (write (internal_error i message) p)).
Proof.
  unfold on_exception. split; [|split].
  - now intros ->.
  - now intros ->.
  - intros i -> Hi. destruct i; congruence || reflexivity.
Qed.

(** After a line that holds a request, [request_id] is the [id] of that
    request; after any other line it is what it was. *)
Lemma serve_request_id (l : line) (p p' : process) :
  serve MCP_NAME json_dumps elapsed py_str l p = Alive p' ->
  request_id p'
  = match request_of l with
    | Some request => Some (id_of request)
    | None => request_id p
    end.
Proof.
  assert (forall message q,
            on_exception message q = Alive p' -> request_id p' = request_id q)
    as Hexc.
  { intros message q. unfold on_exception.
    destruct (request_id q) as [[]|] eqn:E; intros H; inversion H; subst;
      cbn [request_id write]; congruence. }
  assert (forall result q, Alive (respond result q) = Alive p' ->
                           request_id p' = request_id q) as Hres.
  { intros result q H. inversion H.
    now destruct (respond_frame result q) as (_ & _ & -> & _). }
  destruct l as [|message|document]; cbn [serve request_of].
  - intros H. now inversion H.
  - apply Hexc.
  - destruct document; try apply Hexc.
    unfold id_of.
    set (q := assign (get_or members (py "id") JNull) p).
    change (Some (get_or members (py "id") JNull)) with (request_id q).
    repeat match goal with
           | |- context [if ?b then _ else _] => destruct b
           end;
      try (now apply Hres); try (intros H; now inversion H).
    destruct (get_or members (py "params") (JObj [])) as [| | | | | |params];
      try apply Hexc.
    destruct (get_or params (py "arguments") (JObj [])) as [| | | | | |a];
      try apply Hexc.
    destruct (get_or params (py "name") (JStr [])); try discriminate.
    destruct (typed a); [|discriminate].
    destruct (handle_call_tool _ _ _ _ _ _) as [[result w1] entry].
    intros H. apply Hres in H. exact H.
Qed.

(** One line in order: what is written is the response to the line's
    request, if the line is answered. *)
Lemma serve_orderly (l : line) (p : process) :
  orderly l = true ->
  exists p' docs,
    serve MCP_NAME json_dumps elapsed py_str l p = Alive p'
    /\ stdout p' = stdout p ++ docs
    /\ Forall2 response_to
         (match answered l with Some i => [i] | None => [] end) docs.
Proof.
  destruct l as [|message|document]; cbn [orderly]; try discriminate.
  { intros _. exists p, []. rewrite app_nil_r.
    split; [reflexivity|]. split; [reflexivity | constructor]. }
  destruct document as [| | | | | |request]; try discriminate.
  unfold on_schema, answered, method_of, id_of, params_of.
  cbn [request_of serve].
  set (method := get_or request (py "method") (JStr [])).
  set (i := get_or request (py "id") JNull).
  set (q := assign i p).
  assert (forall result q',
            request_id q' = Some i -> stdout q' = stdout p ->
            exists p' docs,
              Alive (respond result q') = Alive p'
              /\ stdout p' = stdout p ++ docs
              /\ Forall2 response_to
                   match match i with JNull => None | _ => Some i end with
                   | Some i => [i]
                   | None => []
                   end docs) as R.
  { intros result q' Hi Hs.
    destruct (respond_answers result q' Hi) as (docs & E & F).
    exists (respond result q'), docs. rewrite E, Hs.
    split; [reflexivity|]. split; [reflexivity|]. now destruct i. }
  intros Hord.
  destruct (is_str method (py "initialize")) eqn:M1.
  { rewrite (@is_str_excl method (py "initialize")
               (py "notifications/initialized") M1) by discriminate.
    now apply R. }
  destruct (is_str method (py "notifications/initialized")) eqn:M2.
  { exists q, []. rewrite app_nil_r.
    split; [reflexivity|]. split; [reflexivity | constructor]. }
  destruct (is_str method (py "tools/list")); [now apply R|].
  destruct (is_str method (py "tools/call")); [|now apply R].
  cbn [negb orb] in Hord.
  destruct (get_or request (py "params") (JObj [])) as [| | | | | |params];
    try discriminate.
  destruct (get_or params (py "name") (JStr [])); try discriminate.
  destruct (get_or params (py "arguments") (JObj [])) as [| | | | | |a];
    try discriminate.
  destruct (typed a); [|discriminate].
  destruct (handle_call_tool _ _ _ _ _ _) as [[result w1] entry].
  now apply R.
Qed.

(** One line on which the body of the loop raises an exception: the
    handler is entered, with the [id] of the line's request when the line
    holds a request, and else with the [id] left by the lines before. *)
Lemma serve_raises (l : line) (p : process) (message : pystr) :
  raises l = Some message ->
  serve MCP_NAME json_dumps elapsed py_str l p
  = on_exception message
      match request_of l with
      | Some request => assign (id_of request) p
      | None => p
      end.
Proof.
  destruct l as [|m|document]; cbn [raises request_of serve].
  - discriminate.
  - intros H. now inversion H.
  - destruct document as [| | | | | |request];
      try (intros H; now rewrite (no_get_fails _ H)).
    unfold method_of, params_of, id_of.
    destruct (is_str (get_or request (py "method") (JStr [])) (py "tools/call"))
      eqn:M; [|discriminate].
    rewrite (@is_str_excl _ (py "tools/call") (py "initialize") M)
      by discriminate.
    rewrite (@is_str_excl _ (py "tools/call") (py "notifications/initialized")
               M) by discriminate.
    rewrite (@is_str_excl _ (py "tools/call") (py "tools/list") M)
      by discriminate.
    destruct (get_or request (py "params") (JObj [])) as [| | | | | |params];
      try (intros H; now rewrite (no_get_fails _ H)).
    destruct (get_or params (py "arguments") (JObj [])) as [| | | | | |a];
      try (intros H; now rewrite (no_get_fails _ H)).
    discriminate.
Qed.

(** X28. On lines in order [main] goes to the end of its input, and
    answers a request exactly when the request has an [id] that is not
    [null] and is not the notification of the end of the initialization:
    what it writes, beyond what was written before, is one response for each
    such request, in the order of the requests, each with the [id] of its
    request and the version "2.0". On a line that makes the body of the loop
    raise an exception (a document that is no object, [params] or
    [arguments] of a tool call that are no object) [main] runs no tool and
    logs nothing, and answers with the error -32603 and the message of the
    exception under the [id] in force, if that is not [null]: the [id] of
    the line's own request when the line holds one, and else the [id] of the
    latest request read before, which has been answered already. When there
    is no such request, the program ends on that line, and reads no
    other. *)
Theorem main_answers_requests :
  (forall (stdin : list line) (p : process),
     Forall (fun l => orderly l = true) stdin ->
     exists p' docs,
       main MCP_NAME json_dumps elapsed py_str stdin p = Alive p'
       /\ stdout p' = stdout p ++ docs
       /\ Forall2 response_to (answered_ids stdin) docs)
  /\ (forall (l : line) (p : process) (message : pystr),
        raises l = Some message ->
        let in_force :=
          match request_of l with
          | Some request => Some (id_of request)
          | None => request_id p
          end in
        (in_force = None ->
         forall rest,
           main MCP_NAME json_dumps elapsed py_str (l :: rest) p = Dead p)
        /\ (in_force = Some JNull ->
            exists p',
              serve MCP_NAME json_dumps elapsed py_str l p = Alive p'
              /\ env p' = env p /\ logged p' = logged p
              /\ stdout p' = stdout p)
        /\ (forall i, in_force = Some i -> i <> JNull ->
            exists p',
              serve MCP_NAME json_dumps elapsed py_str l p = Alive p'
              /\ env p' = env p /\ logged p' = logged p
              /\ stdout p' = stdout p ++ [internal_error i message]))
  /\ (forall (l : line) (p p' : process),
        serve MCP_NAME json_dumps elapsed py_str l p = Alive p' ->
        request_id p'
        = match request_of l with
          | Some request => Some (id_of request)
          | None => request_id p
          end).
Proof.
  split; [|split].
  - intros stdin. induction stdin as [|l rest IH]; intros p Hall.
    + exists p, []. rewrite app_nil_r.
      split; [reflexivity|]. split; [reflexivity | constructor].
    + inversion Hall as [|? ? Hl Hrest]; subst.
      destruct (serve_orderly l p Hl) as (p1 & d1 & E1 & S1 & F1).
      destruct (IH p1 Hrest) as (p2 & d2 & E2 & S2 & F2).
      exists p2, (d1 ++ d2). cbn [main]. rewrite E1.
      split; [exact E2|]. split.
      * now rewrite S2, S1, app_assoc.
      * unfold answered_ids. cbn [flat_map]. now apply Forall2_app.
  - intros l p message Hr in_force.
    pose proof (serve_raises l p Hr) as E.
    set (q := match request_of l with
              | Some request => assign (id_of request) p
              | None => p
              end) in E.
    assert (request_id q = in_force) as Hq
      by (unfold q, in_force; now destruct (request_of l)).
    assert (env q = env p /\ logged q = logged p /\ stdout q = stdout p)
      as (He & Hl & Hs)
      by (unfold q; destruct (request_of l); now repeat split).
    destruct (on_exception_cases message q) as (Hnone & Hnull & Hid).
    rewrite Hq in Hnone, Hnull, Hid.
    split; [|split].
    + intros Hn rest. cbn [main]. rewrite E, (Hnone Hn).
      f_equal. unfold q, in_force in *.
      destruct (request_of l); [discriminate | reflexivity].
    + intros Hn. exists q. rewrite E, (Hnull Hn). now repeat split.
    + intros i Hi Hne. exists (write (internal_error i message) q).
      rewrite E, (Hid i Hi Hne). cbn [env logged stdout write].
      rewrite Hs. now repeat split.
  - exact serve_request_id.
Qed.

(** ** With and without the ids *)

Lemma pop_id_other (request : dict json) (k : pystr) (default : json) :
  k <> py "id" ->
  get_or (dict_pop request (py "id")) k default = get_or request k default.
Proof. intros H. unfold get_or. now rewrite dict_get_pop_other. Qed.

Lemma pop_id_same (request : dict json) :
  get_or (dict_pop request (py "id")) (py "id") JNull = JNull.
Proof. unfold get_or. now rewrite dict_get_pop_same. Qed.

Lemma on_exception_shadows (message : pystr) (p q : process) :
  shadows q p ->
  match on_exception message p, on_exception message q with
  | Alive a, Alive b => shadows b a /\ stdout b = stdout q
  | Dead a, Dead b => env b = env a /\ logged b = logged a /\ stdout b = stdout q
  | OffSchema, OffSchema => True
  | _, _ => False
  end.
Proof.
  intros (He & Hl & [[Hp Hq] | [Hp Hq]]); unfold on_exception;
    rewrite Hq.
  - rewrite Hp. now repeat split.
  - destruct (request_id p) as [i|] eqn:E; [|congruence].
    destruct i; (split; [|reflexivity]); (split; [exact He|]);
      (split; [exact Hl|]); right; cbn [request_id write]; rewrite ?E;
      (split; [discriminate | exact Hq]).
Qed.

Lemma respond_shadows (result result' : json) (p q : process) (i : json) :
  env q = env p -> logged q = logged p ->
  request_id p = Some i -> request_id q = Some JNull ->
  shadows (respond result' q) (respond result p)
  /\ stdout (respond result' q) = stdout q.
Proof.
  intros He Hl Hp Hq.
  destruct (respond_frame result p) as (Ae & Al & Ar & _).
  destruct (respond_frame result' q) as (Be & Bl & Br & Bs).
  rewrite Hq, app_nil_r in Bs.
  split; [|exact Bs].
  unfold shadows. rewrite Ae, Al, Ar, Be, Bl, Br.
  split; [exact He|]. split; [exact Hl|]. right. split; congruence.
Qed.

(** One line, with and without its [id]: the same effects. *)
Lemma serve_without_id (l : line) (p q : process) :
  shadows q p ->
  match serve MCP_NAME json_dumps elapsed py_str l p,
        serve MCP_NAME json_dumps elapsed py_str (without_id l) q with
  | Alive a, Alive b => shadows b a /\ stdout b = stdout q
  | Dead a, Dead b => env b = env a /\ logged b = logged a /\ stdout b = stdout q
  | OffSchema, OffSchema => True
  | _, _ => False
  end.
Proof.
  intros Hs. destruct l as [|message|document]; cbn [without_id serve].
  - now split.
  - now apply on_exception_shadows.
  - destruct document as [| | | | | |request];
      try (cbn [without_id serve]; now apply on_exception_shadows).
    cbn [serve].
    rewrite pop_id_same. rewrite !pop_id_other by discriminate.
    set (method := get_or request (py "method") (JStr [])).
    set (i := get_or request (py "id") JNull).
    destruct Hs as (He & Hl & _).
    assert (shadows (assign JNull q) (assign i p)) as Ha.
    { split; [exact He|]. split; [exact Hl|]. right. now split. }
    assert (forall result result',
              shadows (respond result' (assign JNull q))
                (respond result (assign i p))
              /\ stdout (respond result' (assign JNull q)) = stdout q) as R.
    { intros result result'.
      now apply (@respond_shadows result result' (assign i p)
                   (assign JNull q) i). }
    destruct (is_str method (py "initialize")); [apply R|].
    destruct (is_str method (py "notifications/initialized"));
      [now split|].
    destruct (is_str method (py "tools/list")); [apply R|].
    destruct (is_str method (py "tools/call")); [|apply R].
    destruct (get_or request (py "params") (JObj [])) as [| | | | | |params];
      try (apply (on_exception_shadows _ Ha)).
    destruct (get_or params (py "arguments") (JObj [])) as [| | | | | |a];
      try (apply (on_exception_shadows _ Ha)).
    destruct (get_or params (py "name") (JStr [])) as [| | | |name| |];
      try exact I.
    destruct (typed a) as [args|]; [|exact I].
    cbn [logged env assign]. rewrite He, Hl.
    destruct (handle_call_tool _ _ _ _ _ _) as [[result w1] entry].
    cbn [stdout request_id assign].
    match goal with
    | |- shadows (respond ?r ?qq) (respond ?r ?pp) /\ _ =>
        destruct (@respond_shadows r r pp qq i eq_refl eq_refl eq_refl
                    eq_refl) as (A & B)
    end.
    split; [exact A | exact B].
Qed.

(** One line: a tool call that reaches the tool is logged once and sends at
    most one request; any other line does neither. *)
Lemma serve_counts (l : line) (p p' : process) :
  serve MCP_NAME json_dumps elapsed py_str l p = Alive p' ->
  let n := if is_tool_call l then 1%nat else 0%nat in
  length (logged p') = (length (logged p) + n)%nat
  /\ exists reqs,
       calls (env p') = calls (env p) ++ reqs /\ (length reqs <= n)%nat.
Proof.
  assert (forall q n,
            env q = env p -> logged q = logged p ->
            length (logged q) = (length (logged p) + 0)%nat
            /\ exists reqs, calls (env q) = calls (env p) ++ reqs
                            /\ (length reqs <= n)%nat) as Idle.
  { intros q n -> ->. split; [lia|]. exists []. rewrite app_nil_r.
    split; [reflexivity | simpl; lia]. }
  assert (forall message q n,
            env q = env p -> logged q = logged p ->
            on_exception message q = Alive p' ->
            length (logged p') = (length (logged p) + 0)%nat
            /\ exists reqs, calls (env p') = calls (env p) ++ reqs
                            /\ (length reqs <= n)%nat) as Exc.
  { intros message q n He Hl. unfold on_exception.
    destruct (request_id q) as [[]|]; intros H; inversion H; subst;
      now apply Idle. }
  assert (forall result q n,
            env q = env p -> logged q = logged p ->
            Alive (respond result q) = Alive p' ->
            length (logged p') = (length (logged p) + 0)%nat
            /\ exists reqs, calls (env p') = calls (env p) ++ reqs
                            /\ (length reqs <= n)%nat) as Res.
  { intros result q n He Hl H. inversion H. subst.
    destruct (respond_frame result q) as (Ae & Al & _).
    apply Idle; congruence. }
  unfold is_tool_call.
  destruct l as [|message|document]; cbn [serve request_of].
  - intros H. inversion H. subst. now apply Idle.
  - now apply Exc.
  - destruct document as [| | | | | |request]; try (now apply Exc).
    unfold method_of, params_of.
    set (method := get_or request (py "method") (JStr [])).
    set (q := assign (get_or request (py "id") JNull) p).
    destruct (is_str method (py "initialize")) eqn:M1.
    { rewrite (@is_str_excl method (py "initialize") (py "tools/call") M1)
        by discriminate.
      now apply Res. }
    destruct (is_str method (py "notifications/initialized")) eqn:M2.
    { rewrite (@is_str_excl method (py "notifications/initialized")
                 (py "tools/call") M2) by discriminate.
      intros H. inversion H. subst. now apply Idle. }
    destruct (is_str method (py "tools/list")) eqn:M3.
    { rewrite (@is_str_excl method (py "tools/list") (py "tools/call") M3)
        by discriminate.
      now apply Res. }
    destruct (is_str method (py "tools/call")); [|now apply Res].
    cbn [andb].
    destruct (get_or request (py "params") (JObj [])) as [| | | | | |params];
      try (now apply Exc).
    destruct (get_or params (py "arguments") (JObj [])) as [| | | | | |a];
      try (now apply Exc).
    destruct (get_or params (py "name") (JStr [])) as [| | | |name| |];
      try discriminate.
    destruct (typed a) as [args|]; [|discriminate].
    unfold handle_call_tool.
    pose proof (handle_world MCP_NAME json_dumps name args (env q)) as Hw.
    destruct (_handle_call_tool_impl MCP_NAME json_dumps name args (env q))
      as [result w1].
    cbn [snd] in Hw.
    destruct (content result) as [|first rest];
      [|destruct (isError result)];
      (intros H; inversion H; subst;
       match goal with
       | |- context [respond ?r ?qq] =>
           destruct (respond_frame r qq) as (-> & -> & _)
       end;
       cbn [env logged]; rewrite length_app; split; [reflexivity|];
       destruct Hw as [-> | [req ->]];
       [exists []; rewrite app_nil_r; split; [reflexivity | simpl; lia]
       |exists [req]; split; [reflexivity | simpl; lia]]).
Qed.

(** A line on which the program ends has no effect. *)
Lemma serve_dead (l : line) (p p' : process) :
  serve MCP_NAME json_dumps elapsed py_str l p = Dead p' ->
  env p' = env p /\ logged p' = logged p /\ stdout p' = stdout p.
Proof.
  assert (forall message q,
            env q = env p -> logged q = logged p -> stdout q = stdout p ->
            on_exception message q = Dead p' ->
            env p' = env p /\ logged p' = logged p /\ stdout p' = stdout p)
    as Exc.
  { intros message q He Hl Hs. unfold on_exception.
    destruct (request_id q) as [[]|]; intros H; inversion H; subst.
    now repeat split. }
  destruct l as [|message|document]; cbn [serve].
  - discriminate.
  - now apply Exc.
  - destruct document as [| | | | | |request]; try (now apply Exc).
    repeat match goal with
           | |- context [if ?b then _ else _] => destruct b
           end; try discriminate.
    destruct (get_or request (py "params") (JObj [])) as [| | | | | |params];
      try (now apply Exc).
    destruct (get_or params (py "arguments") (JObj [])) as [| | | | | |a];
      try (now apply Exc).
    destruct (get_or params (py "name") (JStr [])); try discriminate.
    destruct (typed a); [|discriminate].
    destruct (handle_call_tool _ _ _ _ _ _) as [[result w1] entry].
    discriminate.
Qed.

(** X29. The [id] of a request decides whether [main] writes, and
    nothing else. Start [main] before any request has been read, or after
    one without an [id], and give it the same lines without their ids: it
    writes nothing, and yet it ends in the same way (at the end of the
    input, or on the same line), having run the same tool calls, with the
    same requests to the session manager and the same records for the
    logger. With or without ids, a run of [main] to the end of the input
    hands one record to the logger for each line that asks for a tool call
    with [params] and [arguments] that are objects, and for no other line,
    and sends at most one request to the session manager for each such
    line; a run that ends before hands over no more than that. *)
Theorem main_runs_notifications (stdin : list line) (p : process) :
  let spoken := main MCP_NAME json_dumps elapsed py_str stdin p in
  let silent :=
    main MCP_NAME json_dumps elapsed py_str (map without_id stdin) p in
  let tool_calls := length (filter is_tool_call stdin) in
  (request_id p = None \/ request_id p = Some JNull ->
   match spoken, silent with
   | Alive a, Alive b | Dead a, Dead b =>
       env b = env a /\ logged b = logged a /\ stdout b = stdout p
   | OffSchema, OffSchema => True
   | _, _ => False
   end)
  /\ (forall p', spoken = Alive p' ->
        length (logged p') = (length (logged p) + tool_calls)%nat
        /\ exists reqs,
             PwshManager.calls (env p') = PwshManager.calls (env p) ++ reqs
             /\ (length reqs <= tool_calls)%nat)
  /\ (forall p', spoken = Dead p' ->
        (length (logged p') <= length (logged p) + tool_calls)%nat).
Proof.
  intros spoken silent tool_calls.
  unfold spoken, silent, tool_calls. clear spoken silent tool_calls.
  split; [|split].
  - intros Hid.
    assert (shadows p p) as Hs.
    { split; [reflexivity|]. split; [reflexivity|].
      destruct Hid as [H|H]; [left; now split | right; split; congruence]. }
    assert (forall p q,
              shadows q p ->
              same_effects (stdout q)
                (main MCP_NAME json_dumps elapsed py_str stdin p)
                (main MCP_NAME json_dumps elapsed py_str
                   (map without_id stdin) q)) as G.
    { clear p Hid Hs.
      induction stdin as [|l rest IH]; intros p q Hs.
      - cbn [main map same_effects]. destruct Hs as (He & Hl & _).
        now repeat split.
      - cbn [main map].
        pose proof (serve_without_id l Hs) as H.
        destruct (serve MCP_NAME json_dumps elapsed py_str l p) as [a|a|];
          destruct (serve MCP_NAME json_dumps elapsed py_str (without_id l) q)
            as [b|b|]; try contradiction.
        + destruct H as (Hs' & Hw). rewrite <- Hw. now apply IH.
        + exact H.
        + exact I. }
    exact (G p p Hs).
  - revert p. induction stdin as [|l rest IH]; intros p p'.
    + cbn [main filter length]. intros H. inversion H. subst.
      split; [lia|]. exists []. now rewrite app_nil_r.
    + cbn [main filter].
      destruct (serve MCP_NAME json_dumps elapsed py_str l p) as [p1|p1|]
        eqn:E; try discriminate.
      intros H. destruct (serve_counts l p E) as (L1 & reqs1 & C1 & N1).
      destruct (IH p1 p' H) as (L2 & reqs2 & C2 & N2).
      split.
      * rewrite L2, L1. destruct (is_tool_call l); cbn [length]; lia.
      * exists (reqs1 ++ reqs2). split.
        -- now rewrite C2, C1, app_assoc.
        -- rewrite length_app. destruct (is_tool_call l); cbn [length]; lia.
  - revert p. induction stdin as [|l rest IH]; intros p p'.
    + discriminate.
    + cbn [main filter].
      destruct (serve MCP_NAME json_dumps elapsed py_str l p) as [p1|p1|]
        eqn:E; try discriminate.
      * intros H. destruct (serve_counts l p E) as (L1 & _).
        specialize (IH p1 p' H).
        destruct (is_tool_call l); cbn [length]; lia.
      * intros H. inversion H. subst.
        destruct (serve_dead l p E) as (_ & -> & _).
        destruct (is_tool_call l); cbn [length]; lia.
Qed.

End Pwsh.

End EntryFacts.

(* ===================================================================== *)
(** * The registry as the two adapters share it *)
(* ===================================================================== *)

Module SharedRegistryFacts.
Import PyFacts MMFacts RegistryFacts PwshToolFacts.

Section Adapters.

Variable MCP_NAME : pystr.
Variable json_dumps : json -> pystr.

(** X30. What [mm] writes is what [pwsh-manager] reads. Once
    [connection_add] has accepted and saved a connection, [pwsh-manager]
    resolves its name to the record stored exactly when the [mcps] given
    list the adapter, and resolves every other name as before. Once
    [connection_remove] has removed and saved, [pwsh-manager] resolves the
    name to nothing, and every other name as before. *)
Theorem registry_handoff (args : obj) (wm : MM.world)
  (before after : PwshManager.world) :
  PwshManager.file before = MM.file wm -> MM.disk wm = MM.IoOk ->
  (add_accepted args wm ->
   PwshManager.file after
   = MM.file (snd (MM._connection_add json_dumps args wm)) ->
   PwshManager.get_connection MCP_NAME (stripped_name args) after
   = (if str_in MCP_NAME (match mcps args with Some l => l | None => [] end)
      then Some (added_record args) else None)
   /\ (forall n, n <> stripped_name args ->
         PwshManager.get_connection MCP_NAME n after
         = PwshManager.get_connection MCP_NAME n before))
  /\ (forall removed,
        stripped_name args <> [] ->
        dict_get (connections_of (MM.load_registry wm)) (stripped_name args)
        = Some removed ->
        PwshManager.file after
        = MM.file (snd (MM._connection_remove json_dumps args wm)) ->
        PwshManager.get_connection MCP_NAME (stripped_name args) after = None
        /\ (forall n, n <> stripped_name args ->
              PwshManager.get_connection MCP_NAME n after
              = PwshManager.get_connection MCP_NAME n before)).
Proof.
  intros Hb Hd.
  assert (PwshManager.load_connections before
          = connections_of (MM.load_registry wm)) as Lb.
  { unfold PwshManager.load_connections, MM.load_registry. rewrite Hb.
    now destruct (MM.file wm). }
  split.
  - intros Ha Hf. rewrite (add_accepted_run json_dumps Ha Hd) in Hf.
    cbn [snd MM.file] in Hf.
    assert (PwshManager.load_connections after
            = dict_set (connections_of (MM.load_registry wm))
                (stripped_name args) (added_record args)) as La
      by (unfold PwshManager.load_connections; now rewrite Hf).
    unfold PwshManager.get_connection. rewrite La, Lb. split.
    + rewrite dict_get_set_same. unfold PwshManager.allowed, obj_truthy.
      cbn [added_record mcps PwshManager.mcps_of]. rewrite orb_true_r.
      reflexivity.
    + intros n Hn. now rewrite dict_get_set_other.
  - intros removed Hne Hget Hf.
    unfold MM._connection_remove in Hf. fold (stripped_name args) in Hf.
    apply truthy_true_iff in Hne. rewrite Hne, Hget in Hf.
    cbn [negb] in Hf. unfold MM.save_registry in Hf. rewrite Hd in Hf.
    cbn [snd MM.file] in Hf.
    assert (PwshManager.load_connections after
            = dict_pop (connections_of (MM.load_registry wm))
                (stripped_name args)) as La
      by (unfold PwshManager.load_connections; now rewrite Hf).
    unfold PwshManager.get_connection. rewrite La, Lb. split.
    + now rewrite dict_get_pop_same.
    + intros n Hn. now rewrite dict_get_pop_other.
Qed.

End Adapters.

End SharedRegistryFacts.

(* ===================================================================== *)
(** * The programs on the sample inputs *)
(* ===================================================================== *)

Module Checks.
Import Samples.

(** A [run] on [ForIT] under another account, with coloured output. *)
Lemma run_success_rendering_witness :
  is_run_call run_args
  /\ MM.pool (mm_world (Replied reply_coloured)) (run_request run_args)
     = Replied reply_coloured
  /\ MM.status_is reply_coloured (py "success") = true
  /\ exists rendered,
       MM._call_tool_impl dumps ascii_lower (py "run") run_args
         (mm_world (Replied reply_coloured))
       = (MM.text_content rendered,
          MM.sent (mm_world (Replied reply_coloured)) (run_request run_args))
       /\ rendered <> [].
Proof.
  set (r := reply_coloured). set (w := mm_world (Replied r)).
  assert (is_run_call run_args) as H1 by (repeat split).
  assert (MM.pool w (run_request run_args) = Replied r) as H2 by reflexivity.
  assert (MM.status_is r (py "success") = true) as H3 by reflexivity.
  repeat split; try assumption.
  destruct (@MMFacts.run_success_rendering dumps ascii_lower run_args w r
              H1 H2 H3) as (shown & rendered & E & _ & Hne & _).
  exists rendered. now split.
Defined.

(** Against C1 as stated: an output of white space only, run under the
    wrong account, is rendered as the warning and not as "(no output)"; the
    white space around an output is not kept; and the sequence that switches
    to the alternate screen, which is neither of the two kinds, is taken out
    too. *)
Lemma run_blank_output_with_warning :
  MM.status_is reply_blank (py "success") = true
  /\ blank (MM.strip_ansi (get_or (r_strs reply_blank) (py "output") [])) = true
  /\ fst (MM._call_tool_impl dumps ascii_lower (py "run") run_args
            (mm_world (Replied reply_blank)))
     = MM.text_content
         (py "WARNING: Wrong account! Expected a@b.com, got x@y.com")
  /\ fst (MM._call_tool_impl dumps ascii_lower (py "run") run_args
            (mm_world (Replied reply_blank)))
     <> MM.text_content (py "(no output)")
  /\ fst (MM._call_tool_impl dumps ascii_lower (py "run") run_args
            (mm_world (Replied reply_padded)))
     = MM.text_content (py "OK")
  /\ fst (MM._call_tool_impl dumps ascii_lower (py "run") run_args
            (mm_world (Replied reply_padded)))
     <> MM.text_content (get_or (r_strs reply_padded) (py "output") [])
  /\ fst (MM._call_tool_impl dumps ascii_lower (py "run") run_args
            (mm_world (Replied reply_alt_screen)))
     = MM.text_content (py "X").
Proof.
  repeat split; try (vm_compute; reflexivity);
    intros H; vm_compute in H; discriminate.
Qed.





Lemma wf_registry_1 : dict_wf (connections_of registry_1).
Proof.
  unfold dict_wf. simpl. repeat constructor; simpl; intuition discriminate.
Defined.

(** [ClientX] is not for [pwsh-manager]: a [pwsh_run] on it is answered as
    one on a name the registry does not have. *)
Lemma foreign_connection_not_found_witness :
  PwshManager.get_connection PwshManager.MCP_NAME (py "ClientX")
    (pwsh_world (Replied reply_ok)) = None
  /\ PwshManager._handle_call_tool_impl PwshManager.MCP_NAME dumps
       (py "pwsh_run")
       [(py "connectionName", py "ClientX"); (py "command", py "Get-Mailbox")]
       (pwsh_world (Replied reply_ok))
     = (PwshManager.error_result
          (dumps (not_found_doc (py "ClientX") [py "ForIT"])),
        pwsh_world (Replied reply_ok)).
Proof.
  assert (dict_get (PwshManager.load_connections (pwsh_world (Replied reply_ok)))
            (py "ClientX") = Some conn_clientx) as Hget by reflexivity.
  assert (str_in PwshManager.MCP_NAME (PwshManager.mcps_of conn_clientx) = false)
    as Hforeign by reflexivity.
  destruct (@PwshFacts.foreign_connection_not_found PwshManager.MCP_NAME dumps
              (pwsh_world (Replied reply_ok)) (py "ClientX") conn_clientx
              wf_registry_1 Hget Hforeign)
    as (_ & Hnone & _ & _ & _ & _ & Hcall).
  split; [exact Hnone|].
  rewrite Hcall; [reflexivity | reflexivity | reflexivity | reflexivity |
                  discriminate].
Defined.

(** [pwsh_disconnect] on [ForIT] with a wrong confirmation, and with the
    right one; and with the right one on [ClientX], which does not resolve. *)
Lemma disconnect_needs_confirmation_witness :
  PwshManager._handle_call_tool_impl PwshManager.MCP_NAME dumps
    (py "pwsh_disconnect") (disconnect_args (py "ForIT") (py "disconnect"))
    (pwsh_world (Replied reply_ok))
  = ({| PwshManager.content :=
          [{| type := py "text"; text := dumps confirmation_required_doc |}];
        PwshManager.isError := true |},
     pwsh_world (Replied reply_ok))
  /\ PwshManager.calls
       (snd (PwshManager._handle_call_tool_impl PwshManager.MCP_NAME dumps
               (py "pwsh_disconnect")
               (disconnect_args (py "ForIT") (py "DISCONNECT"))
               (pwsh_world (Replied reply_ok))))
     = [Post (py "/disconnect")
          (Some [(py "tenant", py "forit.io"); (py "module", py "exo")])]
  /\ PwshManager._handle_call_tool_impl PwshManager.MCP_NAME dumps
       (py "pwsh_disconnect") (disconnect_args (py "ClientX") (py "DISCONNECT"))
       (pwsh_world (Replied reply_ok))
     = ({| PwshManager.content :=
             [{| type := py "text";
                 text := dumps (not_found_doc (py "ClientX") [py "ForIT"]) |}];
           PwshManager.isError := true |},
        pwsh_world (Replied reply_ok)).
Proof.
  destruct (PwshFacts.disconnect_needs_confirmation PwshManager.MCP_NAME dumps
              (disconnect_args (py "ClientX") (py "DISCONNECT"))
              (pwsh_world (Replied reply_ok))) as (_ & _ & _ & Hnone & _).
  destruct (PwshFacts.disconnect_needs_confirmation PwshManager.MCP_NAME dumps
              (disconnect_args (py "ForIT") (py "disconnect"))
              (pwsh_world (Replied reply_ok))) as [Hno _].
  destruct Hno as (Hw & _ & _ & _ & Hres); [discriminate|].
  destruct (PwshFacts.disconnect_needs_confirmation PwshManager.MCP_NAME dumps
              (disconnect_args (py "ForIT") (py "DISCONNECT"))
              (pwsh_world (Replied reply_ok))) as (_ & Hyes & _).
  split; [|split].
  - apply injective_projections; [|exact Hw].
    apply (Hres conn_forit); [discriminate | reflexivity].
  - rewrite (Hyes conn_forit); [reflexivity | reflexivity | discriminate |
                                reflexivity].
  - apply Hnone; [discriminate | reflexivity].
Defined.

(** Against C6 as stated: a [disconnect] with a wrong confirmation on a
    connection that does not resolve gets the "not found" error, not the
    confirmation-required one. *)
Lemma disconnect_unresolved_connection :
  get_or (disconnect_args (py "ClientX") (py "disconnect")) (py "confirmation") []
  <> py "DISCONNECT"
  /\ PwshManager._handle_call_tool_impl PwshManager.MCP_NAME dumps
       (py "pwsh_disconnect") (disconnect_args (py "ClientX") (py "disconnect"))
       (pwsh_world (Replied reply_ok))
     = (PwshManager.error_result
          (dumps (not_found_doc (py "ClientX") [py "ForIT"])),
        pwsh_world (Replied reply_ok))
  /\ fst (PwshManager._handle_call_tool_impl PwshManager.MCP_NAME dumps
            (py "pwsh_disconnect")
            (disconnect_args (py "ClientX") (py "disconnect"))
            (pwsh_world (Replied reply_ok)))
     <> PwshManager.error_result (dumps confirmation_required_doc).
Proof.
  split; [discriminate|]. split; [vm_compute; reflexivity|].
  intros H. vm_compute in H. discriminate.
Qed.

(** [connection_remove] of a name the registry does not have, and of
    [ClientX]. *)
Lemma connection_remove_cases_witness :
  MM._connection_remove dumps (str_args [(py "name", py "  ")]) registry_world
  = (MM.text_content (dumps (MM.error_doc (py "name is required"))),
     registry_world)
  /\ MM._connection_remove dumps (str_args [(py "name", py "Nobody")])
    registry_world
  = (MM.text_content (dumps (JObj
       [(py "error", JStr (py "'Nobody' not found"));
        (py "available", JArr [JStr (py "ForIT"); JStr (py "ClientX")])])),
     registry_world)
  /\ fst (MM._connection_remove dumps (str_args [(py "name", py " ClientX ")])
            registry_world)
     = MM.text_content (dumps (JObj
         [(py "success", JBool true);
          (py "message", JStr (py "'ClientX' removed"));
          (py "removed", json_of_obj conn_clientx)]))
  /\ MM.file (snd (MM._connection_remove dumps
                     (str_args [(py "name", py " ClientX ")]) registry_world))
     = Some {| connections := Some [(py "ForIT", conn_forit)];
               extras := extras registry_1 |}.
Proof.
  destruct (MMFacts.connection_remove_cases dumps
              (str_args [(py "name", py "Nobody")]) registry_world)
    as (_ & Habsent & _).
  destruct (MMFacts.connection_remove_cases dumps
              (str_args [(py "name", py " ClientX ")]) registry_world)
    as (_ & _ & Hpresent).
  destruct (Hpresent conn_clientx) as (_ & _ & _ & _ & Hok & _);
    [discriminate | reflexivity |].
  destruct Hok as [Hres Hfile]; [reflexivity|].
  destruct (MMFacts.connection_remove_cases dumps
              (str_args [(py "name", py "  ")]) registry_world)
    as (Hempty & _).
  split; [|split; [|split]].
  - rewrite Hempty; reflexivity.
  - rewrite Habsent; [reflexivity | discriminate | reflexivity].
  - rewrite Hres. reflexivity.
  - rewrite Hfile. reflexivity.
Defined.

(** Against C7 as stated: the empty name is not in the registry, yet the
    answer is "name is required", without the names of the registry; and
    once [connection_add] has been given a name of white space, which it
    stores as the empty name, that connection is in the registry and
    [connection_remove] still answers "name is required". *)
Lemma connection_remove_empty_name :
  dict_get (connections_of (MM.load_registry registry_world)) (py "") = None
  /\ MM._connection_remove dumps (str_args [(py "name", py "")]) registry_world
     = (MM.text_content (dumps (MM.error_doc (py "name is required"))),
        registry_world)
  /\ fst (MM._connection_remove dumps (str_args [(py "name", py "")])
            registry_world)
     <> MM.text_content (dumps (JObj
          [(py "error", JStr (py "'' not found"));
           (py "available", JArr [JStr (py "ForIT"); JStr (py "ClientX")])]))
  /\ dict_mem (py "")
       (connections_of
          (MM.load_registry
             (snd (MM._connection_add dumps add_blank_name registry_world))))
     = true
  /\ MM._connection_remove dumps (str_args [(py "name", py "")])
       (snd (MM._connection_add dumps add_blank_name registry_world))
     = (MM.text_content (dumps (MM.error_doc (py "name is required"))),
        snd (MM._connection_add dumps add_blank_name registry_world)).
Proof.
  split; [reflexivity|]. split; [reflexivity|]. split.
  - intros H. vm_compute in H. discriminate.
  - split; reflexivity.
Qed.

(** [connection_update] of the description and of [mcps] of [ClientX]. *)
Lemma connection_update_frame_witness :
  MM._connection_update dumps
    (str_args [(py "name", py "ClientX"); (py "appId", py " " ++ guid_1)])
    registry_world
  = (MM.text_content
       (dumps (MM.error_doc (py "Invalid appId:  " ++ guid_1))),
     registry_world)
  /\ MM._connection_update dumps (str_args [(py "name", py "ClientX")])
       registry_world
     = (MM.text_content (dumps (JObj [(py "message", JStr (py "No changes"))])),
        registry_world)
  /\ fst (MM._connection_update dumps update_clientx registry_world)
  = MM.text_content (dumps (JObj
      [(py "success", JBool true);
       (py "updated", JArr [JStr (py "description"); JStr (py "mcps")]);
       (py "connection",
        json_of_obj
          {| strs := [(py "appId", guid_1);
                      (py "tenant", py "clientx.onmicrosoft.com");
                      (py "description", py "New text")];
             mcps := Some [py "mm"; py "exo"] |})]))
  /\ MM.file (snd (MM._connection_update dumps update_clientx registry_world))
     = Some {| connections :=
                 Some [(py "ForIT", conn_forit);
                       (py "ClientX",
                        {| strs := [(py "appId", guid_1);
                                    (py "tenant", py "clientx.onmicrosoft.com");
                                    (py "description", py "New text")];
                           mcps := Some [py "mm"; py "exo"] |})];
               extras := extras registry_1 |}.
Proof.
  destruct (@MMFacts.connection_update_frame dumps update_clientx
              registry_world conn_clientx) as (_ & _ & H);
    [discriminate | reflexivity |].
  destruct H as (conn' & Hstr & _ & Hframe & Hmcps & _ & _ & _ & _ & Hsnd & Hok & _);
    [discriminate | discriminate |].
  destruct Hok as [Hres Hfile]; [reflexivity|].
  destruct (@MMFacts.connection_update_frame dumps
              (str_args [(py "name", py "ClientX");
                         (py "appId", py " " ++ guid_1)])
              registry_world conn_clientx) as (Hbad & _);
    [discriminate | reflexivity |].
  destruct (@MMFacts.connection_update_frame dumps
              (str_args [(py "name", py "ClientX")])
              registry_world conn_clientx) as (_ & Hnone & _);
    [discriminate | reflexivity |].
  split; [|split; [|split]].
  - rewrite Hbad; reflexivity.
  - rewrite Hnone; reflexivity.
  - vm_compute. reflexivity.
  - vm_compute. reflexivity.
Defined.

(** Against C8 as stated: a call that supplies the tenant the connection
    already has is answered with [tenant] in the list of updated fields and
    leaves the registry as it was; and a call that supplies nothing for a
    name the registry does not have is answered "not found", not "No
    changes". *)
Lemma connection_update_same_value :
  fst (MM._connection_update dumps
         (str_args [(py "name", py "ForIT"); (py "tenant", py "forit.io")])
         registry_world)
  = MM.text_content (dumps (JObj
      [(py "success", JBool true);
       (py "updated", JArr [JStr (py "tenant")]);
       (py "connection", json_of_obj conn_forit)]))
  /\ MM.file (snd (MM._connection_update dumps
                     (str_args [(py "name", py "ForIT");
                                (py "tenant", py "forit.io")])
                     registry_world))
     = MM.file registry_world
  /\ MM._connection_update dumps (str_args [(py "name", py "Nobody")])
       registry_world
     = (MM.text_content (dumps (MM.error_doc (py "'Nobody' not found"))),
        registry_world)
  /\ fst (MM._connection_update dumps (str_args [(py "name", py "Nobody")])
            registry_world)
     <> MM.text_content (dumps (JObj [(py "message", JStr (py "No changes"))])).
Proof.
  repeat split; try (vm_compute; reflexivity).
  intros H. vm_compute in H. discriminate.
Qed.

(** A read timeout, in the two clients. *)
Lemma transport_failures_normalized_witness :
  MM.call_pool (py "/metrics") (py "GET") None registry_world
  = (MM.pool_error (py "Request timed out"),
     MM.sent registry_world (Get (py "/metrics")))
  /\ PwshManager.api_call (py "/sessions") None
       (pwsh_world (Raised read_timeout))
     = (PwshManager.api_error (py "Read timed out."),
        PwshManager.sent (pwsh_world (Raised read_timeout))
          (Get (py "/sessions"))).
Proof.
  destruct PoolClientFacts.transport_failures_normalized as [Hmm Hpwsh].
  split.
  - destruct (Hmm (py "/metrics") (py "GET") None registry_world read_timeout)
      as [E _]; [reflexivity|]. exact E.
  - destruct (Hpwsh (py "/sessions") None (pwsh_world (Raised read_timeout))
                read_timeout) as [E _]; [reflexivity|]. exact E.
Defined.

(** Against C9 as stated: on a read timeout [api_call] does not return
    [status] "error" with "Request timed out". *)
Lemma api_call_read_timeout :
  kind read_timeout = ReadTimeout
  /\ fst (PwshManager.api_call (py "/sessions") None
            (pwsh_world (Raised read_timeout)))
     = PwshManager.api_error (py "Read timed out.")
  /\ fst (PwshManager.api_call (py "/sessions") None
            (pwsh_world (Raised read_timeout)))
     <> MM.pool_error (py "Request timed out")
  /\ dict_get (r_strs (fst (PwshManager.api_call (py "/sessions") None
                              (pwsh_world (Raised read_timeout)))))
       (py "status") = None.
Proof.
  repeat split; try reflexivity. intros H. vm_compute in H. discriminate.
Qed.

(** [connection_add] of a new connection, and the [expectedEmail] of [ForIT]
    after a [connection_update] of [ForIT]. *)
Lemma gateway_never_writes_expected_email_witness :
  (exists record,
     MM.file (snd (MM._connection_add dumps add_new registry_world))
     = Some (MM.with_connections registry_1
               (dict_set (connections_of registry_1) (py "New") record))
     /\ obj_keys record
        = [py "appId"; py "tenant"; py "description"; py "mcps"]
     /\ dict_get (strs record) (py "tenant") = Some (py "new.example"))
  /\ expected_email_in
       (MM.file (snd (MM._call_tool_impl dumps ascii_lower
                        (py "connection_update")
                        (str_args [(py "name", py "ForIT");
                                   (py "tenant", py "forit.example")])
                        registry_world)))
       (py "ForIT") = Some (py "a@b.com")
  /\ expected_email_in (MM.file registry_world) (py "ForIT")
     = Some (py "a@b.com").
Proof.
  destruct (MMFacts.gateway_never_writes_expected_email dumps ascii_lower)
    as (Hadd & _ & Hkeep).
  split; [|split].
  - destruct (Hadd add_new registry_world)
      as [H | (record & Hsnd & Hkeys & _ & Ht & _)].
    + exfalso. apply (f_equal MM.writes) in H. vm_compute in H. discriminate.
    + exists record. rewrite Hsnd. split; [reflexivity|]. split; [exact Hkeys|].
      rewrite Ht. reflexivity.
  - vm_compute. reflexivity.
  - apply (Hkeep (py "connection_update")
                 (str_args [(py "name", py "ForIT");
                            (py "tenant", py "forit.example")])
                 registry_world).
    vm_compute. reflexivity.
Defined.

End Checks.

(* ===================================================================== *)
(** * The programs on more sample inputs *)
(* ===================================================================== *)

Module ScenarioChecks.
Import Samples Scenarios.

Lemma guid_1_is_guid : is_guid guid_1.
Proof. apply (MMFacts.valid_guid_strip guid_1). reflexivity. Defined.

Lemma add_new_accepted : add_accepted add_new registry_world.
Proof.
  split; [reflexivity|]. split; [exact guid_1_is_guid | reflexivity].
Defined.

(** [connection_add] of [New]: the file then holds the three connections,
    [New] last. *)
Lemma connection_add_appends_witness :
  MM.file (snd (MM._connection_add dumps add_new registry_world))
  = Some {| connections :=
              Some [(py "ForIT", conn_forit); (py "ClientX", conn_clientx);
                    (py "New", added_record add_new)];
            extras := extras registry_1 |}.
Proof.
  rewrite (proj1 (RegistryFacts.connection_add_appends dumps add_new
                    registry_world) add_new_accepted eq_refl).
  reflexivity.
Defined.

(** [connection_add] of [New], then [connection_remove] of it. *)
Lemma connection_remove_undoes_add_witness :
  connections_of
    (MM.load_registry
       (snd (MM._connection_remove dumps remove_new
               (snd (MM._connection_add dumps add_new registry_world)))))
  = connections_of (MM.load_registry registry_world).
Proof.
  assert (stripped_name add_new <> []) as Hne by discriminate.
  exact (proj1 (proj2 (@RegistryFacts.connection_remove_undoes_add dumps
                         add_new remove_new registry_world add_new_accepted
                         eq_refl Hne eq_refl))).
Defined.

(** [connection_add] of [New], twice; and a second time with an [appId]
    that is no GUID. *)
Lemma connection_add_once_witness :
  MM._connection_add dumps add_new_again
    (snd (MM._connection_add dumps add_new registry_world))
  = ([{| type := py "text";
         text := dumps (JObj
           [(py "error",
             JStr (py "'New' already exists. Use connection_update."))]) |}],
     snd (MM._connection_add dumps add_new registry_world))
  /\ MM._connection_add dumps add_new_no_guid
       (snd (MM._connection_add dumps add_new registry_world))
     = ([{| type := py "text";
            text := dumps (JObj
              [(py "error", JStr (py "Invalid appId format: zz"))]) |}],
        snd (MM._connection_add dumps add_new registry_world)).
Proof.
  destruct (@RegistryFacts.connection_add_once dumps add_new add_new_again
              registry_world add_new_accepted eq_refl eq_refl)
    as (Hw & _ & _ & Hx & _).
  destruct (@RegistryFacts.connection_add_once dumps add_new add_new_no_guid
              registry_world add_new_accepted eq_refl eq_refl)
    as (Hw' & _ & _ & _ & _ & Hi).
  split.
  - apply injective_projections; [|exact Hw].
    apply Hx; [reflexivity | exact guid_1_is_guid].
  - apply injective_projections; [|exact Hw'].
    apply Hi; [reflexivity|].
    intros G. apply MMFacts.valid_guid_strip in G. discriminate.
Defined.

(** [connection_add] with a blank for a name. *)
Lemma blank_name_stored_under_empty_name_witness :
  keys (connections_of
          (MM.load_registry
             (snd (MM._connection_add dumps add_blank_name registry_world))))
  = [py "ForIT"; py "ClientX"; []].
Proof.
  assert (add_accepted add_blank_name registry_world) as Ha.
  { split; [reflexivity|]. split; [exact guid_1_is_guid | reflexivity]. }
  exact (proj2 (proj2 (@RegistryFacts.blank_name_stored_under_empty_name dumps
                         add_blank_name registry_world Ha eq_refl eq_refl))).
Defined.

(** [connection_update] of [ClientX], twice. *)
Lemma connection_update_idempotent_witness :
  MM.file (snd (MM._connection_update dumps update_clientx
                  (snd (MM._connection_update dumps update_clientx
                          registry_world))))
  = MM.file (snd (MM._connection_update dumps update_clientx registry_world)).
Proof.
  assert (MM.disk registry_world <> MM.IoWriteFails) as Hd by discriminate.
  exact (proj2 (@RegistryFacts.connection_update_idempotent dumps
                  update_clientx registry_world Hd)).
Defined.

(** A GUID behind a blank, given to [connection_update]. *)
Lemma padded_app_id_add_and_update_witness :
  MM._connection_update dumps update_padded registry_world
  = (MM.text_content (dumps (MM.error_doc (py "Invalid appId:  " ++ guid_1))),
     registry_world)
  /\ exists record,
       dict_get (connections_of
                   (MM.load_registry
                      (snd (MM._connection_add dumps add_padded
                              registry_world)))) (py "Padded") = Some record
       /\ dict_get (strs record) (py "appId") = Some guid_1.
Proof.
  assert (py " " <> []) as Hp by discriminate.
  destruct (@RegistryFacts.padded_app_id_add_and_update dumps guid_1 (py " ")
              guid_1_is_guid eq_refl Hp) as [Hadd Hupd].
  split.
  - apply (Hupd update_padded registry_world conn_clientx);
      [discriminate | reflexivity | reflexivity].
  - apply (Hadd add_padded registry_world); reflexivity.
Defined.

(** A [run] with a connection only; and a complete one. *)
Lemma run_parameter_check_witness :
  MM._call_tool_impl dumps ascii_lower (py "run")
    (str_args [(py "connection", py "ForIT")]) registry_world
  = (MM.text_content
       (py "Error: connection, module, and command are all required"),
     registry_world)
  /\ MM.calls (snd (MM._call_tool_impl dumps ascii_lower (py "run") run_args
                      registry_world))
     = [Post (py "/run")
          (Some [(py "connection", py "ForIT"); (py "module", py "exo");
                 (py "command", py "Get-Mailbox"); (py "caller_id", py "mm-mcp")])].
Proof.
  split.
  - apply (RunFacts.run_parameter_check dumps ascii_lower
             (str_args [(py "connection", py "ForIT")]) registry_world);
      reflexivity.
  - apply (RunFacts.run_parameter_check dumps ascii_lower run_args
             registry_world); reflexivity.
Defined.

(** A [run] answered with the status [auth_in_progress], with the status
    [error], and with a status [mm] does not know. *)
Lemma run_status_table_witness :
  fst (MM._call_tool_impl dumps ascii_lower (py "run") run_args
         (mm_world (Replied reply_busy)))
  = [{| type := py "text";
        text := py "Auth in progress by another caller. Retry in a few seconds." |}]
  /\ fst (MM._call_tool_impl dumps ascii_lower (py "run") run_args
            (mm_world (Replied reply_failed)))
     = [{| type := py "text"; text := py "Error: No such cmdlet" |}]
  /\ fst (MM._call_tool_impl dumps ascii_lower (py "run") run_args
            (mm_world (Replied reply_queued)))
     = [{| type := py "text";
           text := dumps (JObj [(py "status", JStr (py "queued"))]) |}].
Proof.
  assert (is_run_call run_args) as H1 by (repeat split).
  split; [|split].
  - destruct (@RunFacts.run_status_table dumps ascii_lower run_args
                (mm_world (Replied reply_busy)) reply_busy H1 eq_refl)
      as (_ & Hb & _ & _).
    apply Hb. reflexivity.
  - destruct (@RunFacts.run_status_table dumps ascii_lower run_args
                (mm_world (Replied reply_failed)) reply_failed H1 eq_refl)
      as (_ & _ & He & _).
    apply He. reflexivity.
  - destruct (@RunFacts.run_status_table dumps ascii_lower run_args
                (mm_world (Replied reply_queued)) reply_queued H1 eq_refl)
      as (_ & _ & _ & Hq).
    apply Hq; reflexivity.
Defined.

(** A [run] whose request times out. *)
Lemma run_transport_failure_witness :
  MM._call_tool_impl dumps ascii_lower (py "run") run_args registry_world
  = (MM.text_content (py "Error: Request timed out"),
     MM.sent registry_world (run_request run_args)).
Proof.
  assert (is_run_call run_args) as H1 by (repeat split).
  exact (@RunFacts.run_transport_failure dumps ascii_lower run_args
           registry_world read_timeout H1 eq_refl).
Defined.

(** A [run] without parameters and without a pool. *)
Lemma listing_without_pool_witness :
  fst (MM._call_tool_impl dumps ascii_lower (py "run") (str_args [])
         registry_world)
  = MM.text_content
      (py "**Available Connections:**" ++ nl
       ++ nl ++ py "**Session Pool Status:**" ++ nl
       ++ py "- Uptime: unknown" ++ nl
       ++ py "- Requests: 0 (0% errors)" ++ nl
       ++ py "- Active sessions: 0" ++ nl
       ++ py "- Avg response: 0ms" ++ nl).
Proof.
  exact (@RunFacts.listing_without_pool dumps ascii_lower (str_args [])
           registry_world read_timeout read_timeout eq_refl eq_refl eq_refl
           eq_refl eq_refl).
Defined.

Lemma coloured_pieces_well_formed : well_formed coloured_pieces.
Proof.
  unfold well_formed, coloured_pieces.
  apply Forall_cons.
  { left. exists (py "32"). split; [repeat constructor | reflexivity]. }
  apply Forall_cons.
  { simpl. intuition discriminate. }
  apply Forall_cons.
  { left. exists (py "0"). split; [repeat constructor | reflexivity]. }
  apply Forall_cons; [|apply Forall_nil].
  right. exists 50, (py "5"), 108.
  split; [reflexivity|]. split; [repeat constructor|].
  split; [now right | reflexivity].
Defined.

(** Coloured output with the cursor hidden. *)
Lemma clean_output_of_well_formed_witness :
  MM.strip_ansi (raw_of coloured_pieces) = py "OK"
  /\ MM._call_tool_impl dumps ascii_lower (py "run") run_args
       (mm_world (Replied reply_pieces))
     = (MM.text_content (py "OK"),
        MM.sent (mm_world (Replied reply_pieces)) (run_request run_args)).
Proof.
  destruct (RunFacts.clean_output_of_well_formed dumps ascii_lower
              coloured_pieces_well_formed) as (E & _ & Hrun).
  split; [exact E|].
  assert (is_run_call run_args) as H1 by (repeat split).
  exact (Hrun run_args (mm_world (Replied reply_pieces)) reply_pieces H1
           eq_refl eq_refl eq_refl eq_refl).
Defined.

(** The connection without a name, after a [connection_remove] of the empty
    name and after one of [ClientX]. *)
Lemma empty_name_connection_stays_witness :
  dict_get (connections_of (MM.load_registry world_with_unnamed)) []
  = Some (added_record add_blank_name)
  /\ dict_get (connections_of
                 (MM.load_registry
                    (snd (MM._call_tool_impl dumps ascii_lower
                            (py "connection_remove")
                            (str_args [(py "name", py "")])
                            world_with_unnamed)))) []
     = Some (added_record add_blank_name)
  /\ dict_get (connections_of
                 (MM.load_registry
                    (snd (MM._call_tool_impl dumps ascii_lower
                            (py "connection_remove") remove_clientx
                            world_with_unnamed)))) []
     = Some (added_record add_blank_name).
Proof.
  assert (MM.disk world_with_unnamed <> MM.IoWriteFails) as Hd by discriminate.
  assert (dict_get (connections_of (MM.load_registry world_with_unnamed)) []
          = Some (added_record add_blank_name)) as Hc by reflexivity.
  split; [exact Hc|]. split.
  - exact (@RunFacts.empty_name_connection_stays dumps ascii_lower
             (py "connection_remove") (str_args [(py "name", py "")])
             world_with_unnamed _ Hd Hc).
  - exact (@RunFacts.empty_name_connection_stays dumps ascii_lower
             (py "connection_remove") remove_clientx world_with_unnamed _ Hd
             Hc).
Defined.

(** [ForIT] is available to [pwsh-manager] and resolves; [ClientX] is
    neither. *)
Lemma available_iff_resolves_witness :
  In (py "ForIT")
    (PwshManager.list_available_connections PwshManager.MCP_NAME
       (pwsh_world (Replied reply_ok)))
  /\ ~ In (py "ClientX")
       (PwshManager.list_available_connections PwshManager.MCP_NAME
          (pwsh_world (Replied reply_ok))).
Proof.
  split.
  - apply (@PwshToolFacts.available_iff_resolves PwshManager.MCP_NAME
             (pwsh_world (Replied reply_ok)) (py "ForIT")
             Checks.wf_registry_1).
    exists conn_forit. reflexivity.
  - intros H.
    apply (@PwshToolFacts.available_iff_resolves PwshManager.MCP_NAME
             (pwsh_world (Replied reply_ok)) (py "ClientX")
             Checks.wf_registry_1) in H.
    destruct H as [conn H]. discriminate.
Defined.

(** A [pwsh_run] on [ForIT] for the module [pnp]. *)
Lemma connection_tools_request_witness :
  PwshManager.calls
    (snd (PwshManager._handle_call_tool_impl PwshManager.MCP_NAME dumps
            (py "pwsh_run") forit_pnp_run (pwsh_world (Replied reply_result))))
  = [Post (py "/run")
       (Some [(py "tenant", py "forit.io"); (py "module", py "pnp");
              (py "sharepoint_tenant", py "foritllc");
              (py "command", py "Get-PnPList")])].
Proof.
  assert (get_or forit_pnp_run (py "connectionName") [] <> []) as Hn
    by discriminate.
  destruct (@PwshToolFacts.connection_tools_request PwshManager.MCP_NAME dumps
              forit_pnp_run (pwsh_world (Replied reply_result)) conn_forit Hn
              eq_refl) as (_ & _ & Hrun).
  rewrite Hrun by discriminate. reflexivity.
Defined.

(** A [pwsh_status] on [ForIT], with a session and without a session
    manager. *)
Lemma status_tool_witness :
  fst (PwshManager._handle_call_tool_impl PwshManager.MCP_NAME dumps
         (py "pwsh_status") forit_args (pwsh_world (Replied reply_connected)))
  = PwshManager.text_result
      ([0x2713] ++ py " ForIT (forit.io) - exo: Connected")
  /\ fst (PwshManager._handle_call_tool_impl PwshManager.MCP_NAME dumps
            (py "pwsh_status") forit_args (pwsh_world (Raised refused)))
     = PwshManager.text_result
         ([0x2717] ++ py " ForIT (forit.io) - exo: Not connected").
Proof.
  assert (get_or forit_args (py "connectionName") [] <> []) as Hn
    by discriminate.
  split.
  - destruct (@PwshToolFacts.status_tool PwshManager.MCP_NAME dumps forit_args
                (pwsh_world (Replied reply_connected)) conn_forit Hn eq_refl)
      as (_ & Hr & _).
    rewrite (Hr reply_connected eq_refl). reflexivity.
  - destruct (@PwshToolFacts.status_tool PwshManager.MCP_NAME dumps forit_args
                (pwsh_world (Raised refused)) conn_forit Hn eq_refl)
      as (_ & _ & He).
    rewrite (He refused eq_refl). reflexivity.
Defined.

(** A [pwsh_run] on [ForIT]: without a command, with a result, and without
    a session manager. *)
Lemma run_tool_witness :
  PwshManager._handle_call_tool_impl PwshManager.MCP_NAME dumps (py "pwsh_run")
    forit_args (pwsh_world (Replied reply_result))
  = (PwshManager.error_result (py "Error: command is required"),
     pwsh_world (Replied reply_result))
  /\ fst (PwshManager._handle_call_tool_impl PwshManager.MCP_NAME dumps
            (py "pwsh_run") forit_pnp_run (pwsh_world (Replied reply_result)))
     = PwshManager.text_result (py "3 lists")
  /\ fst (PwshManager._handle_call_tool_impl PwshManager.MCP_NAME dumps
            (py "pwsh_run") forit_pnp_run (pwsh_world (Raised refused)))
     = PwshManager.error_result
         (py "Error: Cannot connect to pwsh-manager. Is Docker running?").
Proof.
  split; [|split].
  - assert (get_or forit_args (py "connectionName") [] <> []) as Hn
      by discriminate.
    destruct (@PwshToolFacts.run_tool PwshManager.MCP_NAME dumps forit_args
                (pwsh_world (Replied reply_result)) conn_forit Hn eq_refl)
      as (H0 & _).
    apply H0. reflexivity.
  - assert (get_or forit_pnp_run (py "connectionName") [] <> []) as Hn
      by discriminate.
    destruct (@PwshToolFacts.run_tool PwshManager.MCP_NAME dumps forit_pnp_run
                (pwsh_world (Replied reply_result)) conn_forit Hn eq_refl)
      as (_ & H1).
    destruct H1 as (Hok & _); [discriminate|].
    rewrite (Hok reply_result eq_refl eq_refl). reflexivity.
  - assert (get_or forit_pnp_run (py "connectionName") [] <> []) as Hn
      by discriminate.
    destruct (@PwshToolFacts.run_tool PwshManager.MCP_NAME dumps forit_pnp_run
                (pwsh_world (Raised refused)) conn_forit Hn eq_refl)
      as (_ & H1).
    destruct H1 as (_ & _ & He); [discriminate|].
    rewrite (He refused eq_refl). reflexivity.
Defined.

(** A [pwsh_login] on [ForIT] answered with a device code, and one without
    a session manager. *)
Lemma login_tool_witness :
  fst (PwshManager._handle_call_tool_impl PwshManager.MCP_NAME dumps
         (py "pwsh_login") forit_args (pwsh_world (Replied reply_code)))
  = PwshManager.text_result
      (py "**DEVICE CODE: XYZ-789**" ++ nl
       ++ py "Go to: https://microsoft.com/devicelogin" ++ nl ++ nl
       ++ py "Connection: ForIT" ++ nl ++ py "Tenant: forit.io" ++ nl
       ++ py "Module: exo" ++ nl ++ nl
       ++ py "Authentication pending. Complete device code flow, then check status.")
  /\ fst (PwshManager._handle_call_tool_impl PwshManager.MCP_NAME dumps
            (py "pwsh_login") forit_args (pwsh_world (Raised refused)))
     = PwshManager.error_result
         (py "Login failed: Cannot connect to pwsh-manager. Is Docker running?").
Proof.
  assert (get_or forit_args (py "connectionName") [] <> []) as Hn
    by discriminate.
  split.
  - destruct (@PwshToolFacts.login_tool PwshManager.MCP_NAME dumps forit_args
                (pwsh_world (Replied reply_code)) conn_forit Hn eq_refl)
      as (Hc & _).
    rewrite (Hc reply_code (py "XYZ-789") eq_refl eq_refl); [reflexivity|].
    discriminate.
  - destruct (@PwshToolFacts.login_tool PwshManager.MCP_NAME dumps forit_args
                (pwsh_world (Raised refused)) conn_forit Hn eq_refl)
      as (_ & _ & He).
    rewrite (He refused eq_refl). reflexivity.
Defined.

(** [connection_add] without a tenant, and a name that [mm] does not
    declare. *)
Lemma declared_fields_enforced_witness :
  (exists msg,
     MM._call_tool_impl dumps ascii_lower (py "connection_add") add_incomplete
       registry_world
     = (MM.text_content (dumps (MM.error_doc msg)), registry_world))
  /\ MM._call_tool_impl dumps ascii_lower (py "connection_list") run_args
       registry_world
     = (MM.text_content (py "Unknown tool: connection_list"), registry_world).
Proof.
  destruct (EntryFacts.declared_fields_enforced dumps ascii_lower)
    as [Hreq Hunk].
  split.
  - apply (Hreq (nth 1 MMServer.list_tools
                   {| t_name := []; t_description := []; inputSchema := JNull |})
             (py "tenant") add_incomplete registry_world).
    + right. now left.
    + right. now left.
    + reflexivity.
  - apply Hunk. simpl. intuition discriminate.
Defined.

(** A [pwsh_run] on [ForIT] without a command, and a tool that
    [pwsh-manager] does not declare. *)
Lemma declared_fields_enforced_by_handler_witness :
  PwshManager.isError
    (fst (PwshManager._handle_call_tool_impl PwshManager.MCP_NAME dumps
            (py "pwsh_run") forit_args (pwsh_world (Replied reply_result))))
  = true
  /\ snd (PwshManager._handle_call_tool_impl PwshManager.MCP_NAME dumps
            (py "pwsh_restart") forit_args (pwsh_world (Replied reply_result)))
     = pwsh_world (Replied reply_result).
Proof.
  destruct (EntryFacts.declared_fields_enforced_by_handler PwshManager.MCP_NAME
              dumps) as [Hreq Hunk].
  split.
  - apply (Hreq (py "pwsh_run") [py "connectionName"; py "command"]
             (py "command") forit_args (pwsh_world (Replied reply_result))).
    + right. right. now left.
    + right. now left.
    + reflexivity.
  - apply (Hunk (py "pwsh_restart") forit_args
             (pwsh_world (Replied reply_result))).
    simpl. intuition discriminate.
Defined.

(** The loop of [pwsh-manager] on the first session: three responses, for
    the ids 1, 2 and "c". With [[1, 2]] for a first line the program ends
    there. In the second session [[1, 2]] is answered with an error under
    the id 5 of the request before it, and the tool call whose [params] are
    a list with an error under its own id 6. *)
Lemma main_answers_requests_witness :
  (exists p' docs,
     PwshServer.main PwshManager.MCP_NAME dumps clock dumps session
       (PwshServer.start (pwsh_world (Replied reply_ok)))
     = PwshServer.Alive p'
     /\ PwshServer.stdout p' = docs
     /\ Forall2 response_to [JNum 1; JNum 2; JStr (py "c")] docs)
  /\ PwshServer.main PwshManager.MCP_NAME dumps clock dumps
       (PwshServer.Json (JArr [JNum 1; JNum 2]) :: session)
       (PwshServer.start (pwsh_world (Replied reply_ok)))
     = PwshServer.Dead (PwshServer.start (pwsh_world (Replied reply_ok)))
  /\ (exists p',
        PwshServer.serve PwshManager.MCP_NAME dumps clock dumps
          (PwshServer.Json (JArr [JNum 1; JNum 2]))
          {| PwshServer.env := pwsh_world (Replied reply_ok);
             PwshServer.stdout := []; PwshServer.logged := [];
             PwshServer.request_id := Some (JNum 5) |}
        = PwshServer.Alive p'
        /\ PwshServer.stdout p'
           = [JObj [(py "jsonrpc", JStr (py "2.0")); (py "id", JNum 5);
                    (py "error",
                     JObj [(py "code", JNum (-32603));
                           (py "message",
                            JStr (py "'list' object has no attribute 'get'"))])]])
  /\ (exists p',
        PwshServer.serve PwshManager.MCP_NAME dumps clock dumps
          (request_line (JNum 6) (py "tools/call") (JArr []))
          (PwshServer.start (pwsh_world (Replied reply_ok)))
        = PwshServer.Alive p'
        /\ PwshServer.logged p' = []
        /\ PwshServer.stdout p'
           = [JObj [(py "jsonrpc", JStr (py "2.0")); (py "id", JNum 6);
                    (py "error",
                     JObj [(py "code", JNum (-32603));
                           (py "message",
                            JStr (py "'list' object has no attribute 'get'"))])]]).
Proof.
  destruct (EntryFacts.main_answers_requests PwshManager.MCP_NAME dumps clock
              dumps) as (Hgood & Hbad & _).
  split; [|split; [|split]].
  - assert (Forall (fun l => orderly l = true) session) as Ho
      by (repeat constructor).
    destruct (Hgood session (PwshServer.start (pwsh_world (Replied reply_ok)))
                Ho) as (p' & docs & E & S & F).
    exists p', docs. split; [exact E|]. split; [exact S | exact F].
  - destruct (Hbad (PwshServer.Json (JArr [JNum 1; JNum 2]))
                (PwshServer.start (pwsh_world (Replied reply_ok)))
                (py "'list' object has no attribute 'get'") eq_refl)
      as (Hdead & _).
    apply Hdead. reflexivity.
  - destruct (Hbad (PwshServer.Json (JArr [JNum 1; JNum 2]))
                {| PwshServer.env := pwsh_world (Replied reply_ok);
                   PwshServer.stdout := []; PwshServer.logged := [];
                   PwshServer.request_id := Some (JNum 5) |}
                (py "'list' object has no attribute 'get'") eq_refl)
      as (_ & _ & Hid).
    destruct (Hid (JNum 5) eq_refl) as (p' & E & _ & _ & S);
      [discriminate|].
    exists p'. split; [exact E | exact S].
  - destruct (Hbad (request_line (JNum 6) (py "tools/call") (JArr []))
                (PwshServer.start (pwsh_world (Replied reply_ok)))
                (py "'list' object has no attribute 'get'") eq_refl)
      as (_ & _ & Hid).
    destruct (Hid (JNum 6) eq_refl) as (p' & E & _ & L & S);
      [discriminate|].
    exists p'. split; [exact E|]. split; [exact L | exact S].
Defined.

(** The first session with and without its ids: the same tool call, logged
    once, and nothing written without the ids. The second session runs no
    tool. *)
Lemma main_runs_notifications_witness :
  (exists a b,
     PwshServer.main PwshManager.MCP_NAME dumps clock dumps session
       (PwshServer.start (pwsh_world (Replied reply_ok)))
     = PwshServer.Alive a
     /\ PwshServer.main PwshManager.MCP_NAME dumps clock dumps
          (map without_id session)
          (PwshServer.start (pwsh_world (Replied reply_ok)))
        = PwshServer.Alive b
     /\ PwshServer.env b = PwshServer.env a
     /\ PwshServer.logged b = PwshServer.logged a
     /\ PwshServer.stdout b = []
     /\ length (PwshServer.logged a) = 1%nat)
  /\ (exists a,
        PwshServer.main PwshManager.MCP_NAME dumps clock dumps broken_session
          (PwshServer.start (pwsh_world (Replied reply_ok)))
        = PwshServer.Alive a
        /\ length (PwshServer.logged a) = 0%nat).
Proof.
  split.
  - destruct (EntryFacts.main_runs_notifications PwshManager.MCP_NAME dumps
                clock dumps session
                (PwshServer.start (pwsh_world (Replied reply_ok))))
      as (Hsame & Hcount & _).
    specialize (Hsame (or_introl eq_refl)).
    destruct (PwshServer.main PwshManager.MCP_NAME dumps clock dumps session
                (PwshServer.start (pwsh_world (Replied reply_ok))))
      as [a|a|] eqn:Ea; [|vm_compute in Ea; discriminate Ea
                          |vm_compute in Ea; discriminate Ea].
    destruct (PwshServer.main PwshManager.MCP_NAME dumps clock dumps
                (map without_id session)
                (PwshServer.start (pwsh_world (Replied reply_ok))))
      as [b|b|] eqn:Eb; try contradiction.
    destruct Hsame as (He & Hl & Hs).
    destruct (Hcount a eq_refl) as (Hn & _).
    exists a, b. repeat split; assumption.
  - destruct (EntryFacts.main_runs_notifications PwshManager.MCP_NAME dumps
                clock dumps broken_session
                (PwshServer.start (pwsh_world (Replied reply_ok))))
      as (_ & Hcount & _).
    destruct (PwshServer.main PwshManager.MCP_NAME dumps clock dumps
                broken_session
                (PwshServer.start (pwsh_world (Replied reply_ok))))
      as [a|a|] eqn:Ea; [|vm_compute in Ea; discriminate Ea
                          |vm_compute in Ea; discriminate Ea].
    destruct (Hcount a eq_refl) as (Hn & _).
    exists a. split; [reflexivity | exact Hn].
Defined.

(** A connection added through [mm] for both adapters, seen from
    [pwsh-manager]; and [ForIT] once [mm] has removed it. *)
Lemma registry_handoff_witness :
  PwshManager.get_connection PwshManager.MCP_NAME (py "Shared")
    {| PwshManager.file :=
         MM.file (snd (MM._connection_add dumps add_shared registry_world));
       PwshManager.pool := fun _ => Replied reply_ok;
       PwshManager.calls := [] |}
  = Some (added_record add_shared)
  /\ PwshManager.get_connection PwshManager.MCP_NAME (py "ForIT")
       {| PwshManager.file :=
            MM.file (snd (MM._connection_remove dumps
                            (str_args [(py "name", py "ForIT")])
                            registry_world));
          PwshManager.pool := fun _ => Replied reply_ok;
          PwshManager.calls := [] |}
     = None.
Proof.
  split.
  - assert (add_accepted add_shared registry_world) as Ha.
    { split; [reflexivity|]. split; [exact guid_1_is_guid | reflexivity]. }
    destruct (@SharedRegistryFacts.registry_handoff PwshManager.MCP_NAME dumps
                add_shared registry_world (pwsh_world (Replied reply_ok))
                {| PwshManager.file :=
                     MM.file (snd (MM._connection_add dumps add_shared
                                     registry_world));
                   PwshManager.pool := fun _ => Replied reply_ok;
                   PwshManager.calls := [] |} eq_refl eq_refl) as [Hadd _].
    destruct (Hadd Ha eq_refl) as [E _]. exact E.
  - destruct (@SharedRegistryFacts.registry_handoff PwshManager.MCP_NAME dumps
                (str_args [(py "name", py "ForIT")]) registry_world
                (pwsh_world (Replied reply_ok))
                {| PwshManager.file :=
                     MM.file (snd (MM._connection_remove dumps
                                     (str_args [(py "name", py "ForIT")])
                                     registry_world));
                   PwshManager.pool := fun _ => Replied reply_ok;
                   PwshManager.calls := [] |} eq_refl eq_refl) as [_ Hrem].
    destruct (Hrem conn_forit) as [E _];
      [discriminate | reflexivity | reflexivity |]. exact E.
Defined.

End ScenarioChecks.
